(** * Wings R Us recommendation system: shallow embedding and checked properties

    The development follows the Python sources
    - [src/feature_engineering.py]            (class [FeatureEngineer]),
    - [src/recommendation_engine.py]          (class [RecommendationEngine]),
    - [src/enhanced_recommendation_engine.py] (classes
      [EnhancedRecommendationEngine] and [PilotTestingFramework]),
    - [src/feature_engineering_v2.py]         (the frequency table of the
      test data) and [src/evaluation.py]      (class [ModelEvaluator]).

    Conventions of the embedding.
    - Python numbers ([int] counts and [float] scores) are exact rationals
      [Q]; every ratio the code computes is the rational with the same
      numerator and denominator, so rounding of binary floating point is
      idealised away.
    - A Python [dict] is an association list in insertion order whose keys
      are pairwise distinct; assigning to a present key keeps its place,
      assigning to a new key appends.
    - Code that can raise returns a [result]; the exceptions are the Python
      ones.
    - A call [self.name(...)] looks [name] up in the namespace of the class
      and raises [AttributeError] when it is absent; the namespace is a
      parameter of the method body, so the body can also be read on a
      subclass that defines more names.
    - [datetime.now()] is an input of the call: one instant per call. *)

From Stdlib Require Import List String Ascii Bool Arith ZArith QArith Qround.
From Stdlib Require Import Lia Lqa Permutation Sorted.
Import ListNotations.

Set Implicit Arguments.

(* ================================================================== *)
(** * Part I. The embedding                                            *)
(* ================================================================== *)

(** ** Python runtime pieces shared by the three classes *)
Module Py.

Inductive exn : Type :=
| AttributeError (name : string)
| TypeError (name : string)
| ValueError (msg : string)
| IndexError
| KeyError (key : string)
| UnboundLocalError (name : string)
| ZeroDivisionError.

Inductive result (A : Type) : Type :=
| Ok (a : A)
| Raise (e : exn).
Arguments Ok {A} a.
Arguments Raise {A} e.

Definition bind {A B} (m : result A) (k : A -> result B) : result B :=
  match m with
  | Ok a => k a
  | Raise e => Raise e
  end.

(** [for x in xs: acc = body(acc, x)] where the body may raise. *)
Fixpoint for_each {A S} (body : S -> A -> result S) (xs : list A) (acc : S)
  : result S :=
  match xs with
  | [] => Ok acc
  | x :: xs' => bind (body acc x) (for_each body xs')
  end.

(** [[f(x) for x in xs]] where [f] may raise. *)
Fixpoint map_result {A B} (f : A -> result B) (xs : list A) : result (list B) :=
  match xs with
  | [] => Ok []
  | x :: xs' => bind (f x) (fun y => bind (map_result f xs') (fun ys => Ok (y :: ys)))
  end.

(** True division [a / b] of Python numbers. *)
Definition truediv (a b : Q) : result Q :=
  if Qeq_bool b 0 then Raise ZeroDivisionError else Ok (a / b).

Definition Qlt_bool (a b : Q) : bool := negb (Qle_bool b a).

(** [int(x)]: truncation toward zero. *)
Definition int_of (x : Q) : Z :=
  if Qle_bool 0 x then Qfloor x else Qceiling x.

(** A count as a Python number. *)
Definition Qnat (n : nat) : Q := inject_Z (Z.of_nat n).

Definition len {A} (l : list A) : Q := Qnat (List.length l).

(** [x in xs] for a list of strings. *)
Definition mem (x : string) (xs : list string) : bool :=
  existsb (String.eqb x) xs.

(** [list(set(items))]: the distinct items.  Python leaves the iteration
    order of a set open; the model lists them by first occurrence, and the
    properties below are stated through lookups, which do not depend on
    that order. *)
Fixpoint unique (items : list string) : list string :=
  match items with
  | [] => []
  | x :: xs => x :: filter (fun y => negb (String.eqb x y)) (unique xs)
  end.

(** [enumerate(xs)] *)
Fixpoint enumerate_from {A} (i : nat) (xs : list A) : list (nat * A) :=
  match xs with
  | [] => []
  | x :: xs' => (i, x) :: enumerate_from (S i) xs'
  end.
Definition enumerate {A} (xs : list A) : list (nat * A) := enumerate_from 0 xs.

(** *** Dictionaries with string keys *)
Definition dict (V : Type) : Type := list (string * V).

Fixpoint get {V} (d : dict V) (k : string) : option V :=
  match d with
  | [] => None
  | (k', v) :: d' => if String.eqb k k' then Some v else get d' k
  end.

(** [d.get(k, dflt)] *)
Definition get_or {V} (d : dict V) (k : string) (dflt : V) : V :=
  match get d k with
  | Some v => v
  | None => dflt
  end.

(** [d[k] = v] *)
Fixpoint set {V} (d : dict V) (k : string) (v : V) : dict V :=
  match d with
  | [] => [(k, v)]
  | (k', v') :: d' =>
      if String.eqb k k' then (k', v) :: d' else (k', v') :: set d' k v
  end.

(** [d[k]] *)
Definition subscript {V} (d : dict V) (k : string) : result V :=
  match get d k with
  | Some v => Ok v
  | None => Raise (KeyError k)
  end.

Definition keys {V} (d : dict V) : list string := map fst d.

(** [d[k] = d.get(k, 0) + x], which is also [d[k] += x] on a
    [defaultdict(float)] or [defaultdict(int)]. *)
Definition add_to (d : dict Q) (k : string) (x : Q) : dict Q :=
  set d k (get_or d k 0 + x).

(** [sorted(xs, key=key, reverse=True)]: stable, so entries with equal keys
    keep their relative order. *)
Fixpoint insert_desc {A} (key : A -> Q) (x : A) (l : list A) : list A :=
  match l with
  | [] => [x]
  | y :: l' => if Qlt_bool (key x) (key y) then y :: insert_desc key x l'
               else x :: l
  end.
Definition sorted_desc {A} (key : A -> Q) (l : list A) : list A :=
  fold_right (insert_desc key) [] l.

(** [x] may stand before [y] in a list sorted by [key], highest first. *)
Definition desc {A} (key : A -> Q) (x y : A) : Prop := key y <= key x.

(** *** Strings *)
Definition lower_ascii (c : ascii) : ascii :=
  let n := nat_of_ascii c in
  if (65 <=? n)%nat && (n <=? 90)%nat then ascii_of_nat (n + 32) else c.

(** [s.lower()] on ASCII text. *)
Fixpoint lower (s : string) : string :=
  match s with
  | EmptyString => EmptyString
  | String c s' => String (lower_ascii c) (lower s')
  end.

(** [sub in s] for strings. *)
Fixpoint contains (sub s : string) : bool :=
  if String.prefix sub s then true
  else match s with
       | EmptyString => false
       | String _ s' => contains sub s'
       end.

Definition is_space (c : ascii) : bool :=
  let n := nat_of_ascii c in
  ((9 <=? n)%nat && (n <=? 13)%nat) || ((28 <=? n)%nat && (n <=? 32)%nat).

Fixpoint lstrip (s : string) : string :=
  match s with
  | EmptyString => EmptyString
  | String c s' => if is_space c then lstrip s' else s
  end.

Fixpoint rstrip (s : string) : string :=
  match s with
  | EmptyString => EmptyString
  | String c s' =>
      match rstrip s' with
      | EmptyString => if is_space c then EmptyString else String c EmptyString
      | t => String c t
      end
  end.

(** [s.strip()] *)
Definition strip (s : string) : string := rstrip (lstrip s).

End Py.

Module PyNotations.
Notation "'let*' x ':=' m 'in' k" := (Py.bind m (fun x => k))
  (at level 10, x name, m at level 100, k at level 200).
End PyNotations.

(* ------------------------------------------------------------------ *)
(** ** [src/feature_engineering.py]: class [FeatureEngineer] *)
Module FeatureEngineering.
Import Py PyNotations.
Local Open Scope string_scope.
Local Open Scope Q_scope.

(** The orders table: its column names and its rows.  A row carries the
    two columns the methods read, [order_id] and [item_name]. *)
Record DataFrame : Type := {
  columns : list string;
  rows : list (Z * string)
}.

(** The attributes set by [__init__]. *)
Record FeatureEngineer : Type := {
  item_frequency : dict Q;
  item_cooccurrence : dict (dict Q);
  customer_preferences : dict (dict Q);
  store_patterns : dict (dict Q)
}.

Definition __init__ : FeatureEngineer := {|
  item_frequency := [];
  item_cooccurrence := [];
  customer_preferences := [];
  store_patterns := []
|}.

(** [orders_df.groupby('order_id')['item_name'].apply(list).to_dict()]:
    one entry per order id, ids ascending, items in row order. *)
Fixpoint group_insert (oid : Z) (item : string) (g : list (Z * list string))
  : list (Z * list string) :=
  match g with
  | [] => [(oid, [item])]
  | (k, items) :: g' =>
      if (oid =? k)%Z then (k, (items ++ [item])%list) :: g'
      else if (oid <? k)%Z then (oid, [item]) :: g
      else (k, items) :: group_insert oid item g'
  end.

Definition group_orders (df : DataFrame) : list (Z * list string) :=
  fold_left (fun g r => group_insert (fst r) (snd r) g) (rows df) [].

(** [orders_df['item_name'].value_counts()]: occurrences per item, most
    frequent first. *)
Definition value_counts (names : list string) : dict Q :=
  sorted_desc snd (fold_left (fun d n => add_to d n 1) names []).

(** [_calculate_item_frequency] *)
Definition _calculate_item_frequency (df : DataFrame) : dict Q :=
  if negb (mem "item_name" (columns df)) then []
  else
    let total_items := len (rows df) in
    let item_counts := value_counts (map snd (rows df)) in
    map (fun kv => (fst kv, snd kv / total_items)) item_counts.

(** [cooccurrence[item1][item2] += 1] on the nested [defaultdict]. *)
Definition bump (cooccurrence : dict (dict Q)) (item1 item2 : string)
  : dict (dict Q) :=
  set cooccurrence item1 (add_to (get_or cooccurrence item1 []) item2 1).

(** The two nested [for ... in enumerate(unique_items)] loops of one order;
    the state is [(cooccurrence, total_pairs)]. *)
Definition count_order (st : dict (dict Q) * Q) (items : list string)
  : dict (dict Q) * Q :=
  let unique_items := unique items in
  fold_left (fun st1 ix1 =>
    fold_left (fun st2 ix2 =>
      if negb (Nat.eqb (fst ix1) (fst ix2))
      then (bump (fst st2) (snd ix1) (snd ix2), snd st2 + 1)
      else st2)
      (enumerate unique_items) st1)
    (enumerate unique_items) st.

(** [_calculate_item_cooccurrence] *)
Definition _calculate_item_cooccurrence (df : DataFrame) : dict (dict Q) :=
  if negb (mem "order_id" (columns df)) || negb (mem "item_name" (columns df))
  then []
  else
    let order_items := group_orders df in
    let '(cooccurrence, total_pairs) :=
      fold_left (fun st o => count_order st (snd o)) order_items ([], 0) in
    map (fun e1 =>
           (fst e1,
            map (fun e2 =>
                   (fst e2,
                    if Qlt_bool 0 total_pairs then snd e2 / total_pairs else 0))
                (snd e1)))
        cooccurrence.

(** [rules[item_a].append((item_b, confidence))] on [defaultdict(list)]. *)
Definition append_rule (rules : dict (list (string * Q)))
  (item_a item_b : string) (confidence : Q) : dict (list (string * Q)) :=
  set rules item_a (get_or rules item_a [] ++ [(item_b, confidence)])%list.

(** [_create_market_basket_rules]; it reads [self.item_cooccurrence]. *)
Definition _create_market_basket_rules (self : FeatureEngineer) (df : DataFrame)
  : result (dict (list (string * Q))) :=
  if negb (mem "order_id" (columns df)) || negb (mem "item_name" (columns df))
  then Ok []
  else
    let order_items := group_orders df in
    let total_orders := len order_items in
    let support_counts :=
      fold_left (fun sup o =>
                   fold_left (fun sup' item => add_to sup' item 1)
                             (unique (snd o)) sup)
                order_items [] in
    let* item_support :=
      map_result (fun kv => let* p := truediv (snd kv) total_orders in
                            Ok (fst kv, p))
                 support_counts in
    let* rules :=
      for_each (fun rules o =>
        let unique_items := unique (snd o) in
        for_each (fun rules1 ix1 =>
          for_each (fun rules2 ix2 =>
            if negb (Nat.eqb (fst ix1) (fst ix2)) then
              let item_a := snd ix1 in
              let item_b := snd ix2 in
              let* confidence :=
                truediv (get_or (get_or (item_cooccurrence self) item_a [])
                                item_b 0)
                        (get_or item_support item_a (1 # 1000)) in
              if Qlt_bool (1 # 10) confidence
              then Ok (append_rule rules2 item_a item_b confidence)
              else Ok rules2
            else Ok rules2)
            (enumerate unique_items) rules1)
          (enumerate unique_items) rules)
        order_items [] in
    Ok (map (fun e => (fst e, firstn 10 (sorted_desc snd (snd e)))) rules).

(** The three artifacts of [create_features] that are derived from the
    orders table alone. *)
Record Features : Type := {
  f_item_frequency : dict Q;
  f_item_cooccurrence : dict (dict Q);
  f_market_basket : dict (list (string * Q))
}.

(** [create_features], restricted to those artifacts.  The results go into
    the [features] dictionary; no attribute of [self] is assigned. *)
Definition create_features (self : FeatureEngineer) (orders : DataFrame)
  : result Features :=
  let freq := _calculate_item_frequency orders in
  let cooc := _calculate_item_cooccurrence orders in
  let* mb := _create_market_basket_rules self orders in
  Ok {| f_item_frequency := freq;
        f_item_cooccurrence := cooc;
        f_market_basket := mb |}.

(** *** The quantities the specification names *)

(** Number of orders in which both [a] and [b] appear. *)
Definition orders_with_both (a b : string) (orders : list (Z * list string))
  : nat :=
  List.length (filter (fun o => mem a (snd o) && mem b (snd o)) orders).

(** Number of ordered pairs of distinct items of one order. *)
Definition pairs_of_order (items : list string) : nat :=
  (List.length (unique items) * (List.length (unique items) - 1))%nat.

(** Total count of ordered pairs across the dataset. *)
Definition total_ordered_pairs (orders : list (Z * list string)) : nat :=
  fold_right (fun o n => (pairs_of_order (snd o) + n)%nat) 0%nat orders.

(** The co-occurrence value a reader obtains, [m.get(a, {}).get(b, 0)]. *)
Definition cooccurrence_of (m : dict (dict Q)) (a b : string) : Q :=
  get_or (get_or m a []) b 0.

(** Support of [a]: the fraction of orders containing [a]. *)
Definition support_of (a : string) (orders : list (Z * list string)) : Q :=
  Qnat (List.length (filter (fun o => mem a (snd o)) orders))
  / Qnat (List.length orders).

(** Confidence of the rule [a -> b]: co-occurrence over support. *)
Definition confidence_of (m : dict (dict Q)) (orders : list (Z * list string))
  (a b : string) : Q :=
  cooccurrence_of m a b / support_of a orders.

(** *** The loops of [_calculate_item_cooccurrence] as one pass over pairs *)

(** The pairs [(item1, item2)] the nested loops of one order visit. *)
Definition order_pairs (unique_items : list string) : list (string * string) :=
  flat_map (fun ix1 =>
    flat_map (fun ix2 =>
      if negb (Nat.eqb (fst ix1) (fst ix2)) then [(snd ix1, snd ix2)] else [])
      (enumerate unique_items))
    (enumerate unique_items).

Definition dataset_pairs (orders : list (Z * list string))
  : list (string * string) :=
  flat_map (fun o => order_pairs (unique (snd o))) orders.

Definition count_pairs (st : dict (dict Q) * Q) (pairs : list (string * string))
  : dict (dict Q) * Q :=
  fold_left (fun st p => (bump (fst st) (fst p) (snd p), snd st + 1)) pairs st.

(** How often the pair [(a, b)] is visited. *)
Definition occurrences (a b : string) (pairs : list (string * string)) : nat :=
  List.length (filter (fun p => String.eqb a (fst p) && String.eqb b (snd p))
                      pairs).

(** The pairs of distinct items of a duplicate-free list. *)
Definition item_pairs (u : list string) : list (string * string) :=
  flat_map (fun x1 =>
    flat_map (fun x2 => if negb (String.eqb x1 x2) then [(x1, x2)] else []) u)
    u.

Definition count_of (x : string) (u : list string) : nat :=
  List.length (filter (String.eqb x) u).

(** Every value of the dictionary is positive. *)
Definition positive_values (d : dict Q) : Prop := Forall (fun kv => 0 < snd kv) d.

(** The conversion of one row of counts to probabilities. *)
Definition scale_row (t : Q) (row : dict Q) : dict Q :=
  map (fun e2 => (fst e2, if Qlt_bool 0 t then snd e2 / t else 0)) row.

(** The order table of the end-to-end scenario of the specification. *)
Definition scenario_orders : DataFrame := {|
  columns := ["order_id"; "item_name"];
  rows := [ (1%Z, "Traditional Wings"); (1%Z, "Ranch Dip");
            (2%Z, "Traditional Wings"); (2%Z, "Fries");
            (3%Z, "Fries"); (3%Z, "Soda") ]
|}.


(** *** [_categorize_items] *)

(** The keyword groups, in the order of the dictionary literal. *)
Definition category_keywords : list (string * list string) :=
  [ ("wings", ["wing"; "chicken"; "buffalo"; "bbq"; "hot"; "mild"; "spicy"]);
    ("drinks", ["drink"; "soda"; "cola"; "sprite"; "juice"; "water"; "beer";
                "coffee"; "tea"]);
    ("sides", ["fries"; "onion"; "rings"; "salad"; "coleslaw"; "bread"; "dip";
               "sauce"]);
    ("desserts", ["ice cream"; "cake"; "cookie"; "brownie"; "pie"; "dessert"]) ].

(** [any(keyword in item_lower for keyword in keywords)] *)
Definition any_keyword (keywords : list string) (item_lower : string) : bool :=
  existsb (fun keyword => contains keyword item_lower) keywords.

(** The inner [for category, keywords in category_keywords.items()] loop
    with its [break]: the first group with a keyword in the name, else
    ["other"]. *)
Fixpoint first_category (groups : list (string * list string))
  (item_lower : string) : string :=
  match groups with
  | [] => "other"
  | (category, keywords) :: groups' =>
      if any_keyword keywords item_lower then category
      else first_category groups' item_lower
  end.

Definition category_of (item : string) : string :=
  first_category category_keywords (lower item).

(** [_categorize_items]; [orders_df['item_name'].unique()] lists the names
    by first appearance. *)
Definition _categorize_items (df : DataFrame) : dict string :=
  if negb (mem "item_name" (columns df)) then []
  else
    fold_left (fun categories item => set categories item (category_of item))
              (unique (map snd (rows df))) [].

(** Sum of the values of a dictionary. *)
Definition total (d : dict Q) : Q := fold_right (fun kv s => snd kv + s) 0 d.

(** An engineer whose [item_cooccurrence] attribute has been filled in by
    hand with the matrix of the table. *)
Definition filled_engineer (df : DataFrame) : FeatureEngineer := {|
  item_frequency := [];
  item_cooccurrence := _calculate_item_cooccurrence df;
  customer_preferences := [];
  store_patterns := []
|}.

(** What every list of a rule set satisfies: at most ten entries, highest
    confidence first, every confidence above the threshold. *)
Definition rule_list_ok (l : list (string * Q)) : Prop :=
  (List.length l <= 10)%nat
  /\ StronglySorted (desc snd) l
  /\ Forall (fun r => 1 # 10 < snd r) l.

(** Every confidence kept in a rule set is above the threshold. *)
Definition confident_rules (rules : dict (list (string * Q))) : Prop :=
  forall a l, In (a, l) rules -> Forall (fun r => 1 # 10 < snd r) l.

End FeatureEngineering.

(* ------------------------------------------------------------------ *)
(** ** [src/recommendation_engine.py]: class [RecommendationEngine] *)
Module RecommendationEngine.
Import Py PyNotations.
Local Open Scope string_scope.
Local Open Scope Q_scope.

(** The [features] dictionary.  Every reader goes through
    [features.get(name, {})], so an absent entry is the empty dictionary. *)
Record Features : Type := {
  item_cooccurrence : dict (dict Q);
  market_basket : dict (list (string * Q));
  item_categories : dict string;
  item_frequency : dict Q
}.

Record Engine : Type := {
  features : option Features;
  trained : bool;
  item_similarity : dict (dict Q);
  popularity_scores : dict Q
}.

Definition __init__ : Engine := {|
  features := None;
  trained := false;
  item_similarity := [];
  popularity_scores := []
|}.

(** [self.features.get(...)]: fails on [None]. *)
Definition self_features (self : Engine) : result Features :=
  match features self with
  | Some f => Ok f
  | None => Raise (AttributeError "get")
  end.

(** [_get_cooccurrence_recommendations] *)
Definition _get_cooccurrence_recommendations (self : Engine)
  (order_items exclude_items : list string) : result (list (string * Q)) :=
  let* f := self_features self in
  let cooccurrence := item_cooccurrence f in
  Ok (fold_left (fun recommendations item =>
        match get cooccurrence item with
        | Some related =>
            fold_left (fun recs rs =>
                         if negb (mem (fst rs) exclude_items)
                         then add_to recs (fst rs) (snd rs) else recs)
                      related recommendations
        | None => recommendations
        end)
      order_items []).

(** [_get_market_basket_recommendations] *)
Definition _get_market_basket_recommendations (self : Engine)
  (order_items exclude_items : list string) : result (list (string * Q)) :=
  let* f := self_features self in
  let market_basket := market_basket f in
  Ok (fold_left (fun recommendations item =>
        match get market_basket item with
        | Some related =>
            fold_left (fun recs rc =>
                         if negb (mem (fst rc) exclude_items)
                         then add_to recs (fst rc) (snd rc) else recs)
                      related recommendations
        | None => recommendations
        end)
      order_items []).

Definition complementary_rules : dict (list string) :=
  [ ("wings", ["drinks"; "sides"]);
    ("drinks", ["wings"; "sides"; "desserts"]);
    ("sides", ["wings"; "drinks"]);
    ("desserts", ["drinks"]) ].

(** [_get_complementary_categories]; the sets are read by membership only. *)
Definition _get_complementary_categories (order_categories : list string)
  : list string :=
  let complementary :=
    fold_left (fun acc category =>
                 match get complementary_rules category with
                 | Some cs => (acc ++ cs)%list
                 | None => acc
                 end)
              order_categories [] in
  match complementary with
  | [] => ["wings"; "drinks"; "sides"]
  | _ => complementary
  end.

(** [_get_category_recommendations] *)
Definition _get_category_recommendations (self : Engine)
  (order_items exclude_items : list string) : result (list (string * Q)) :=
  let* f := self_features self in
  let item_categories := item_categories f in
  let order_categories :=
    fold_left (fun acc item =>
                 match get item_categories item with
                 | Some c => (acc ++ [c])%list
                 | None => acc
                 end)
              order_items [] in
  let complementary_categories := _get_complementary_categories order_categories in
  Ok (fold_left (fun recommendations ic =>
        if negb (mem (fst ic) exclude_items) && mem (snd ic) complementary_categories
        then
          let item_freq := get_or (item_frequency f) (fst ic) 0 in
          add_to recommendations (fst ic) (item_freq * (5 # 10))
        else recommendations)
      item_categories []).

(** [_get_popularity_recommendations] *)
Definition _get_popularity_recommendations (self : Engine)
  (exclude_items : list string) : result (list (string * Q)) :=
  let* f := self_features self in
  let recommendations :=
    filter (fun ifr => negb (mem (fst ifr) exclude_items)) (item_frequency f) in
  Ok (firstn 10 (sorted_desc snd recommendations)).

(** One [for item, score in recs: recommendations[item] =
    recommendations.get(item, 0) + score * weight] loop. *)
Definition accumulate (weight : Q) (recs : list (string * Q))
  (recommendations : dict Q) : dict Q :=
  fold_left (fun d its => set d (fst its) (get_or d (fst its) 0 + snd its * weight))
            recs recommendations.

(** The dictionary [recommendations] after the four loops. *)
Definition blend (cooccurrence_recs basket_recs category_recs popularity_recs
                  : list (string * Q)) : dict Q :=
  accumulate (1 # 10) popularity_recs
    (accumulate (2 # 10) category_recs
      (accumulate (3 # 10) basket_recs
        (accumulate (4 # 10) cooccurrence_recs []))).

(** [_recommend_items] *)
Definition _recommend_items (self : Engine) (order_items : list string)
  (exclude_items : option (list string)) : result (list string) :=
  let exclude_items := match exclude_items with Some e => e | None => [] end in
  let* cooccurrence_recs :=
    _get_cooccurrence_recommendations self order_items exclude_items in
  let* basket_recs :=
    _get_market_basket_recommendations self order_items exclude_items in
  let* category_recs :=
    _get_category_recommendations self order_items exclude_items in
  let* popularity_recs := _get_popularity_recommendations self exclude_items in
  let recommendations :=
    blend cooccurrence_recs basket_recs category_recs popularity_recs in
  let sorted_recs := sorted_desc snd recommendations in
  Ok (map fst (firstn 3 sorted_recs)).

(** A cell of the test table: text, or the missing-value marker. *)
Inductive Cell : Type :=
| NaN
| Str (s : string).

(** A row of the test table; [None] is an absent column. *)
Record Row : Type := {
  CUSTOMER_ID : option Cell;
  ORDER_ID : option Cell;
  item1 : option Cell;
  item2 : option Cell;
  item3 : option Cell
}.

(** [_extract_order_items] *)
Definition _extract_order_items (order_row : Row) : list string :=
  fold_left (fun items col =>
               match col with
               | Some (Str s) =>
                   if negb (String.eqb (strip s) EmptyString) && negb (String.eqb s "nan")
                   then (items ++ [strip s])%list else items
               | Some NaN => items
               | None => items
               end)
            [item1 order_row; item2 order_row; item3 order_row] [].

(** What [row.get(name, idx)] yields: the cell, or the row index. *)
Inductive Value : Type :=
| OfCell (c : Cell)
| OfIndex (idx : nat).

Record Output : Type := {
  out_CUSTOMER_ID : Value;
  out_ORDER_ID : Value;
  out_item1 : Cell;
  out_item2 : Cell;
  out_item3 : Cell;
  RECOMMENDATION_1 : string;
  RECOMMENDATION_2 : string;
  RECOMMENDATION_3 : string
}.

Definition row_get (c : option Cell) (dflt : Value) : Value :=
  match c with
  | Some c => OfCell c
  | None => dflt
  end.

Definition popular_item_fallback : string := "popular_item_fallback".

(** [while len(recs) < 3: recs.append("popular_item_fallback")]; each turn
    lengthens [recs], so three turns are enough. *)
Fixpoint pad_loop (turns : nat) (recs : list string) : list string :=
  match turns with
  | O => recs
  | S turns' =>
      if (List.length recs <? 3)%nat
      then pad_loop turns' (recs ++ [popular_item_fallback])%list
      else recs
  end.

(** [recs[i]] *)
Definition item_at (recs : list string) (i : nat) : result string :=
  match nth_error recs i with
  | Some r => Ok r
  | None => Raise IndexError
  end.

(** The body of the [for idx, row in test_data.iterrows()] loop. *)
Definition predict_row (self : Engine) (idx : nat) (row : Row) : result Output :=
  let order_items := _extract_order_items row in
  let* recs := _recommend_items self order_items (Some order_items) in
  let recs := pad_loop 3 recs in
  let* r1 := item_at recs 0 in
  let* r2 := item_at recs 1 in
  let* r3 := item_at recs 2 in
  Ok {| out_CUSTOMER_ID := row_get (CUSTOMER_ID row) (OfIndex idx);
        out_ORDER_ID := row_get (ORDER_ID row) (OfIndex idx);
        out_item1 := match item1 row with Some c => c | None => Str EmptyString end;
        out_item2 := match item2 row with Some c => c | None => Str EmptyString end;
        out_item3 := match item3 row with Some c => c | None => Str EmptyString end;
        RECOMMENDATION_1 := r1;
        RECOMMENDATION_2 := r2;
        RECOMMENDATION_3 := r3 |}.

(** [predict]; the [features] argument is not read, the method uses
    [self.features]. *)
Definition predict (self : Engine) (test_data : list Row) : result (list Output) :=
  if negb (trained self)
  then Raise (ValueError "Model must be trained before making predictions")
  else map_result (fun ir => predict_row self (fst ir) (snd ir))
                  (enumerate test_data).

(** [_calculate_popularity_scores]: the value it assigns to
    [self.popularity_scores]. *)
Definition _calculate_popularity_scores (self : Engine) : result (dict Q) :=
  let* f := self_features self in
  let max_freq :=
    match item_frequency f with
    | [] => 1
    | kv :: rest =>
        fold_left (fun m kv' => if Qlt_bool m (snd kv') then snd kv' else m)
                  rest (snd kv)
    end in
  map_result (fun kv => let* p := truediv (snd kv) max_freq in Ok (fst kv, p))
             (item_frequency f).

(** [train]: the object after the call, and how the call ended. *)
Definition train (self : Engine) (f : Features) : Engine * result unit :=
  let self1 := {| features := Some f;
                  trained := trained self;
                  item_similarity := item_similarity self;
                  popularity_scores := popularity_scores self |} in
  match _calculate_popularity_scores self1 with
  | Ok scores =>
      ({| features := Some f;
          trained := true;
          item_similarity := item_similarity self;
          popularity_scores := scores |}, Ok tt)
  | Raise e => (self1, Raise e)
  end.

(** *** The quantities the specification names *)

(** Sum of the scores one generator gives to [item]. *)
Fixpoint contribution (recs : list (string * Q)) (item : string) : Q :=
  match recs with
  | [] => 0
  | (i, s) :: recs' =>
      (if String.eqb item i then s else 0) + contribution recs' item
  end.

(** Descending by score. *)
Definition score_desc (x y : string * Q) : Prop := snd y <= snd x.

(** The contract of the score blender: the four generators return their
    candidate lists; the combined score of an item is the weighted sum of
    its contributions, one entry per item; the result is the first three
    names of the entries ranked by combined score, highest first. *)
Definition blender_contract (self : Engine) (order_items : list string)
  (exclude_items : option (list string)) : Prop :=
  let exclude := match exclude_items with Some e => e | None => [] end in
  exists c m g p,
    _get_cooccurrence_recommendations self order_items exclude = Ok c
    /\ _get_market_basket_recommendations self order_items exclude = Ok m
    /\ _get_category_recommendations self order_items exclude = Ok g
    /\ _get_popularity_recommendations self exclude = Ok p
    /\ (forall item,
          get_or (blend c m g p) item 0
          == (4 # 10) * contribution c item + (3 # 10) * contribution m item
             + (2 # 10) * contribution g item + (1 # 10) * contribution p item)
    /\ (forall item,
          In item (keys (blend c m g p))
          <-> In item (map fst c) \/ In item (map fst m)
              \/ In item (map fst g) \/ In item (map fst p))
    /\ NoDup (keys (blend c m g p))
    /\ exists ranked,
         Permutation ranked (blend c m g p)
         /\ StronglySorted score_desc ranked
         /\ _recommend_items self order_items exclude_items
            = Ok (map fst (firstn 3 ranked)).

(** The three recommendation fields of an output row: what the blender
    returned for the row, then the fallback literal up to three. *)
Definition three_slots (self : Engine) (row : Row) (out : Output) : Prop :=
  exists recs,
    _recommend_items self (_extract_order_items row)
                     (Some (_extract_order_items row)) = Ok recs
    /\ (List.length recs <= 3)%nat
    /\ [RECOMMENDATION_1 out; RECOMMENDATION_2 out; RECOMMENDATION_3 out]
       = (recs ++ repeat popular_item_fallback (3 - List.length recs))%list.

(** The features of the end-to-end scenario of the specification. *)
Definition scenario_features : Features := {|
  item_cooccurrence :=
    FeatureEngineering._calculate_item_cooccurrence
      FeatureEngineering.scenario_orders;
  market_basket := [];
  item_categories := [];
  item_frequency :=
    FeatureEngineering._calculate_item_frequency
      FeatureEngineering.scenario_orders
|}.

Definition scenario_engine : Engine := fst (train __init__ scenario_features).

(** An engine trained on features without any item. *)
Definition no_menu_engine : Engine :=
  fst (train __init__ {| item_cooccurrence := []; market_basket := [];
                         item_categories := []; item_frequency := [] |}).

Definition wings_row : Row := {|
  CUSTOMER_ID := Some (Str "12345");
  ORDER_ID := None;
  item1 := Some (Str " Traditional Wings ");
  item2 := Some NaN;
  item3 := None
|}.

(** No key of the dictionary is an excluded item. *)
Definition clear_of (exclude : list string) (d : dict Q) : Prop :=
  forall k, In k (keys d) -> ~ In k exclude.

(** What [_extract_order_items] takes from one cell of a row. *)
Definition usable_cell (col : option Cell) : list string :=
  match col with
  | Some (Str s) =>
      if negb (String.eqb (strip s) EmptyString) && negb (String.eqb s "nan")
      then [strip s] else []
  | _ => []
  end.

(** One step of [max] over the values of a dictionary. *)
Definition max_step (m : Q) (kv : string * Q) : Q :=
  if Qlt_bool m (snd kv) then snd kv else m.

(** Features whose only frequency is 0. *)
Definition zero_features : Features := {|
  item_cooccurrence := [];
  market_basket := [];
  item_categories := [];
  item_frequency := [("Traditional Wings", 0)]
|}.

End RecommendationEngine.

(* ------------------------------------------------------------------ *)
(** ** [src/enhanced_recommendation_engine.py]:
       class [EnhancedRecommendationEngine] *)
Module Enhanced.
Import Py PyNotations.
Local Open Scope string_scope.
Local Open Scope Q_scope.

Inductive RecType : Type := personalized | trending | seasonal.

(** Instants and durations are counted in microseconds. *)
Definition day_us : Z := 86400000000.

(** [(a - b).days] of two [datetime] values. *)
Definition days_between (a b : Z) : Z := ((a - b) / day_us)%Z.

(** A method of the class, by the arguments it accepts. *)
Inductive Method : Type :=
| m_items_customer_type_platform_store
    (f : list string -> string -> string -> string -> option string -> list string)
| m_recs_items_count (f : list string -> list string -> Z -> list string)
| m_exclude_store (f : list string -> option string -> list string)
| m_exclude (f : list string -> list string)
| m_exclude_type_store (f : list string -> string -> option string -> list string)
| m_item_items_customer_type (f : string -> list string -> string -> string -> Q)
| m_item_items_customer (f : string -> list string -> string -> Q)
| m_item_items_rectype_type (f : string -> list string -> RecType -> string -> string)
| m_item_items_rectype (f : string -> list string -> RecType -> string)
| m_item (f : string -> string)
| m_item_flag (f : string -> bool)
| m_item_customer (f : string -> string -> Q)
| m_items_customer (f : list string -> string -> list string)
| m_public.

(** [self.name]: attribute lookup in the class namespace. *)
Definition getattr (cls : dict Method) (name : string) : result Method :=
  match get cls name with
  | Some m => Ok m
  | None => Raise (AttributeError name)
  end.

Record Metadata : Type := {
  category : string;
  is_combo : bool;
  is_wings : bool;
  is_trending : bool;
  is_seasonal : bool;
  freshness_score : Q
}.

Record Recommendation : Type := {
  item_name : string;
  rank : Z;
  recommendation_type : RecType;
  platform : string;
  store_number : option string;
  customer_type : string;
  confidence_score : Q;
  explanation : string;
  metadata : Metadata
}.

(** The mutable part of the engine: [self.recommendation_history], a
    [defaultdict(list)] from customer id to [(item, timestamp)] pairs. *)
Record Engine : Type := {
  recommendation_history : dict (list (string * Z))
}.

Definition __init__ : Engine := {| recommendation_history := [] |}.

(** [self.platform_configs], as [__init__] sets it; only
    [max_recommendations] is read. *)
Definition platform_configs : dict Z :=
  [ ("app", 3%Z); ("website", 5%Z); ("kiosk", 3%Z) ].

(** [xs[:stop]] *)
Definition slice_to {A} (xs : list A) (stop : Z) : list A :=
  if (0 <=? stop)%Z then firstn (Z.to_nat stop) xs
  else firstn (List.length xs - Z.to_nat (- stop)) xs.

(** [random.sample(population, k)]; [draw] is the random source. *)
Definition random_sample (draw : list string -> nat -> list string)
  (population : list string) (k : nat) : result (list string) :=
  if (List.length population <? k)%nat
  then Raise (ValueError "Sample larger than population or is negative")
  else Ok (draw population k).

(** The mock helpers the class defines. *)
Definition _get_base_recommendations (current_items : list string)
  (customer_id : string) : list string :=
  ["Regular Buffalo Fries"; "10 pc Spicy Wings"; "Ranch Dip - Regular"].

Definition _get_trending_items (exclude : list string) : list string :=
  filter (fun item => negb (mem item exclude))
         ["Honey BBQ Wings"; "Spicy Chicken Sandwich"; "Buffalo Cauliflower"].

Definition seasonal_table : list (Z * list string) :=
  [ (12%Z, ["Holiday Wings Special"; "Peppermint Shake"]);
    (1%Z, ["New Year Combo"; "Detox Salad"]) ].

Fixpoint month_get (t : list (Z * list string)) (m : Z) (dflt : list string)
  : list string :=
  match t with
  | [] => dflt
  | (k, v) :: t' => if (m =? k)%Z then v else month_get t' m dflt
  end.

(** [current_month] is [datetime.now().month]. *)
Definition _get_seasonal_items (current_month : Z) (exclude : list string)
  : list string :=
  let current_seasonal :=
    month_get seasonal_table current_month ["Summer Special Wings"] in
  filter (fun item => negb (mem item exclude)) current_seasonal.

Definition _get_fallback_items (exclude : list string) : list string :=
  filter (fun item => negb (mem item exclude))
         ["Buffalo Wings"; "French Fries"; "Soft Drink"].

(** [uniform] is the value drawn by [random.uniform(0.7, 0.95)]. *)
Definition _calculate_confidence (uniform : Q) (item : string)
  (current_items : list string) (customer_id : string) : Q := uniform.

Definition _generate_explanation (item : string) (current_items : list string)
  (rec_type : RecType) : string :=
  match rec_type with
  | personalized =>
      "Based on your preferences, customers like you often enjoy " ++ item
  | trending => item ++ " is trending among Wings R Us customers right now"
  | seasonal => item ++ " is a seasonal favorite perfect for this time of year"
  end.

Definition _get_item_category (item : string) : string :=
  if contains "wing" (lower item) then "wings"
  else if contains "fries" (lower item) then "fries"
  else if contains "dip" (lower item) || contains "sauce" (lower item)
       then "dips_sauces"
  else "other".

Definition _is_new_item (item : string) : bool :=
  contains "new" (lower item) || contains "special" (lower item).

Definition _is_premium_item (item : string) : bool :=
  contains "premium" (lower item) || contains "deluxe" (lower item).

(** The namespace of [class EnhancedRecommendationEngine]: every [def] of
    the class body, in source order. *)
Definition class_namespace (current_month : Z) (uniform : Q) : dict Method :=
  [ ("__init__", m_public);
    ("analyze_customer_behavior", m_public);
    ("create_customer_personas", m_public);
    ("generate_fresh_recommendations", m_public);
    ("measure_success", m_public);
    ("setup_ab_testing", m_public);
    ("get_user_variant", m_public);
    ("_get_base_recommendations", m_items_customer _get_base_recommendations);
    ("_get_trending_items", m_exclude _get_trending_items);
    ("_get_seasonal_items", m_exclude (_get_seasonal_items current_month));
    ("_get_fallback_items", m_exclude _get_fallback_items);
    ("_calculate_confidence", m_item_items_customer (_calculate_confidence uniform));
    ("_generate_explanation", m_item_items_rectype _generate_explanation);
    ("_get_item_category", m_item _get_item_category);
    ("_is_new_item", m_item_flag _is_new_item);
    ("_is_premium_item", m_item_flag _is_premium_item) ].

(** The attributes [__init__] puts on the instance; a lookup on [self]
    tries them before the class. *)
Definition instance_attributes : list string :=
  [ "features"; "trained"; "customer_profiles"; "customer_history";
    "customer_preferences"; "recommendation_history"; "trending_items";
    "seasonal_items"; "metrics"; "platform_configs" ].

(** *** [generate_fresh_recommendations] *)

(** The names the body looks up on [self]. *)
Definition helper_names : list string :=
  [ "_get_wings_r_us_recommendations"; "_ensure_category_diversity";
    "_get_wings_r_us_trending_items"; "_get_wings_r_us_seasonal_items";
    "_get_wings_r_us_fallback_items"; "_calculate_wings_r_us_confidence";
    "_generate_wings_r_us_explanation"; "_get_wings_r_us_category";
    "_calculate_item_freshness" ].


(** The nine helper calls of the body: look the name up on [self], then
    apply it to the arguments of the call site. *)
Definition call_recommendations (cls : dict Method) (current_items : list string)
  (customer_id customer_type platform : string) (store_number : option string)
  : result (list string) :=
  let* m := getattr cls "_get_wings_r_us_recommendations" in
  match m with
  | m_items_customer_type_platform_store f =>
      Ok (f current_items customer_id customer_type platform store_number)
  | _ => Raise (TypeError "_get_wings_r_us_recommendations")
  end.

Definition call_diversity (cls : dict Method) (fresh_recs current_items : list string)
  (max_recs : Z) : result (list string) :=
  let* m := getattr cls "_ensure_category_diversity" in
  match m with
  | m_recs_items_count f => Ok (f fresh_recs current_items max_recs)
  | _ => Raise (TypeError "_ensure_category_diversity")
  end.

Definition call_trending (cls : dict Method) (exclude : list string)
  (store_number : option string) : result (list string) :=
  let* m := getattr cls "_get_wings_r_us_trending_items" in
  match m with
  | m_exclude_store f => Ok (f exclude store_number)
  | _ => Raise (TypeError "_get_wings_r_us_trending_items")
  end.

Definition call_seasonal (cls : dict Method) (exclude : list string)
  : result (list string) :=
  let* m := getattr cls "_get_wings_r_us_seasonal_items" in
  match m with
  | m_exclude f => Ok (f exclude)
  | _ => Raise (TypeError "_get_wings_r_us_seasonal_items")
  end.

Definition call_fallback (cls : dict Method) (exclude : list string)
  (customer_type : string) (store_number : option string) : result (list string) :=
  let* m := getattr cls "_get_wings_r_us_fallback_items" in
  match m with
  | m_exclude_type_store f => Ok (f exclude customer_type store_number)
  | _ => Raise (TypeError "_get_wings_r_us_fallback_items")
  end.

Definition call_confidence (cls : dict Method) (item : string)
  (current_items : list string) (customer_id customer_type : string) : result Q :=
  let* m := getattr cls "_calculate_wings_r_us_confidence" in
  match m with
  | m_item_items_customer_type f => Ok (f item current_items customer_id customer_type)
  | _ => Raise (TypeError "_calculate_wings_r_us_confidence")
  end.

Definition call_explanation (cls : dict Method) (item : string)
  (current_items : list string) (rec_type : RecType) (customer_type : string)
  : result string :=
  let* m := getattr cls "_generate_wings_r_us_explanation" in
  match m with
  | m_item_items_rectype_type f => Ok (f item current_items rec_type customer_type)
  | _ => Raise (TypeError "_generate_wings_r_us_explanation")
  end.

Definition call_category (cls : dict Method) (item : string) : result string :=
  let* m := getattr cls "_get_wings_r_us_category" in
  match m with
  | m_item f => Ok (f item)
  | _ => Raise (TypeError "_get_wings_r_us_category")
  end.

Definition call_freshness (cls : dict Method) (item customer_id : string)
  : result Q :=
  let* m := getattr cls "_calculate_item_freshness" in
  match m with
  | m_item_customer f => Ok (f item customer_id)
  | _ => Raise (TypeError "_calculate_item_freshness")
  end.

(** [config['max_recommendations']] for the platform of the call: the
    target count of the recommendation list. *)
Definition max_recommendations (platform : string) : result Z :=
  let platform_key := if String.eqb platform "Digital" then "app" else "kiosk" in
  let* app := subscript platform_configs "app" in
  Ok (get_or platform_configs platform_key app).

Definition history_window_days : Z := 7.

(** [[item for item, timestamp in history
      if (datetime.now() - timestamp).days <= history_window_days]] *)
Definition recent_recommendations (now : Z) (history : list (string * Z))
  : list string :=
  map fst (filter (fun e => (days_between now (snd e) <=? history_window_days)%Z)
                  history).

(** [[item for item in base_recs if item not in recent_recommendations]] *)
Definition fresh_filter (base_recs recent : list string) : list string :=
  filter (fun item => negb (mem item recent)) base_recs.

(** The [while len(final_recs) < max_recs] loop.  Every turn either appends
    one item or leaves the loop, so [max_recs] turns are enough. *)
Fixpoint fallback_loop (cls : dict Method) (turns : nat) (max_recs : Z)
  (current_items : list string) (customer_type : string)
  (store_number : option string) (final_recs : list string)
  : result (list string) :=
  match turns with
  | O => Ok final_recs
  | S turns' =>
      if (Z.of_nat (List.length final_recs) <? max_recs)%Z then
        let* fallback_items :=
          call_fallback cls (final_recs ++ current_items)%list
                        customer_type store_number in
        match fallback_items with
        | item :: _ =>
            fallback_loop cls turns' max_recs current_items customer_type
                          store_number (final_recs ++ [item])%list
        | [] => Ok final_recs
        end
      else Ok final_recs
  end.

(** The body of [for i, item in enumerate(final_recs[:max_recs])]. *)
Definition make_recommendation (cls : dict Method)
  (current_items : list string) (customer_id customer_type platform : string)
  (store_number : option string) (trending_items seasonal_items : list string)
  (ix : nat * string) : result Recommendation :=
  let i := fst ix in
  let item := snd ix in
  let rec_type :=
    if mem item trending_items then trending
    else if mem item seasonal_items then seasonal else personalized in
  let* confidence :=
    call_confidence cls item current_items customer_id customer_type in
  let* explanation :=
    call_explanation cls item current_items rec_type customer_type in
  let* category := call_category cls item in
  let* freshness := call_freshness cls item customer_id in
  Ok {| item_name := item;
        rank := (Z.of_nat i + 1)%Z;
        recommendation_type := rec_type;
        platform := platform;
        store_number := store_number;
        customer_type := customer_type;
        confidence_score := confidence;
        explanation := explanation;
        metadata := {| category := category;
                       is_combo := contains "combo" (lower item);
                       is_wings := contains "wing" (lower item);
                       is_trending := mem item trending_items;
                       is_seasonal := mem item seasonal_items;
                       freshness_score := freshness |} |}.

(** The list [final_recs] when the record-building loop starts. *)
Definition final_items (cls : dict Method) (draw : list string -> nat -> list string)
  (now : Z) (self : Engine) (customer_id : string) (current_items : list string)
  (customer_type platform : string) (store_number : option string)
  : result (Z * list string * list string * list string) :=
  let* max_recs := max_recommendations platform in
  let history := get_or (recommendation_history self) customer_id [] in
  let recent := recent_recommendations now history in
  let* base_recs :=
    call_recommendations cls current_items customer_id customer_type platform
                         store_number in
  let fresh_recs := fresh_filter base_recs recent in
  let* category_recommendations :=
    call_diversity cls fresh_recs current_items max_recs in
  let trending_count := Z.max 1 (int_of (inject_Z max_recs * (2 # 10))) in
  let* trending_items :=
    call_trending cls (current_items ++ category_recommendations)%list
                  store_number in
  let seasonal_count := Z.max 1 (int_of (inject_Z max_recs * (1 # 10))) in
  let* seasonal_items :=
    call_seasonal cls
      (current_items ++ category_recommendations ++ trending_items)%list in
  let base_count := (max_recs - trending_count - seasonal_count)%Z in
  let final_recs := slice_to category_recommendations base_count in
  let* final_recs :=
    match trending_items with
    | [] => Ok final_recs
    | _ =>
        let* trending_sample :=
          random_sample draw
            (firstn (Nat.min 10 (List.length trending_items)) trending_items)
            (Z.to_nat (Z.min trending_count
                             (Z.of_nat (List.length trending_items)))) in
        Ok (final_recs ++ trending_sample)%list
    end in
  let final_recs := (final_recs ++ slice_to seasonal_items seasonal_count)%list in
  let* final_recs :=
    fallback_loop cls (Z.to_nat max_recs) max_recs current_items customer_type
                  store_number final_recs in
  Ok (max_recs, final_recs, trending_items, seasonal_items).

(** The value the call returns, or the exception it raises. *)
Definition recommendations_of (cls : dict Method)
  (draw : list string -> nat -> list string) (now : Z) (self : Engine)
  (customer_id : string) (current_items : list string)
  (customer_type platform : string) (store_number : option string)
  : result (list Recommendation) :=
  let* r :=
    final_items cls draw now self customer_id current_items customer_type
                platform store_number in
  let '(max_recs, final_recs, trending_items, seasonal_items) := r in
  map_result (make_recommendation cls current_items customer_id customer_type
                                  platform store_number trending_items
                                  seasonal_items)
             (enumerate (slice_to final_recs max_recs)).

Definition retention_days : Z := 30.

(** The history after the append loop and the 30-day prune. *)
Definition update_history (now : Z) (self : Engine) (customer_id : string)
  (recommendations : list Recommendation) : Engine :=
  let timestamp := now in
  let appended :=
    (get_or (recommendation_history self) customer_id []
     ++ map (fun r => (item_name r, timestamp)) recommendations)%list in
  let cutoff_date := (now - retention_days * day_us)%Z in
  {| recommendation_history :=
       set (recommendation_history self) customer_id
           (filter (fun e => (cutoff_date <? snd e)%Z) appended) |}.

(** [generate_fresh_recommendations]: how the call ends and the engine
    afterwards.  Every statement that can raise comes before the first
    write to [self]. *)
Definition generate_fresh_recommendations (cls : dict Method)
  (draw : list string -> nat -> list string) (now : Z) (self : Engine)
  (customer_id : string) (current_items : list string)
  (customer_type platform : string) (store_number : option string)
  : result (list Recommendation) * Engine :=
  match recommendations_of cls draw now self customer_id current_items
                           customer_type platform store_number with
  | Ok recommendations =>
      (Ok recommendations, update_history now self customer_id recommendations)
  | Raise e => (Raise e, self)
  end.


(** A class namespace that defines the nine helpers with the arguments the
    call sites pass. *)
Definition defines_helpers (cls : dict Method) : Prop :=
  exists f1 f2 f3 f4 f5 f6 f7 f8 f9,
    get cls "_get_wings_r_us_recommendations"
    = Some (m_items_customer_type_platform_store f1)
    /\ get cls "_ensure_category_diversity" = Some (m_recs_items_count f2)
    /\ get cls "_get_wings_r_us_trending_items" = Some (m_exclude_store f3)
    /\ get cls "_get_wings_r_us_seasonal_items" = Some (m_exclude f4)
    /\ get cls "_get_wings_r_us_fallback_items" = Some (m_exclude_type_store f5)
    /\ get cls "_calculate_wings_r_us_confidence"
       = Some (m_item_items_customer_type f6)
    /\ get cls "_generate_wings_r_us_explanation"
       = Some (m_item_items_rectype_type f7)
    /\ get cls "_get_wings_r_us_category" = Some (m_item f8)
    /\ get cls "_calculate_item_freshness" = Some (m_item_customer f9).


(** Two recommendation records as the body writes them. *)
Definition sample_recommendations : list Recommendation :=
  [ {| item_name := "Honey BBQ Wings"; rank := 1;
       recommendation_type := personalized; platform := "Digital";
       store_number := None; customer_type := "Guest";
       confidence_score := 8 # 10; explanation := "Popular with wings";
       metadata := {| category := "wings"; is_combo := false; is_wings := true;
                      is_trending := false; is_seasonal := false;
                      freshness_score := 1 |} |};
    {| item_name := "Summer Special Wings"; rank := 2;
       recommendation_type := seasonal; platform := "Digital";
       store_number := None; customer_type := "Guest";
       confidence_score := 8 # 10; explanation := "Seasonal pick";
       metadata := {| category := "wings"; is_combo := false; is_wings := true;
                      is_trending := false; is_seasonal := true;
                      freshness_score := 1 |} |} ].

(** *** [measure_success] *)

(** [customer_feedback]: the two keys the method reads, and whether the
    dictionary holds any other key (an empty dictionary is falsy). *)
Record Feedback : Type := {
  fb_rating : option Q;
  fb_would_recommend : option bool;
  fb_other_keys : bool
}.

Definition feedback_truthy (fb : option Feedback) : bool :=
  match fb with
  | None => false
  | Some fb =>
      match fb_rating fb, fb_would_recommend fb with
      | None, None => fb_other_keys fb
      | _, _ => true
      end
  end.

Definition is_type (t : RecType) (r : Recommendation) : bool :=
  match t, recommendation_type r with
  | trending, trending => true
  | seasonal, seasonal => true
  | personalized, personalized => true
  | _, _ => false
  end.

(** [len(set(rec_items) & set(actual_orders))] *)
Definition hits (rec_items actual_orders : list string) : nat :=
  List.length (filter (fun x => mem x actual_orders) (unique rec_items)).

(** [measure_success] *)
Definition measure_success (recommendations : list Recommendation)
  (actual_orders : list string) (customer_feedback : option Feedback)
  : result (dict Q) :=
  let metrics : dict Q := [] in
  let rec_items := map item_name recommendations in
  let* recall :=
    match actual_orders with
    | [] => Ok 0
    | _ => truediv (Qnat (hits rec_items actual_orders))
                   (if Qle_bool 3 (len actual_orders) then 3
                    else len actual_orders)
    end in
  let metrics := set metrics "recall_at_3" recall in
  let categories := map (fun r => category (metadata r)) recommendations in
  let unique_categories := len (unique categories) in
  let* diversity :=
    match categories with
    | [] => Ok 0
    | _ => truediv unique_categories (len categories)
    end in
  let metrics := set metrics "diversity_score" diversity in
  let trending_count := len (filter (is_type trending) recommendations) in
  let seasonal_count := len (filter (is_type seasonal) recommendations) in
  let* freshness :=
    match recommendations with
    | [] => Ok 0
    | _ => truediv (trending_count + seasonal_count) (len recommendations)
    end in
  let metrics := set metrics "freshness_score" freshness in
  let confidences := map confidence_score recommendations in
  let* avg_confidence :=
    match confidences with
    | [] => Ok 0
    | _ => truediv (fold_left Qplus confidences 0) (len confidences)
    end in
  let metrics := set metrics "avg_confidence" avg_confidence in
  if feedback_truthy customer_feedback then
    match customer_feedback with
    | Some fb =>
        let* satisfaction :=
          truediv (match fb_rating fb with Some r => r | None => 0 end) 5 in
        let metrics := set metrics "customer_satisfaction" satisfaction in
        Ok (set metrics "would_recommend"
                (match fb_would_recommend fb with
                 | Some true => 1
                 | _ => 0
                 end))
    | None => Ok metrics
    end
  else Ok metrics.

(** *** A/B testing *)

Record AbConfig : Type := {
  test_percentage : Q;
  variants : list string;
  allocation : dict Q;
  metrics_to_track : list string;
  minimum_sample_size : Z;
  test_duration_days : Z
}.

Definition default_variants : list string :=
  ["control"; "enhanced_personalization"; "freshness_boost"].

(** [setup_ab_testing] *)
Definition setup_ab_testing (test_percentage : Q)
  (test_variants : option (list string)) : result AbConfig :=
  let test_variants :=
    match test_variants with
    | Some vs => vs
    | None => default_variants
    end in
  let* allocation :=
    for_each (fun d variant =>
                let* share := truediv 1 (len test_variants) in
                Ok (set d variant share))
             test_variants [] in
  Ok {| test_percentage := test_percentage;
        variants := test_variants;
        allocation := allocation;
        metrics_to_track :=
          ["click_through_rate"; "conversion_rate"; "average_order_value";
           "customer_satisfaction"; "recommendation_accuracy"];
        minimum_sample_size := 1000;
        test_duration_days := 14 |}.

(** [get_user_variant]; [hash_value] is the integer the MD5 digest of
    [customer_id + "_" + seed] denotes, a number from 0 up. *)
Definition get_user_variant (hash_value : Z) (ab_config : AbConfig)
  : result string :=
  if Qlt_bool (test_percentage ab_config)
              (inject_Z (hash_value mod 100) / 100)
  then Ok "control"
  else
    let variants := variants ab_config in
    if (Z.of_nat (List.length variants) =? 0)%Z then Raise ZeroDivisionError
    else
      let variant_index := (hash_value mod Z.of_nat (List.length variants))%Z in
      match nth_error variants (Z.to_nat variant_index) with
      | Some v => Ok v
      | None => Raise IndexError
      end.

End Enhanced.

(* ------------------------------------------------------------------ *)
(** ** [src/enhanced_recommendation_engine.py]: class [PilotTestingFramework] *)
Module Pilot.
Import Py PyNotations.
Local Open Scope string_scope.
Local Open Scope Q_scope.

(** An interaction event: a dictionary read with [.get]; [None] is an
    absent key. *)
Record Interaction : Type := {
  action : option string;
  item_name : option string;
  order_value : option Q;
  item_price : option Q
}.

(** A recommendation as this method reads it: [r.get('category', '')] and
    [r.get('item_name', '')]. *)
Record RecommendationView : Type := {
  r_category : option string;
  r_item_name : option string
}.

(** [baseline_data]: [None] for a missing key [baseline_aov]. *)
Record Baseline : Type := { baseline_aov : option Q }.

Definition opt_or {A} (o : option A) (dflt : A) : A :=
  match o with
  | Some a => a
  | None => dflt
  end.

(** The [metrics] literal the method starts from. *)
Definition initial_metrics : dict Q :=
  [ ("recommendation_adoption_rate", 0);
    ("average_order_value_lift", 0);
    ("basket_size_increase_items", 0);
    ("revenue_per_recommendation", 0);
    ("upsell_success_rate", 0);
    ("click_through_rate", 0);
    ("add_to_cart_rate", 0);
    ("conversion_rate", 0);
    ("recommendation_interaction_time", 0);
    ("customer_satisfaction_score", 0);
    ("recommendation_accuracy", 0);
    ("response_time_ms", 0);
    ("personalization_effectiveness", 0);
    ("freshness_score", 0);
    ("cross_platform_consistency", 0);
    ("combo_completion_rate", 0);
    ("premium_item_upsell_rate", 0);
    ("category_diversification", 0);
    ("repeat_recommendation_avoidance", 0);
    ("complaint_rate", 0);
    ("order_abandonment_impact", 0);
    ("staff_productivity_impact", 0);
    ("system_error_rate", 0) ].

(** The keys of the report, in the order of the literal. *)
Definition metric_keys : list string :=
  [ "recommendation_adoption_rate"; "average_order_value_lift";
    "basket_size_increase_items"; "revenue_per_recommendation";
    "upsell_success_rate"; "click_through_rate"; "add_to_cart_rate";
    "conversion_rate"; "recommendation_interaction_time";
    "customer_satisfaction_score"; "recommendation_accuracy";
    "response_time_ms"; "personalization_effectiveness"; "freshness_score";
    "cross_platform_consistency"; "combo_completion_rate";
    "premium_item_upsell_rate"; "category_diversification";
    "repeat_recommendation_avoidance"; "complaint_rate";
    "order_abandonment_impact"; "staff_productivity_impact";
    "system_error_rate" ].

(** [[i for i in user_interactions if i.get('action') == name]] *)
Definition with_action (name : string) (user_interactions : list Interaction)
  : list Interaction :=
  filter (fun i => match action i with
                   | Some a => String.eqb a name
                   | None => false
                   end)
         user_interactions.

Definition sum_Q (xs : list Q) : Q := fold_left Qplus xs 0.

(** The block under [if total_recommendations > 0]: the metrics after it and
    the local [purchases] it binds. *)
Definition business_impact (metrics : dict Q)
  (recommendations : list RecommendationView)
  (user_interactions : list Interaction) (baseline_data : option Baseline)
  : result (dict Q * list Interaction) :=
  let total_recommendations := len recommendations in
  let total_interactions := len user_interactions in
  let purchases := with_action "purchase" user_interactions in
  let clicks := with_action "click" user_interactions in
  let adds := with_action "add_to_cart" user_interactions in
  let* adoption := truediv (len purchases) total_recommendations in
  let metrics := set metrics "recommendation_adoption_rate" adoption in
  let* ctr := truediv (len clicks) total_recommendations in
  let metrics := set metrics "click_through_rate" ctr in
  let* atc := truediv (len adds) total_recommendations in
  let metrics := set metrics "add_to_cart_rate" atc in
  let* metrics :=
    if Qlt_bool 0 (len clicks) then
      let* conversion := truediv (len purchases) (len clicks) in
      Ok (set metrics "conversion_rate" conversion)
    else Ok metrics in
  let* metrics :=
    match baseline_data with
    | Some {| baseline_aov := Some baseline_aov |} =>
        let* current_aov :=
          match user_interactions with
          | [] => Ok 0
          | _ => truediv (sum_Q (map (fun i => opt_or (order_value i) 0)
                                     user_interactions))
                         (len user_interactions)
          end in
        let* lift :=
          if Qlt_bool 0 baseline_aov
          then truediv (current_aov - baseline_aov) baseline_aov
          else Ok 0 in
        Ok (set metrics "average_order_value_lift" lift)
    | _ => Ok metrics
    end in
  let combo_interactions :=
    filter (fun i => contains "combo" (lower (opt_or (item_name i) EmptyString)))
           user_interactions in
  let* combo :=
    if Qlt_bool 0 total_interactions
    then truediv (len combo_interactions) total_interactions
    else Ok 0 in
  let metrics := set metrics "combo_completion_rate" combo in
  let* metrics :=
    match user_interactions with
    | [] => Ok metrics
    | _ =>
        let* avg_price :=
          truediv (sum_Q (map (fun i => opt_or (item_price i) 0) user_interactions))
                  (len user_interactions) in
        let premium_purchases :=
          filter (fun i => Qlt_bool avg_price (opt_or (item_price i) 0))
                 purchases in
        let* premium :=
          if Qlt_bool 0 (len purchases)
          then truediv (len premium_purchases) (len purchases)
          else Ok 0 in
        Ok (set metrics "premium_item_upsell_rate" premium)
    end in
  let unique_categories :=
    unique (map (fun r => opt_or (r_category r) EmptyString) recommendations) in
  let* diversification := truediv (len unique_categories) 10 in
  let metrics := set metrics "category_diversification" diversification in
  let recommendation_items :=
    map (fun r => opt_or (r_item_name r) EmptyString) recommendations in
  let unique_items := len (unique recommendation_items) in
  let* avoidance :=
    match recommendation_items with
    | [] => Ok 0
    | _ => truediv unique_items (len recommendation_items)
    end in
  Ok (set metrics "repeat_recommendation_avoidance" avoidance, purchases).

(** [measure_success_metrics] *)
Definition measure_success_metrics (recommendations : list RecommendationView)
  (user_interactions : list Interaction) (baseline_data : option Baseline)
  : result (dict Q) :=
  let metrics := initial_metrics in
  match recommendations, user_interactions with
  | [], _ => Ok metrics
  | _, [] => Ok metrics
  | _, _ =>
      let total_recommendations := len recommendations in
      let* mp :=
        if Qlt_bool 0 total_recommendations then
          let* r := business_impact metrics recommendations user_interactions
                                    baseline_data in
          Ok (fst r, Some (snd r))
        else Ok (metrics, None) in
      let metrics := fst mp in
      let metrics := set metrics "response_time_ms" 250 in
      let metrics := set metrics "system_error_rate" (1 # 100) in
      let metrics := set metrics "cross_platform_consistency" (95 # 100) in
      let* purchases :=
        match snd mp with
        | Some purchases => Ok purchases
        | None => Raise (UnboundLocalError "purchases")
        end in
      let* metrics :=
        match purchases with
        | [] => Ok metrics
        | _ =>
            let* adoption := subscript metrics "recommendation_adoption_rate" in
            let metrics := set metrics "recommendation_accuracy" adoption in
            let base_satisfaction := 35 # 10 in
            let* adoption := subscript metrics "recommendation_adoption_rate" in
            let satisfaction_boost := adoption * (15 # 10) in
            let s := base_satisfaction + satisfaction_boost in
            Ok (set metrics "customer_satisfaction_score"
                    (if Qlt_bool s 5 then s else 5))
        end in
      let* satisfaction := subscript metrics "customer_satisfaction_score" in
      let c := (5 # 100) - satisfaction * (1 # 100) in
      Ok (set metrics "complaint_rate" (if Qlt_bool 0 c then c else 0))
  end.


Definition purchase_of (name : string) : Interaction :=
  {| action := Some "purchase"; item_name := Some name;
     order_value := None; item_price := None |}.

Definition recommended (name : string) : RecommendationView :=
  {| r_category := None; r_item_name := Some name |}.

End Pilot.

(* ------------------------------------------------------------------ *)
(** ** [src/feature_engineering_v2.py]: the engineer [main.py] uses *)
Module FeatureEngineeringV2.
Import Py PyNotations RecommendationEngine.
Local Open Scope string_scope.
Local Open Scope Q_scope.

(** [test_df[col].dropna().astype(str)] without the entries equal to
    ['nan'], as a list.  The test table is the list of its rows; a column
    the table lacks is a field that is [None] in every row and yields
    nothing. *)
Definition column_items (col : Row -> option Cell) (test_df : list Row)
  : list string :=
  flat_map (fun row => match col row with
                       | Some (Str s) => if String.eqb s "nan" then [] else [s]
                       | Some NaN => []
                       | None => []
                       end)
           test_df.

(** The list [all_items] after the loop over [item1], [item2], [item3]. *)
Definition collect_items (test_df : list Row) : list string :=
  (column_items item1 test_df ++ column_items item2 test_df
   ++ column_items item3 test_df)%list.

(** [collections.Counter(all_items)]: counts in order of first occurrence. *)
Definition Counter (names : list string) : dict Q :=
  fold_left (fun d n => add_to d n 1) names [].

(** [_calculate_item_frequency_from_test] *)
Definition _calculate_item_frequency_from_test (test_df : list Row)
  : result (dict Q) :=
  let all_items := collect_items test_df in
  match all_items with
  | [] => Ok []
  | _ :: _ =>
      let total_items := len all_items in
      let item_counts := Counter all_items in
      map_result (fun kv => let* share := truediv (snd kv) total_items in
                            Ok (fst kv, share))
                 item_counts
  end.

(** Features whose frequency table is the one of the given test table; the
    other three tables are left empty. *)
Definition features_of_test (test_df : list Row) : Features := {|
  item_cooccurrence := [];
  market_basket := [];
  item_categories := [];
  item_frequency := match _calculate_item_frequency_from_test test_df with
                    | Ok freq => freq
                    | Raise _ => []
                    end
|}.

End FeatureEngineeringV2.

(* ------------------------------------------------------------------ *)
(** ** [src/evaluation.py]: class [ModelEvaluator] *)
Module Evaluation.
Import Py PyNotations RecommendationEngine.
Local Open Scope string_scope.
Local Open Scope Q_scope.

(** [str(x).strip().lower()] *)
Definition normalise (s : string) : string := lower (strip s).

(** The columns of the predictions table whose upper-cased name contains
    RECOMMENDATION, cut to the first [k]. *)
Definition rec_columns (k : Z) : list (Output -> string) :=
  Enhanced.slice_to [RECOMMENDATION_1; RECOMMENDATION_2; RECOMMENDATION_3] k.

(** The body of the [for idx, row in predictions.iterrows()] loop. *)
Definition recall_step (ground_truth : list Cell) (k : Z) (correct : Q)
  (ir : nat * Output) : result Q :=
  match nth_error ground_truth (fst ir) with
  | None => Raise IndexError
  | Some NaN => Ok correct
  | Some (Str true_item) =>
      if existsb (fun col => String.eqb (normalise (col (snd ir)))
                                        (normalise true_item))
                 (rec_columns k)
      then Ok (correct + 1) else Ok correct
  end.

(** [calculate_recall_at_k] *)
Definition calculate_recall_at_k (predictions : list Output)
  (ground_truth : list Cell) (k : Z) : result Q :=
  if negb (Nat.eqb (List.length predictions) (List.length ground_truth))
  then Ok 0
  else
    let total_predictions := len predictions in
    let* correct_predictions :=
      for_each (recall_step ground_truth k) (enumerate predictions) 0 in
    if Qlt_bool 0 total_predictions
    then truediv correct_predictions total_predictions
    else Ok 0.

(** The ground truth that names, for every row, its first recommendation. *)
Definition first_recommendations (predictions : list Output) : list Cell :=
  map (fun out => Str (RECOMMENDATION_1 out)) predictions.

Definition scenario_outputs : list Output :=
  match predict scenario_engine [wings_row] with
  | Ok outs => outs
  | Raise _ => []
  end.

End Evaluation.

(* ================================================================== *)
(** * Part II. Properties                                              *)
(* ================================================================== *)

(** ** Facts about the runtime pieces *)
Module PyFacts.
Import Py.

Lemma bind_Ok {A B} (a : A) (k : A -> result B) : bind (Ok a) k = k a.
Proof. reflexivity. Qed.

Lemma mem_In (x : string) (xs : list string) : mem x xs = true <-> In x xs.
Proof.
  unfold mem. rewrite existsb_exists. split.
  - intros [y [Hin Heq]]. apply String.eqb_eq in Heq. now subst.
  - intros Hin. exists x. split; [assumption | apply String.eqb_refl].
Qed.

Lemma mem_false (x : string) (xs : list string) : mem x xs = false <-> ~ In x xs.
Proof.
  rewrite <- mem_In. destruct (mem x xs); split; congruence.
Qed.

Lemma get_set_same {V} (d : dict V) (k : string) (v : V) :
  get (set d k v) k = Some v.
Proof.
  induction d as [| [k' v'] d IH]; simpl.
  - now rewrite String.eqb_refl.
  - destruct (String.eqb k k') eqn:E; simpl; rewrite E; auto.
Qed.

Lemma get_set_other {V} (d : dict V) (k k' : string) (v : V) :
  k' <> k -> get (set d k v) k' = get d k'.
Proof.
  intros Hne. induction d as [| [k0 v0] d IH]; simpl.
  - apply String.eqb_neq in Hne. now rewrite Hne.
  - destruct (String.eqb k k0) eqn:E; simpl.
    + apply String.eqb_eq in E. subst k0.
      apply String.eqb_neq in Hne. now rewrite Hne.
    + destruct (String.eqb k' k0); auto.
Qed.

Lemma get_or_set_same {V} (d : dict V) (k : string) (v dflt : V) :
  get_or (set d k v) k dflt = v.
Proof. unfold get_or. now rewrite get_set_same. Qed.

Lemma get_or_set_other {V} (d : dict V) (k k' : string) (v dflt : V) :
  k' <> k -> get_or (set d k v) k' dflt = get_or d k' dflt.
Proof. intros H. unfold get_or. now rewrite get_set_other. Qed.

Lemma keys_set {V} (d : dict V) (k : string) (v : V) (x : string) :
  In x (keys (set d k v)) <-> x = k \/ In x (keys d).
Proof.
  unfold keys. induction d as [| [k0 v0] d IH]; simpl.
  - intuition.
  - destruct (String.eqb k k0) eqn:E; simpl.
    + apply String.eqb_eq in E. subst. intuition.
    + rewrite IH. intuition.
Qed.

Lemma get_None_keys {V} (d : dict V) (k : string) :
  get d k = None <-> ~ In k (keys d).
Proof.
  unfold keys. induction d as [| [k0 v0] d IH]; simpl.
  - intuition.
  - destruct (String.eqb k k0) eqn:E.
    + apply String.eqb_eq in E. subst. split; [discriminate | intuition].
    + apply String.eqb_neq in E. rewrite IH. intuition.
Qed.

Lemma get_In {V} (d : dict V) (k : string) (v : V) :
  get d k = Some v -> In (k, v) d.
Proof.
  induction d as [| [k0 v0] d IH]; simpl; [discriminate |].
  destruct (String.eqb k k0) eqn:E.
  - apply String.eqb_eq in E. intros [= ->]. subst. now left.
  - intros H. right. auto.
Qed.

Lemma NoDup_keys_set {V} (d : dict V) (k : string) (v : V) :
  NoDup (keys d) -> NoDup (keys (set d k v)).
Proof.
  unfold keys. induction d as [| [k0 v0] d IH]; simpl; intros Hnd.
  - constructor; [intros [] | constructor].
  - inversion Hnd as [| ? ? Hnotin Hnd']; subst.
    destruct (String.eqb k k0) eqn:E; simpl.
    + constructor; assumption.
    + constructor; [| auto].
      intros Hin. apply (keys_set d k v k0) in Hin.
      destruct Hin as [-> | Hin]; [| contradiction].
      now rewrite String.eqb_refl in E.
Qed.

(** Values of a dictionary mapped entry by entry. *)
Lemma get_map_values {V W} (f : V -> W) (d : dict V) (k : string) :
  get (map (fun e => (fst e, f (snd e))) d) k = option_map f (get d k).
Proof.
  induction d as [| [k0 v0] d IH]; simpl; [reflexivity |].
  destruct (String.eqb k k0); auto.
Qed.

Lemma Qlt_bool_iff (a b : Q) : Qlt_bool a b = true <-> a < b.
Proof.
  unfold Qlt_bool. rewrite negb_true_iff. split.
  - intros H. apply Qnot_le_lt. intros Hle.
    apply Qle_bool_iff in Hle. congruence.
  - intros H. destruct (Qle_bool b a) eqn:E; [| reflexivity].
    apply Qle_bool_iff in E. exfalso. apply (Qlt_not_le _ _ H E).
Qed.

Lemma Qlt_bool_false (a b : Q) : Qlt_bool a b = false <-> b <= a.
Proof.
  unfold Qlt_bool. rewrite negb_false_iff. apply Qle_bool_iff.
Qed.

Lemma truediv_ok (a b : Q) : ~ b == 0 -> truediv a b = Ok (a / b).
Proof.
  intros H. unfold truediv. destruct (Qeq_bool b 0) eqn:E; [| reflexivity].
  apply Qeq_bool_eq in E. contradiction.
Qed.

Lemma len_nonneg {A} (l : list A) : 0 <= len l.
Proof.
  unfold len, Qnat. change 0 with (inject_Z 0). rewrite <- Zle_Qle. lia.
Qed.

Lemma len_pos {A} (l : list A) : l <> [] -> 0 < len l.
Proof.
  intros H. unfold len, Qnat. change 0 with (inject_Z 0). rewrite <- Zlt_Qlt.
  destruct l; [congruence | simpl; lia].
Qed.

Lemma len_le {A B} (l : list A) (l' : list B) :
  (List.length l <= List.length l')%nat -> len l <= len l'.
Proof. intros H. unfold len, Qnat. rewrite <- Zle_Qle. lia. Qed.

(** *** The stable descending sort *)
Section Sorting.
Context {A : Type} (key : A -> Q).

Lemma insert_desc_perm (x : A) (l : list A) :
  Permutation (insert_desc key x l) (x :: l).
Proof.
  induction l as [| y l IH]; simpl; [reflexivity |].
  destruct (Qlt_bool (key x) (key y)); [| reflexivity].
  rewrite IH. apply perm_swap.
Qed.

Lemma sorted_desc_perm (l : list A) : Permutation (sorted_desc key l) l.
Proof.
  induction l as [| x l IH]; simpl; [reflexivity |].
  rewrite insert_desc_perm. now constructor.
Qed.

Lemma insert_desc_sorted (x : A) (l : list A) :
  StronglySorted (desc key) l -> StronglySorted (desc key) (insert_desc key x l).
Proof.
  induction l as [| y l IH]; simpl; intros Hs.
  - constructor; constructor.
  - inversion Hs as [| ? ? Hs' Hall]; subst.
    destruct (Qlt_bool (key x) (key y)) eqn:E.
    + apply Qlt_bool_iff in E. constructor; [auto |].
      rewrite Forall_forall. intros z Hz.
      apply (Permutation_in _ (insert_desc_perm x l)) in Hz.
      destruct Hz as [<- | Hz].
      * unfold desc. now apply Qlt_le_weak.
      * rewrite Forall_forall in Hall. auto.
    + apply Qlt_bool_false in E. constructor; [assumption |].
      constructor; [exact E |].
      rewrite Forall_forall in *. intros z Hz. unfold desc in *.
      apply Qle_trans with (key y); auto.
Qed.

Lemma sorted_desc_sorted (l : list A) :
  StronglySorted (desc key) (sorted_desc key l).
Proof.
  induction l as [| x l IH]; simpl; [constructor |].
  now apply insert_desc_sorted.
Qed.

End Sorting.

(** *** Loops *)
Lemma map_result_ok {A B} (f : A -> result B) (g : A -> B) (xs : list A) :
  (forall x, In x xs -> f x = Ok (g x)) -> map_result f xs = Ok (map g xs).
Proof.
  induction xs as [| x xs IH]; simpl; intros H; [reflexivity |].
  rewrite (H x (or_introl eq_refl)). simpl.
  rewrite IH by (intros; apply H; now right). reflexivity.
Qed.

Lemma map_result_length {A B} (f : A -> result B) (xs : list A) (ys : list B) :
  map_result f xs = Ok ys -> List.length ys = List.length xs.
Proof.
  revert ys. induction xs as [| x xs IH]; simpl; intros ys H.
  - now inversion H.
  - destruct (f x); [| discriminate]. simpl in H.
    destruct (map_result f xs); [| discriminate]. simpl in H.
    inversion H; subst. simpl. f_equal. now apply IH.
Qed.

Lemma for_each_unchanged {A S} (body : S -> A -> result S) (xs : list A) (acc : S) :
  (forall x, In x xs -> body acc x = Ok acc) -> for_each body xs acc = Ok acc.
Proof.
  induction xs as [| x xs IH]; simpl; intros H; [reflexivity |].
  rewrite (H x (or_introl eq_refl)). simpl. apply IH. intros; apply H; now right.
Qed.

Lemma fold_left_flat_map {A B S} (f : S -> B -> S) (g : A -> list B)
  (l : list A) (s : S) :
  fold_left f (flat_map g l) s = fold_left (fun s x => fold_left f (g x) s) l s.
Proof.
  revert s. induction l as [| x l IH]; simpl; intros s; [reflexivity |].
  now rewrite fold_left_app, IH.
Qed.

Lemma map_result_Forall2 {A B} (f : A -> result B) (P : A -> B -> Prop)
  (xs : list A) :
  (forall x, In x xs -> exists y, f x = Ok y /\ P x y) ->
  exists ys, map_result f xs = Ok ys /\ Forall2 P xs ys.
Proof.
  induction xs as [| x xs IH]; intros H.
  - exists []. split; [reflexivity | constructor].
  - destruct (H x (or_introl eq_refl)) as [y [Hy HP]].
    destruct IH as [ys [Hys HF]]; [intros; apply H; now right |].
    exists (y :: ys). simpl. rewrite Hy, bind_Ok, Hys, bind_Ok.
    split; [reflexivity | now constructor].
Qed.

Lemma Forall2_enumerate_from {A B} (P : A -> B -> Prop) (i : nat)
  (xs : list A) (ys : list B) :
  Forall2 (fun ir y => P (snd ir) y) (enumerate_from i xs) ys ->
  Forall2 P xs ys.
Proof.
  revert i ys. induction xs as [| x xs IH]; simpl; intros i ys H.
  - inversion H. constructor.
  - inversion H; subst. constructor; [assumption | eauto].
Qed.

(** *** [enumerate] and [unique] *)
Lemma enumerate_from_snd {A} (i : nat) (xs : list A) :
  map snd (enumerate_from i xs) = xs.
Proof.
  revert i. induction xs as [| x xs IH]; simpl; intros i; [reflexivity |].
  now rewrite IH.
Qed.

Lemma enumerate_from_length {A} (i : nat) (xs : list A) :
  List.length (enumerate_from i xs) = List.length xs.
Proof.
  revert i. induction xs as [| x xs IH]; simpl; intros i; [reflexivity |].
  now rewrite IH.
Qed.

Lemma enumerate_from_nth {A} (i : nat) (xs : list A) (j : nat) (x : A) :
  In (j, x) (enumerate_from i xs) <-> (i <= j)%nat /\ nth_error xs (j - i) = Some x.
Proof.
  revert i. induction xs as [| y xs IH]; simpl; intros i.
  - split; [intros [] | intros [_ H]]. now destruct (j - i)%nat.
  - rewrite IH. split.
    + intros [[= <- <-] | [Hle Hn]].
      * split; [lia |]. now rewrite Nat.sub_diag.
      * split; [lia |]. replace (j - i)%nat with (S (j - S i)) by lia. exact Hn.
    + intros [Hle Hn]. destruct (j - i)%nat as [| m] eqn:E.
      * left. simpl in Hn. inversion Hn. f_equal. lia.
      * right. split; [lia |]. simpl in Hn.
        replace (j - S i)%nat with m by lia. exact Hn.
Qed.

Lemma enumerate_from_fst {A} (i : nat) (xs : list A) :
  map fst (enumerate_from i xs) = seq i (List.length xs).
Proof.
  revert i. induction xs as [| x xs IH]; simpl; intros i; [reflexivity |].
  now rewrite IH.
Qed.

Lemma unique_In (x : string) (items : list string) :
  In x (unique items) <-> In x items.
Proof.
  induction items as [| y items IH]; simpl; [reflexivity |].
  rewrite filter_In, IH, negb_true_iff, String.eqb_neq.
  destruct (String.eqb_spec y x); intuition.
Qed.

Lemma unique_NoDup (items : list string) : NoDup (unique items).
Proof.
  induction items as [| y items IH]; simpl; constructor.
  - rewrite filter_In, negb_true_iff, String.eqb_neq. intuition.
  - now apply NoDup_filter.
Qed.

Lemma mem_unique (x : string) (items : list string) :
  mem x (unique items) = mem x items.
Proof.
  destruct (mem x items) eqn:E.
  - apply mem_In. apply unique_In. now apply mem_In.
  - apply mem_false. rewrite unique_In. now apply mem_false.
Qed.

End PyFacts.

(* ------------------------------------------------------------------ *)
(** ** Feature store *)
Module FeatureFacts.
Import Py PyNotations PyFacts FeatureEngineering.
Local Open Scope string_scope.
Local Open Scope Q_scope.

(** C9. Empty order table: feature construction ends normally and the item
    frequency, the co-occurrence matrix and the market-basket rules are all
    the empty mapping, whatever columns the table declares and whatever the
    engineer object holds. *)
Theorem empty_orders_empty_features (self : FeatureEngineer) (cols : list string) :
  create_features self {| columns := cols; rows := [] |}
  = Ok {| f_item_frequency := [];
          f_item_cooccurrence := [];
          f_market_basket := [] |}.
Proof.
  unfold create_features, _calculate_item_frequency,
    _calculate_item_cooccurrence, _create_market_basket_rules.
  simpl columns.
  destruct (mem "item_name" cols), (mem "order_id" cols); reflexivity.
Qed.

(** *** Support counts are positive *)

Lemma positive_values_set (d : dict Q) (k : string) (v : Q) :
  positive_values d -> 0 < v -> positive_values (set d k v).
Proof.
  unfold positive_values. induction d as [| [k0 v0] d IH]; simpl; intros Hd Hv.
  - now constructor.
  - inversion Hd; subst. destruct (String.eqb k k0); constructor; auto.
Qed.

Lemma positive_values_get_or (d : dict Q) (k : string) (dflt : Q) :
  positive_values d -> 0 <= dflt -> 0 <= get_or d k dflt.
Proof.
  intros Hd Hdf. unfold get_or. destruct (get d k) eqn:E; [| assumption].
  apply get_In in E. unfold positive_values in Hd. rewrite Forall_forall in Hd.
  apply Qlt_le_weak. exact (Hd _ E).
Qed.

Lemma positive_values_get_or_pos (d : dict Q) (k : string) (dflt : Q) :
  positive_values d -> 0 < dflt -> 0 < get_or d k dflt.
Proof.
  intros Hd Hdf. unfold get_or. destruct (get d k) eqn:E; [| assumption].
  apply get_In in E. unfold positive_values in Hd. rewrite Forall_forall in Hd.
  exact (Hd _ E).
Qed.

Lemma positive_values_add_one (d : dict Q) (k : string) :
  positive_values d -> positive_values (add_to d k 1).
Proof.
  intros Hd. unfold add_to. apply positive_values_set; [assumption |].
  pose proof (@positive_values_get_or d k 0 Hd (Qle_refl 0)). lra.
Qed.

Lemma positive_values_count (items : list string) (d : dict Q) :
  positive_values d ->
  positive_values (fold_left (fun sup item => add_to sup item 1) items d).
Proof.
  revert d. induction items as [| x items IH]; simpl; intros d Hd; [assumption |].
  apply IH. now apply positive_values_add_one.
Qed.

Lemma positive_values_support (orders : list (Z * list string)) (d : dict Q) :
  positive_values d ->
  positive_values
    (fold_left (fun sup o =>
                  fold_left (fun sup' item => add_to sup' item 1)
                            (unique (snd o)) sup)
               orders d).
Proof.
  revert d. induction orders as [| o orders IH]; simpl; intros d Hd; [assumption |].
  apply IH. now apply positive_values_count.
Qed.

Lemma positive_values_scaled (d : dict Q) (t : Q) :
  positive_values d -> 0 < t ->
  positive_values (map (fun kv => (fst kv, snd kv / t)) d).
Proof.
  unfold positive_values. intros Hd Ht. rewrite Forall_forall in *.
  intros kv Hin. apply in_map_iff in Hin. destruct Hin as [[k v] [<- Hin]].
  simpl. specialize (Hd _ Hin). simpl in Hd.
  apply Qlt_shift_div_l; [assumption | lra].
Qed.

(** With an empty [self.item_cooccurrence] the confidence of every pair is
    [0 / support], which does not pass the [> 0.1] threshold. *)
Lemma no_rule_passes (item_support : dict Q) (rules : dict (list (string * Q)))
  (item_a item_b : string) :
  positive_values item_support ->
  (let* confidence :=
     truediv (get_or (get_or ([] : dict (dict Q)) item_a []) item_b 0)
             (get_or item_support item_a (1 # 1000)) in
   if Qlt_bool (1 # 10) confidence
   then Ok (append_rule rules item_a item_b confidence)
   else Ok rules) = Ok rules.
Proof.
  intros Hpos.
  assert (Hs : 0 < get_or item_support item_a (1 # 1000))
    by (apply positive_values_get_or_pos; [assumption | reflexivity]).
  rewrite truediv_ok by lra. simpl bind.
  change (get_or (get_or ([] : dict (dict Q)) item_a []) item_b 0) with 0.
  replace (Qlt_bool (1 # 10) (0 / get_or item_support item_a (1 # 1000)))
    with false; [reflexivity |].
  symmetry. apply Qlt_bool_false.
  unfold Qdiv. rewrite Qmult_0_l. discriminate.
Qed.

(** On an engineer as [__init__] leaves it the rule loop never appends: the
    result is the empty mapping for every order table. *)
Lemma no_rules_without_cooccurrence (df : DataFrame) :
  _create_market_basket_rules __init__ df = Ok [].
Proof.
  unfold _create_market_basket_rules.
  destruct (negb (mem "order_id" (columns df))
            || negb (mem "item_name" (columns df))); [reflexivity |].
  set (orders := group_orders df).
  match goal with
  | |- context [map_result _ ?c] => set (counts := c)
  end.
  assert (Hcounts : positive_values counts)
    by (apply positive_values_support; constructor).
  destruct orders as [| o orders'] eqn:Eo.
  - reflexivity.
  - assert (Ht : 0 < len (o :: orders')) by (apply len_pos; discriminate).
    rewrite (map_result_ok _ (fun kv => (fst kv, snd kv / len (o :: orders')))).
    2:{ intros kv _. rewrite truediv_ok by lra. reflexivity. }
    rewrite bind_Ok.
    pose proof (positive_values_scaled Hcounts Ht) as Hsup.
    rewrite for_each_unchanged; [reflexivity |].
    intros o1 _. apply for_each_unchanged. intros ix1 _.
    apply for_each_unchanged. intros ix2 _.
    destruct (negb (fst ix1 =? fst ix2)%nat); [| reflexivity].
    apply no_rule_passes. exact Hsup.
Qed.

(** *** The co-occurrence loops visit each pair of distinct items once *)

Lemma fold_left_pointwise {A S} (f g : S -> A -> S) (l : list A) (s : S) :
  (forall s x, f s x = g s x) -> fold_left f l s = fold_left g l s.
Proof.
  intros H. revert s. induction l as [| x l IH]; simpl; intros s; [reflexivity |].
  now rewrite H, IH.
Qed.

Lemma count_order_pairs (st : dict (dict Q) * Q) (items : list string) :
  count_order st items = count_pairs st (order_pairs (unique items)).
Proof.
  unfold count_order, count_pairs, order_pairs.
  rewrite fold_left_flat_map. apply fold_left_pointwise. intros s ix1.
  rewrite fold_left_flat_map. apply fold_left_pointwise. intros s2 ix2.
  destruct (negb (fst ix1 =? fst ix2)%nat); reflexivity.
Qed.

Lemma count_dataset_pairs (orders : list (Z * list string)) (st : dict (dict Q) * Q) :
  fold_left (fun st o => count_order st (snd o)) orders st
  = count_pairs st (dataset_pairs orders).
Proof.
  unfold dataset_pairs, count_pairs. rewrite fold_left_flat_map.
  apply fold_left_pointwise. intros s o. apply count_order_pairs.
Qed.

Lemma cooccurrence_of_bump (c : dict (dict Q)) (x y a b : string) :
  cooccurrence_of (bump c x y) a b
  = if String.eqb a x && String.eqb b y
    then cooccurrence_of c a b + 1 else cooccurrence_of c a b.
Proof.
  unfold cooccurrence_of, bump.
  destruct (String.eqb_spec a x) as [-> | Hax]; simpl.
  - rewrite get_or_set_same. unfold add_to.
    destruct (String.eqb_spec b y) as [-> | Hby].
    + now rewrite get_or_set_same.
    + now rewrite get_or_set_other.
  - now rewrite get_or_set_other.
Qed.

Lemma entry_of_bump (c : dict (dict Q)) (x y a b : string) :
  (a, b) <> (x, y) ->
  get (get_or (bump c x y) a []) b = get (get_or c a []) b.
Proof.
  intros Hne. unfold bump.
  destruct (String.eqb_spec a x) as [-> | Hax].
  - rewrite get_or_set_same. unfold add_to.
    rewrite get_set_other; [reflexivity | congruence].
  - now rewrite get_or_set_other.
Qed.

Lemma occurrences_cons (a b : string) (p : string * string)
  (pairs : list (string * string)) :
  occurrences a b (p :: pairs)
  = ((if String.eqb a (fst p) && String.eqb b (snd p) then 1 else 0)
     + occurrences a b pairs)%nat.
Proof.
  unfold occurrences. simpl.
  destruct (String.eqb a (fst p) && String.eqb b (snd p)); reflexivity.
Qed.

Lemma occurrences_app (a b : string) (p q : list (string * string)) :
  occurrences a b (p ++ q) = (occurrences a b p + occurrences a b q)%nat.
Proof. unfold occurrences. now rewrite filter_app, length_app. Qed.

Lemma occurrences_le (a b : string) (pairs : list (string * string)) :
  (occurrences a b pairs <= List.length pairs)%nat.
Proof. unfold occurrences. apply filter_length_le. Qed.

Lemma Qnat_S (n : nat) : Qnat (S n) == Qnat n + 1.
Proof.
  unfold Qnat. rewrite Nat2Z.inj_succ, <- Z.add_1_r, inject_Z_plus. reflexivity.
Qed.

Lemma Qnat_plus (n m : nat) : Qnat (n + m) == Qnat n + Qnat m.
Proof. unfold Qnat. now rewrite Nat2Z.inj_add, inject_Z_plus. Qed.

Lemma Qnat_le (n m : nat) : (n <= m)%nat -> Qnat n <= Qnat m.
Proof. intros H. unfold Qnat. rewrite <- Zle_Qle. lia. Qed.

Lemma Qnat_nonneg (n : nat) : 0 <= Qnat n.
Proof. apply (Qnat_le (n := 0)). lia. Qed.

Lemma Qnat_pos (n : nat) : 0 < Qnat n <-> (0 < n)%nat.
Proof.
  unfold Qnat. change 0 with (inject_Z 0). rewrite <- Zlt_Qlt. lia.
Qed.

(** After the pass, the raw count of [(a, b)] has grown by the number of
    visits of [(a, b)], and [total_pairs] by the number of pairs. *)
Lemma count_pairs_value (pairs : list (string * string))
  (st : dict (dict Q) * Q) (a b : string) :
  cooccurrence_of (fst (count_pairs st pairs)) a b
  == cooccurrence_of (fst st) a b + Qnat (occurrences a b pairs)
  /\ snd (count_pairs st pairs) == snd st + Qnat (List.length pairs).
Proof.
  unfold count_pairs. revert st.
  induction pairs as [| [x y] pairs IH]; intros st.
  - simpl. unfold Qnat. simpl. split; ring.
  - simpl fold_left. destruct (IH (bump (fst st) x y, snd st + 1)) as [IH1 IH2].
    split.
    + rewrite IH1. simpl fst. rewrite cooccurrence_of_bump, occurrences_cons.
      simpl fst; simpl snd.
      destruct (String.eqb a x && String.eqb b y).
      * change (1 + occurrences a b pairs)%nat with (S (occurrences a b pairs)).
        rewrite Qnat_S. ring.
      * simpl. ring.
    + rewrite IH2. simpl snd. simpl List.length. rewrite Qnat_S. ring.
Qed.

Lemma count_pairs_entry (pairs : list (string * string))
  (st : dict (dict Q) * Q) (a b : string) :
  ~ In (a, b) pairs ->
  get (get_or (fst (count_pairs st pairs)) a []) b
  = get (get_or (fst st) a []) b.
Proof.
  unfold count_pairs. revert st.
  induction pairs as [| [x y] pairs IH]; intros st Hnot; [reflexivity |].
  simpl fold_left. rewrite IH by (intros H; apply Hnot; now right).
  simpl fst. apply entry_of_bump. intros Heq. apply Hnot. left. now symmetry.
Qed.

(** *** From positions to items *)

Lemma flat_map_pointwise_in {A B} (f g : A -> list B) (l : list A) :
  (forall x, In x l -> f x = g x) -> flat_map f l = flat_map g l.
Proof.
  induction l as [| x l IH]; simpl; intros H; [reflexivity |].
  rewrite (H x (or_introl eq_refl)), IH; [reflexivity |].
  intros; apply H; now right.
Qed.

Lemma flat_map_of_map {A B C} (f : B -> list C) (g : A -> B) (l : list A) :
  flat_map f (map g l) = flat_map (fun x => f (g x)) l.
Proof.
  induction l as [| x l IH]; simpl; [reflexivity | now rewrite IH].
Qed.

(** In a duplicate-free list two positions are equal exactly when the items
    there are equal, so [i != j] is [item1 != item2]. *)
Lemma position_eq_item_eq (u : list string) (ix1 ix2 : nat * string) :
  NoDup u -> In ix1 (enumerate u) -> In ix2 (enumerate u) ->
  Nat.eqb (fst ix1) (fst ix2) = String.eqb (snd ix1) (snd ix2).
Proof.
  intros Hnd H1 H2. destruct ix1 as [i x], ix2 as [j y]. simpl.
  apply enumerate_from_nth in H1. apply enumerate_from_nth in H2.
  destruct H1 as [_ H1], H2 as [_ H2]. rewrite Nat.sub_0_r in H1, H2.
  destruct (Nat.eqb_spec i j) as [-> | Hij].
  - rewrite H1 in H2. inversion H2. now rewrite String.eqb_refl.
  - symmetry. apply String.eqb_neq. intros ->. apply Hij.
    assert (Hi : (i < List.length u)%nat)
      by (apply nth_error_Some; congruence).
    rewrite NoDup_nth_error in Hnd. apply Hnd; [assumption | congruence].
Qed.

Lemma order_pairs_item_pairs (u : list string) :
  NoDup u -> order_pairs u = item_pairs u.
Proof.
  intros Hnd. unfold order_pairs, item_pairs.
  pose (row := fun x1 : string =>
          flat_map (fun x2 => if negb (String.eqb x1 x2)
                              then [(x1, x2)] else []) u).
  transitivity (flat_map (fun ix1 => row (snd ix1)) (enumerate u)).
  - apply flat_map_pointwise_in. intros ix1 H1. unfold row.
    pose (cell := fun x2 : string =>
            if negb (String.eqb (snd ix1) x2)
            then [(snd ix1, x2)] else @nil (string * string)).
    transitivity (flat_map (fun ix2 => cell (snd ix2)) (enumerate u)).
    + apply flat_map_pointwise_in. intros ix2 H2. unfold cell.
      now rewrite (position_eq_item_eq ix1 ix2 Hnd H1 H2).
    + rewrite <- (flat_map_of_map cell snd). unfold enumerate.
      now rewrite enumerate_from_snd.
  - rewrite <- (flat_map_of_map row snd). unfold enumerate.
    now rewrite enumerate_from_snd.
Qed.

Lemma occurrences_flat_map {A} (a b : string) (g : A -> list (string * string))
  (l : list A) :
  occurrences a b (flat_map g l)
  = list_sum (map (fun x => occurrences a b (g x)) l).
Proof.
  induction l as [| x l IH]; simpl; [reflexivity |].
  now rewrite occurrences_app, IH.
Qed.

Lemma occurrences_row (a b x1 : string) (u : list string) :
  occurrences a b
    (flat_map (fun x2 => if negb (String.eqb x1 x2) then [(x1, x2)] else []) u)
  = if String.eqb a x1 && negb (String.eqb a b) then count_of b u else 0%nat.
Proof.
  unfold count_of. induction u as [| x2 u IH]; simpl.
  - now destruct (String.eqb a x1 && negb (String.eqb a b)).
  - rewrite occurrences_app, IH. clear IH.
    destruct (String.eqb_spec x1 x2) as [-> | H12]; simpl.
    + destruct (String.eqb_spec a x2) as [-> | Ha]; simpl; [| reflexivity].
      destruct (String.eqb_spec x2 b) as [-> | Hb]; simpl; [reflexivity |].
      destruct (String.eqb_spec b x2) as [-> | Hb']; [congruence | reflexivity].
    + unfold occurrences at 1. simpl.
      destruct (String.eqb_spec a x1) as [-> | Ha]; simpl.
      * destruct (String.eqb_spec b x2) as [-> | Hb]; simpl.
        -- destruct (String.eqb_spec x1 x2); [congruence | reflexivity].
        -- now destruct (String.eqb x1 b).
      * reflexivity.
Qed.

Lemma list_sum_scaled (a : string) (k : nat) (flag : bool) (u : list string) :
  list_sum (map (fun x1 => if String.eqb a x1 && flag then k else 0%nat) u)
  = if flag then (count_of a u * k)%nat else 0%nat.
Proof.
  unfold count_of. induction u as [| x u IH]; simpl.
  - now destruct flag.
  - rewrite IH. destruct (String.eqb a x), flag; simpl; lia.
Qed.

Lemma occurrences_item_pairs (a b : string) (u : list string) :
  occurrences a b (item_pairs u)
  = if negb (String.eqb a b) then (count_of a u * count_of b u)%nat else 0%nat.
Proof.
  unfold item_pairs. rewrite occurrences_flat_map.
  rewrite (map_ext _ (fun x1 => if String.eqb a x1 && negb (String.eqb a b)
                                then count_of b u else 0%nat))
    by (intros; apply occurrences_row).
  apply list_sum_scaled.
Qed.

Lemma count_of_NoDup (x : string) (u : list string) :
  NoDup u -> count_of x u = if mem x u then 1%nat else 0%nat.
Proof.
  unfold count_of, mem. induction u as [| y u IH]; simpl; intros Hnd; [reflexivity |].
  inversion Hnd as [| ? ? Hnotin Hnd']; subst.
  destruct (String.eqb_spec x y) as [-> | Hxy]; simpl.
  - rewrite IH by assumption. apply mem_false in Hnotin. unfold mem in Hnotin.
    now rewrite Hnotin.
  - auto.
Qed.

(** One order contributes one visit of [(a, b)] when it holds both items and
    they differ, none otherwise. *)
Lemma occurrences_order (a b : string) (items : list string) :
  occurrences a b (order_pairs (unique items))
  = if negb (String.eqb a b) && (mem a items && mem b items)
    then 1%nat else 0%nat.
Proof.
  rewrite order_pairs_item_pairs by apply unique_NoDup.
  rewrite occurrences_item_pairs.
  rewrite !count_of_NoDup by apply unique_NoDup.
  rewrite !mem_unique.
  destruct (negb (String.eqb a b)), (mem a items), (mem b items); reflexivity.
Qed.

Lemma length_row (x1 : string) (u : list string) :
  List.length
    (flat_map (fun x2 => if negb (String.eqb x1 x2) then [(x1, x2)] else []) u)
  = (List.length u - count_of x1 u)%nat.
Proof.
  unfold count_of. induction u as [| x2 u IH]; [reflexivity |].
  cbn -[Nat.sub]. rewrite length_app, IH.
  pose proof (filter_length_le (String.eqb x1) u).
  destruct (String.eqb x1 x2); cbn -[Nat.sub]; lia.
Qed.

Lemma length_item_pairs (u : list string) :
  NoDup u ->
  List.length (item_pairs u) = (List.length u * (List.length u - 1))%nat.
Proof.
  intros Hnd. unfold item_pairs.
  assert (H : forall l, incl l u ->
    List.length (flat_map (fun x1 =>
       flat_map (fun x2 => if negb (String.eqb x1 x2) then [(x1, x2)] else []) u) l)
    = (List.length l * (List.length u - 1))%nat).
  { induction l as [| x l IH]; simpl; intros Hincl; [reflexivity |].
    rewrite length_app, IH by (intros z Hz; apply Hincl; now right).
    rewrite length_row, (count_of_NoDup x Hnd).
    assert (Hx : mem x u = true) by (apply mem_In, Hincl; now left).
    now rewrite Hx. }
  apply H. apply incl_refl.
Qed.

Lemma occurrences_dataset (a b : string) (orders : list (Z * list string)) :
  a <> b ->
  occurrences a b (dataset_pairs orders) = orders_with_both a b orders.
Proof.
  intros Hab. unfold dataset_pairs, orders_with_both.
  induction orders as [| o orders IH]; simpl; [reflexivity |].
  rewrite occurrences_app, IH, occurrences_order.
  apply String.eqb_neq in Hab. rewrite Hab. simpl.
  destruct (mem a (snd o) && mem b (snd o)); reflexivity.
Qed.

Lemma length_dataset (orders : list (Z * list string)) :
  List.length (dataset_pairs orders) = total_ordered_pairs orders.
Proof.
  unfold dataset_pairs, total_ordered_pairs, pairs_of_order.
  induction orders as [| o orders IH]; simpl; [reflexivity |].
  rewrite length_app, IH, order_pairs_item_pairs by apply unique_NoDup.
  now rewrite length_item_pairs by apply unique_NoDup.
Qed.

Lemma dataset_pairs_distinct (a : string) (orders : list (Z * list string)) :
  ~ In (a, a) (dataset_pairs orders).
Proof.
  intros Hin.
  assert (H : (0 < occurrences a a (dataset_pairs orders))%nat).
  { unfold occurrences.
    destruct (filter _ (dataset_pairs orders)) as [| p l] eqn:E; [| simpl; lia].
    assert (Hf : In (a, a) (filter (fun p => String.eqb a (fst p)
                                             && String.eqb a (snd p))
                                   (dataset_pairs orders))).
    { apply filter_In. split; [assumption |]. simpl.
      now rewrite String.eqb_refl. }
    rewrite E in Hf. contradiction. }
  revert H. unfold dataset_pairs. rewrite occurrences_flat_map.
  rewrite (map_ext _ (fun _ => 0%nat)).
  2:{ intros o. rewrite occurrences_order. now rewrite String.eqb_refl. }
  assert (Hz : forall (l : list (Z * list string)),
             list_sum (map (fun _ => 0%nat) l) = 0%nat)
    by (induction l; simpl; auto).
  rewrite Hz. lia.
Qed.

(** *** The probabilities *)

Lemma scaled_value (c : dict (dict Q)) (t : Q) (a b : string) :
  cooccurrence_of (map (fun e1 => (fst e1, scale_row t (snd e1))) c) a b
  == if Qlt_bool 0 t then cooccurrence_of c a b / t else 0.
Proof.
  unfold cooccurrence_of, get_or. rewrite (get_map_values (scale_row t)).
  destruct (get c a) as [row |]; simpl.
  - unfold scale_row.
    rewrite (get_map_values (fun v => if Qlt_bool 0 t then v / t else 0)).
    destruct (get row b); simpl; [reflexivity |].
    destruct (Qlt_bool 0 t); [unfold Qdiv; ring | reflexivity].
  - destruct (Qlt_bool 0 t); [unfold Qdiv; ring | reflexivity].
Qed.

Lemma share_in_unit_interval (n m : nat) :
  (n <= m)%nat -> 0 <= Qnat n / Qnat m <= 1.
Proof.
  intros Hle. destruct m as [| m].
  - assert (n = 0%nat) as -> by lia. split; discriminate.
  - assert (Hm : 0 < Qnat (S m)) by (apply Qnat_pos; lia).
    split.
    + apply Qle_shift_div_l; [assumption |]. rewrite Qmult_0_l. apply Qnat_nonneg.
    + apply Qle_shift_div_r; [assumption |]. rewrite Qmult_1_l. now apply Qnat_le.
Qed.

(** The value the method stores for [(a, b)], as a share of the visits. *)
Lemma cooccurrence_share (df : DataFrame) (a b : string) :
  mem "order_id" (columns df) = true ->
  mem "item_name" (columns df) = true ->
  cooccurrence_of (_calculate_item_cooccurrence df) a b
  == Qnat (occurrences a b (dataset_pairs (group_orders df)))
     / Qnat (List.length (dataset_pairs (group_orders df))).
Proof.
  intros Hc1 Hc2. unfold _calculate_item_cooccurrence. rewrite Hc1, Hc2.
  cbn [negb orb]. rewrite count_dataset_pairs.
  set (pairs := dataset_pairs (group_orders df)).
  destruct (count_pairs_value pairs ([], 0) a b) as [Hv Ht].
  destruct (count_pairs ([], 0) pairs) as [c t]. cbn [fst snd] in Hv, Ht.
  change (cooccurrence_of [] a b) with 0 in Hv.
  rewrite Qplus_0_l in Hv, Ht.
  rewrite (scaled_value c t a b).
  destruct (Qlt_bool 0 t) eqn:E.
  - now rewrite Hv, Ht.
  - apply Qlt_bool_false in E. rewrite Ht in E.
    assert (Hlen : List.length pairs = 0%nat).
    { destruct (List.length pairs) eqn:El; [reflexivity |].
      exfalso. apply (Qlt_not_le 0 (Qnat (S n))); [| assumption].
      apply Qnat_pos. lia. }
    pose proof (occurrences_le a b pairs) as Hocc.
    rewrite Hlen in *. assert (occurrences a b pairs = 0%nat) as -> by lia.
    reflexivity.
Qed.

(** C5. On a table that has the [order_id] and [item_name] columns: for
    distinct [a] and [b] the co-occurrence value is the number of orders
    holding both items divided by the total number of ordered pairs of the
    dataset; every co-occurrence value lies in [0, 1]; and no item has an
    entry with itself. *)
Theorem cooccurrence_is_share_of_pairs (df : DataFrame) (a b : string) :
  mem "order_id" (columns df) = true ->
  mem "item_name" (columns df) = true ->
  (a <> b ->
   cooccurrence_of (_calculate_item_cooccurrence df) a b
   == Qnat (orders_with_both a b (group_orders df))
      / Qnat (total_ordered_pairs (group_orders df)))
  /\ 0 <= cooccurrence_of (_calculate_item_cooccurrence df) a b <= 1
  /\ (forall row, get (_calculate_item_cooccurrence df) a = Some row ->
                  get row a = None).
Proof.
  intros Hc1 Hc2. split; [| split].
  - intros Hab. rewrite cooccurrence_share by assumption.
    now rewrite occurrences_dataset, length_dataset.
  - rewrite cooccurrence_share by assumption.
    apply share_in_unit_interval, occurrences_le.
  - intros row. unfold _calculate_item_cooccurrence. rewrite Hc1, Hc2.
    cbn [negb orb]. rewrite count_dataset_pairs.
    pose proof (@count_pairs_entry (dataset_pairs (group_orders df)) ([], 0)
                  a a (dataset_pairs_distinct a (group_orders df))) as He.
    destruct (count_pairs ([], 0) (dataset_pairs (group_orders df))) as [c t].
    cbn [fst] in He. change (get (get_or [] a []) a) with (@None Q) in He.
    change (fun e1 : string * dict Q =>
              (fst e1,
               map (fun e2 : string * Q =>
                      (fst e2, if Qlt_bool 0 t then snd e2 / t else 0))
                   (snd e1)))
      with (fun e1 : string * dict Q => (fst e1, scale_row t (snd e1))).
    rewrite (get_map_values (scale_row t)).
    unfold get_or in He. destruct (get c a) as [row0 |]; simpl; [| discriminate].
    intros [= <-]. unfold scale_row.
    rewrite (get_map_values (fun v => if Qlt_bool 0 t then v / t else 0)).
    now rewrite He.
Qed.

Lemma cooccurrence_is_share_of_pairs_witness :
  cooccurrence_of (_calculate_item_cooccurrence scenario_orders)
                  "Traditional Wings" "Ranch Dip"
  == Qnat (orders_with_both "Traditional Wings" "Ranch Dip"
                            (group_orders scenario_orders))
     / Qnat (total_ordered_pairs (group_orders scenario_orders))
  /\ cooccurrence_of (_calculate_item_cooccurrence scenario_orders)
                     "Traditional Wings" "Ranch Dip" == 1 # 6.
Proof.
  split.
  - apply (cooccurrence_is_share_of_pairs scenario_orders
             "Traditional Wings" "Ranch Dip");
      [reflexivity | reflexivity | discriminate].
  - vm_compute. reflexivity.
Defined.

(** C4 (the code departs from the claim). [create_features] never assigns
    [self.item_cooccurrence], so on an engineer as [__init__] leaves it the
    market-basket rule set is the empty mapping for every order table.  On
    the scenario table the rule Ranch Dip -> Traditional Wings has
    confidence (1/6) / (1/3) = 1/2 > 0.1 by the formula of the claim, yet
    the rule set built by [create_features] has no entry for Ranch Dip. *)
Theorem market_basket_rules_always_empty :
  (forall df, _create_market_basket_rules __init__ df = Ok [])
  /\ confidence_of (_calculate_item_cooccurrence scenario_orders)
                   (group_orders scenario_orders)
                   "Ranch Dip" "Traditional Wings" == 1 # 2
  /\ (exists f, create_features __init__ scenario_orders = Ok f
                /\ get (f_market_basket f) "Ranch Dip" = None).
Proof.
  split; [exact no_rules_without_cooccurrence | split].
  - vm_compute. reflexivity.
  - unfold create_features. rewrite no_rules_without_cooccurrence.
    eexists. split; reflexivity.
Qed.

End FeatureFacts.

(* ------------------------------------------------------------------ *)
(** ** Baseline recommender: score blender and [predict] *)
Module BlenderFacts.
Import Py PyNotations PyFacts RecommendationEngine.
Local Open Scope string_scope.
Local Open Scope Q_scope.

Lemma accumulate_value (w : Q) (recs : list (string * Q)) (d : dict Q)
  (item : string) :
  get_or (accumulate w recs d) item 0
  == get_or d item 0 + w * contribution recs item.
Proof.
  unfold accumulate. revert d.
  induction recs as [| [i s] recs IH]; intros d; simpl.
  - ring.
  - rewrite IH. destruct (String.eqb_spec item i) as [-> | Hne].
    + rewrite get_or_set_same. ring.
    + rewrite get_or_set_other by assumption. ring.
Qed.

Lemma accumulate_keys (w : Q) (recs : list (string * Q)) (d : dict Q)
  (item : string) :
  In item (keys (accumulate w recs d))
  <-> In item (keys d) \/ In item (map fst recs).
Proof.
  unfold accumulate. revert d.
  induction recs as [| [i s] recs IH]; intros d; simpl.
  - intuition.
  - rewrite IH, keys_set. intuition.
Qed.

Lemma accumulate_NoDup (w : Q) (recs : list (string * Q)) (d : dict Q) :
  NoDup (keys d) -> NoDup (keys (accumulate w recs d)).
Proof.
  unfold accumulate. revert d.
  induction recs as [| [i s] recs IH]; intros d Hd; simpl; [assumption |].
  apply IH. now apply NoDup_keys_set.
Qed.

(** The combined score of an item is the weighted sum of what the four
    generators give it. *)
Lemma blend_value (c m g p : list (string * Q)) (item : string) :
  get_or (blend c m g p) item 0
  == (4 # 10) * contribution c item + (3 # 10) * contribution m item
     + (2 # 10) * contribution g item + (1 # 10) * contribution p item.
Proof.
  unfold blend. rewrite !accumulate_value.
  change (get_or [] item 0) with 0. ring.
Qed.

Lemma blend_keys (c m g p : list (string * Q)) (item : string) :
  In item (keys (blend c m g p))
  <-> In item (map fst c) \/ In item (map fst m)
      \/ In item (map fst g) \/ In item (map fst p).
Proof.
  unfold blend. rewrite !accumulate_keys. simpl. intuition.
Qed.

Lemma blend_NoDup (c m g p : list (string * Q)) : NoDup (keys (blend c m g p)).
Proof. unfold blend. repeat apply accumulate_NoDup. constructor. Qed.

(** C3. With features in place, the blender adds, per item, 0.4 times the
    co-occurrence score, 0.3 times the market-basket score, 0.2 times the
    category score and 0.1 times the popularity score (an item scored by
    several generators gets the sum, one entry per item), orders the entries
    by combined score, highest first, and returns the names of the first
    three (all of them when there are fewer). *)
Theorem blender_weights_and_top3 (self : Engine) (f : Features)
  (order_items : list string) (exclude_items : option (list string)) :
  features self = Some f ->
  blender_contract self order_items exclude_items.
Proof.
  intros Hf. unfold blender_contract.
  set (exclude := match exclude_items with Some e => e | None => [] end).
  unfold _recommend_items, _get_cooccurrence_recommendations,
    _get_market_basket_recommendations, _get_category_recommendations,
    _get_popularity_recommendations, self_features.
  rewrite Hf. cbn [bind]. fold exclude.
  do 4 eexists. repeat (split; [reflexivity |]).
  split; [intros; apply blend_value |].
  split; [intros; apply blend_keys |].
  split; [apply blend_NoDup |].
  eexists. split; [apply sorted_desc_perm |].
  split; [apply (sorted_desc_sorted (A := string * Q) snd) | reflexivity].
Qed.

Lemma blender_weights_and_top3_witness :
  blender_contract scenario_engine ["Traditional Wings"]
                   (Some ["Traditional Wings"]).
Proof.
  apply (blender_weights_and_top3 scenario_engine (f := scenario_features)).
  reflexivity.
Defined.

(** The scenario of the specification: with Traditional Wings in the cart,
    Ranch Dip and Fries outrank Soda. *)
Example scenario_ranking :
  _recommend_items scenario_engine ["Traditional Wings"]
                   (Some ["Traditional Wings"])
  = Ok ["Fries"; "Ranch Dip"; "Soda"].
Proof. vm_compute. reflexivity. Qed.

(** *** [predict] *)

Lemma recommend_items_at_most_three (self : Engine) (f : Features)
  (order_items : list string) (exclude_items : option (list string)) :
  features self = Some f ->
  exists recs, _recommend_items self order_items exclude_items = Ok recs
               /\ (List.length recs <= 3)%nat.
Proof.
  intros Hf.
  unfold _recommend_items, _get_cooccurrence_recommendations,
    _get_market_basket_recommendations, _get_category_recommendations,
    _get_popularity_recommendations, self_features.
  rewrite Hf. cbn [bind]. eexists. split; [reflexivity |].
  rewrite length_map. apply firstn_le_length.
Qed.

(** The padding loop leaves by its condition: the list ends up with the
    fallback literal in every slot the blender left open. *)
Lemma pad_loop_closed (recs : list string) :
  pad_loop 3 recs
  = (recs ++ repeat popular_item_fallback (3 - List.length recs))%list.
Proof.
  destruct recs as [| a [| b [| c rest]]]; try reflexivity.
  cbn. now rewrite app_nil_r.
Qed.

Lemma predict_row_slots (self : Engine) (f : Features) (idx : nat) (row : Row) :
  features self = Some f ->
  exists out, predict_row self idx row = Ok out /\ three_slots self row out.
Proof.
  intros Hf. unfold predict_row, three_slots.
  destruct (recommend_items_at_most_three self (_extract_order_items row)
              (Some (_extract_order_items row)) Hf) as [recs [Hr Hlen]].
  rewrite Hr, bind_Ok, pad_loop_closed.
  destruct recs as [| a [| b [| c [| d rest]]]]; simpl in Hlen; try lia;
    (eexists; split; [reflexivity |]; eexists; split; [reflexivity | split; [simpl; lia | reflexivity]]).
Qed.



(** With features that know no item at all, the three fields still hold a
    name: the fallback literal, which no menu item supplied. *)
Example fallback_is_not_a_menu_item :
  predict no_menu_engine [wings_row]
  = Ok [ {| out_CUSTOMER_ID := OfCell (Str "12345");
            out_ORDER_ID := OfIndex 0;
            out_item1 := Str " Traditional Wings ";
            out_item2 := NaN;
            out_item3 := Str EmptyString;
            RECOMMENDATION_1 := "popular_item_fallback";
            RECOMMENDATION_2 := "popular_item_fallback";
            RECOMMENDATION_3 := "popular_item_fallback" |} ].
Proof. vm_compute. reflexivity. Qed.

(** An untrained engine refuses to predict. *)
Example predict_untrained (test_data : list Row) :
  predict __init__ test_data
  = Raise (ValueError "Model must be trained before making predictions").
Proof. reflexivity. Qed.

End BlenderFacts.

(* ------------------------------------------------------------------ *)
(** ** Enhanced engine: [generate_fresh_recommendations] *)
Module EnhancedFacts.
Import Py PyNotations PyFacts Enhanced.
Local Open Scope string_scope.

(** C2. On the class as written, every call ends in [AttributeError] at the
    first helper lookup, whatever the customer, cart, customer type,
    platform, store, clock and random source; nothing is returned and the
    history is left as it was.  None of the nine helper names is defined in
    the class or set on the instance; the mocks live under other names. *)
Theorem every_call_raises_attribute_error
  (current_month : Z) (uniform : Q) (draw : list string -> nat -> list string)
  (now : Z) (self : Engine) (customer_id : string) (current_items : list string)
  (customer_type platform : string) (store_number : option string) :
  generate_fresh_recommendations (class_namespace current_month uniform) draw now
    self customer_id current_items customer_type platform store_number
  = (Raise (AttributeError "_get_wings_r_us_recommendations"), self)
  /\ Forall (fun name => get (class_namespace current_month uniform) name = None
                          /\ mem name instance_attributes = false)
            helper_names
  /\ (exists mock, get (class_namespace current_month uniform)
                       "_get_base_recommendations" = Some mock).
Proof.
  split; [| split].
  - unfold generate_fresh_recommendations, recommendations_of, final_items,
      max_recommendations.
    destruct (String.eqb platform "Digital"); reflexivity.
  - repeat constructor.
  - eexists. reflexivity.
Qed.

(** *** Shape of the returned list *)

Lemma target_count_is_three (platform : string) :
  max_recommendations platform = Ok 3%Z.
Proof.
  unfold max_recommendations. destruct (String.eqb platform "Digital"); reflexivity.
Qed.

Ltac bind_cases H :=
  repeat match type of H with
         | bind ?m _ = Ok _ =>
             let E := fresh "E" in
             destruct m eqn:E; [rewrite bind_Ok in H | discriminate H]
         end.

Lemma make_recommendation_fields (cls : dict Method) (current_items : list string)
  (customer_id customer_type platform : string) (store_number : option string)
  (trending_items seasonal_items : list string) (ix : nat * string)
  (r : Recommendation) :
  make_recommendation cls current_items customer_id customer_type platform
    store_number trending_items seasonal_items ix = Ok r ->
  rank r = (Z.of_nat (fst ix) + 1)%Z /\ item_name r = snd ix.
Proof.
  unfold make_recommendation. intros H.
  bind_cases H. inversion H; subst. simpl. split; reflexivity.
Qed.

Lemma records_follow_positions (cls : dict Method) (current_items : list string)
  (customer_id customer_type platform : string) (store_number : option string)
  (trending_items seasonal_items : list string) (ixs : list (nat * string))
  (recs : list Recommendation) :
  map_result (make_recommendation cls current_items customer_id customer_type
                platform store_number trending_items seasonal_items) ixs
  = Ok recs ->
  map rank recs = map (fun ix => (Z.of_nat (fst ix) + 1)%Z) ixs
  /\ map item_name recs = map snd ixs.
Proof.
  revert recs. induction ixs as [| ix ixs IH]; simpl; intros recs H.
  - inversion H. split; reflexivity.
  - bind_cases H. inversion H; subst. simpl.
    match goal with
    | E1 : make_recommendation _ _ _ _ _ _ _ _ _ = Ok _ |- _ =>
        apply make_recommendation_fields in E1; destruct E1 as [-> ->]
    end.
    destruct (IH _ eq_refl) as [-> ->]. split; reflexivity.
Qed.

Lemma ranks_of_enumerate {A} (i : nat) (xs : list A) :
  map (fun ix => (Z.of_nat (fst ix) + 1)%Z) (enumerate_from i xs)
  = map Z.of_nat (seq (S i) (List.length xs)).
Proof.
  revert i. induction xs as [| x xs IH]; simpl; intros i; [reflexivity |].
  rewrite IH. f_equal. lia.
Qed.

Lemma slice_to_length {A} (xs : list A) (stop : Z) :
  (0 <= stop)%Z -> (Z.of_nat (List.length (slice_to xs stop)) <= stop)%Z.
Proof.
  intros H. unfold slice_to. destruct (0 <=? stop)%Z eqn:E; [| lia].
  pose proof (firstn_le_length (Z.to_nat stop) xs). lia.
Qed.

Lemma firstn_subset {A} (n : nat) (xs : list A) (x : A) :
  In x (firstn n xs) -> In x xs.
Proof.
  intros H. rewrite <- (firstn_skipn n xs). apply in_or_app. now left.
Qed.

Lemma slice_to_incl {A} (xs : list A) (stop : Z) (x : A) :
  In x (slice_to xs stop) -> In x xs.
Proof.
  unfold slice_to. destruct (0 <=? stop)%Z; apply firstn_subset.
Qed.

(** What a normal return tells about the list. *)
Lemma returned_list_shape (cls : dict Method)
  (draw : list string -> nat -> list string) (now : Z) (self : Engine)
  (customer_id : string) (current_items : list string)
  (customer_type platform : string) (store_number : option string)
  (recommendations : list Recommendation) :
  recommendations_of cls draw now self customer_id current_items customer_type
    platform store_number = Ok recommendations ->
  exists final_recs trending_items seasonal_items,
    final_items cls draw now self customer_id current_items customer_type
      platform store_number
    = Ok (3%Z, final_recs, trending_items, seasonal_items)
    /\ map item_name recommendations = slice_to final_recs 3
    /\ map rank recommendations
       = map Z.of_nat (seq 1 (List.length recommendations)).
Proof.
  unfold recommendations_of. intros H.
  destruct (final_items cls draw now self customer_id current_items
              customer_type platform store_number)
    as [[[[n final_recs] trending_items] seasonal_items] |] eqn:E;
    [rewrite bind_Ok in H | discriminate H].
  assert (Hn : n = 3%Z).
  { unfold final_items in E. rewrite target_count_is_three, bind_Ok in E.
    bind_cases E. now inversion E. }
  subst n. exists final_recs, trending_items, seasonal_items.
  split; [reflexivity |].
  pose proof (map_result_length _ _ H) as Hlen.
  apply records_follow_positions in H. destruct H as [Hr Hn].
  split.
  - rewrite Hn. unfold enumerate. apply enumerate_from_snd.
  - rewrite Hr. unfold enumerate. rewrite ranks_of_enumerate.
    unfold enumerate in Hlen. rewrite enumerate_from_length in Hlen.
    now rewrite Hlen.
Qed.

Lemma fst_generate (cls : dict Method)
  (draw : list string -> nat -> list string) (now : Z) (self : Engine)
  (customer_id : string) (current_items : list string)
  (customer_type platform : string) (store_number : option string) :
  fst (generate_fresh_recommendations cls draw now self customer_id
         current_items customer_type platform store_number)
  = recommendations_of cls draw now self customer_id current_items
      customer_type platform store_number.
Proof.
  unfold generate_fresh_recommendations.
  now destruct (recommendations_of _ _ _ _ _ _ _ _ _).
Qed.

(** *** The call returns once the helpers are defined *)

Lemma fallback_loop_returns (cls : dict Method)
  (f : list string -> string -> option string -> list string)
  (turns : nat) (max_recs : Z) (current_items : list string)
  (customer_type : string) (store_number : option string)
  (final_recs : list string) :
  get cls "_get_wings_r_us_fallback_items" = Some (m_exclude_type_store f) ->
  exists l, fallback_loop cls turns max_recs current_items customer_type
              store_number final_recs = Ok l.
Proof.
  intros Hf. revert final_recs.
  induction turns as [| turns IH]; intros final_recs; simpl.
  - eexists. reflexivity.
  - destruct (Z.of_nat (List.length final_recs) <? max_recs)%Z;
      [| eexists; reflexivity].
    unfold call_fallback, getattr. rewrite Hf. cbn [bind].
    destruct (f _ _ _); [eexists; reflexivity | apply IH].
Qed.

(** The loop leaves by its condition or its [break], never by running out of
    turns: more turns than [max_recs] change nothing. *)
Lemma fallback_loop_turns (cls : dict Method) (extra turns : nat) (max_recs : Z)
  (current_items : list string) (customer_type : string)
  (store_number : option string) (final_recs : list string) :
  (max_recs <= Z.of_nat (List.length final_recs) + Z.of_nat turns)%Z ->
  fallback_loop cls (turns + extra) max_recs current_items customer_type
    store_number final_recs
  = fallback_loop cls turns max_recs current_items customer_type
      store_number final_recs.
Proof.
  revert final_recs. induction turns as [| turns IH]; intros final_recs Hle.
  - simpl. destruct extra; [reflexivity |]. simpl.
    destruct (Z.ltb_spec (Z.of_nat (List.length final_recs)) max_recs);
      [lia | reflexivity].
  - simpl. destruct (Z.of_nat (List.length final_recs) <? max_recs)%Z;
      [| reflexivity].
    destruct (call_fallback cls _ customer_type store_number) as [l |];
      [| reflexivity].
    cbn [bind]. destruct l; [reflexivity |].
    apply IH. rewrite length_app. simpl. lia.
Qed.

Corollary fallback_loop_enough_turns (cls : dict Method) (extra : nat)
  (max_recs : Z) (current_items : list string) (customer_type : string)
  (store_number : option string) (final_recs : list string) :
  fallback_loop cls (Z.to_nat max_recs + extra) max_recs current_items
    customer_type store_number final_recs
  = fallback_loop cls (Z.to_nat max_recs) max_recs current_items
      customer_type store_number final_recs.
Proof. apply fallback_loop_turns. lia. Qed.

Lemma returns_when_helpers_defined (cls : dict Method)
  (draw : list string -> nat -> list string) (now : Z) (self : Engine)
  (customer_id : string) (current_items : list string)
  (customer_type platform : string) (store_number : option string) :
  defines_helpers cls ->
  exists recommendations,
    fst (generate_fresh_recommendations cls draw now self customer_id
           current_items customer_type platform store_number)
    = Ok recommendations.
Proof.
  intros (f1 & f2 & f3 & f4 & f5 & f6 & f7 & f8 & f9 &
          H1 & H2 & H3 & H4 & H5 & H6 & H7 & H8 & H9).
  rewrite fst_generate. unfold recommendations_of, final_items.
  rewrite target_count_is_three, bind_Ok.
  unfold call_recommendations, call_diversity, call_trending, call_seasonal,
    getattr.
  rewrite H1, H2, H3, H4. cbn [bind].
  change (Z.max 1 (int_of (inject_Z 3 * (2 # 10)))) with 1%Z.
  change (Z.max 1 (int_of (inject_Z 3 * (1 # 10)))) with 1%Z.
  match goal with
  | |- context [bind (match ?t with [] => Ok ?a | _ :: _ => ?b end) ?k] =>
      assert (Hs : exists l, match t with [] => Ok a | _ :: _ => b end = Ok l)
  end.
  { destruct (f3 _ store_number) as [| t ts]; [eexists; reflexivity |].
    unfold random_sample.
    assert (Hk : (List.length
                    (firstn (Nat.min 10 (List.length (t :: ts))) (t :: ts))
                  <? Z.to_nat (Z.min 1 (Z.of_nat (List.length (t :: ts)))))%nat
                 = false).
    { apply Nat.ltb_ge. rewrite length_firstn. simpl List.length. lia. }
    rewrite Hk. eexists. reflexivity. }
  destruct Hs as [l Hl]. rewrite Hl, bind_Ok.
  match goal with
  | |- context [fallback_loop cls ?t ?n ?ci ?ct ?sn ?init] =>
      destruct (@fallback_loop_returns cls f5 t n ci ct sn init H5)
        as [final Hfinal]
  end.
  rewrite Hfinal, !bind_Ok.
  match goal with
  | |- context [map_result ?f ?xs] =>
      destruct (map_result_Forall2 f (fun _ _ => True) xs) as [recs [Hrecs _]]
  end.
  - intros ix _. unfold make_recommendation, call_confidence, call_explanation,
      call_category, call_freshness, getattr.
    rewrite H6, H7, H8, H9. cbn [bind]. eexists. split; [reflexivity | exact I].
  - exists recs. exact Hrecs.
Qed.

(** *** Freshness *)



Lemma call_raises_at_first_lookup
  (current_month : Z) (uniform : Q) (draw : list string -> nat -> list string)
  (now : Z) (self : Engine) (customer_id : string) (current_items : list string)
  (customer_type platform : string) (store_number : option string) :
  generate_fresh_recommendations (class_namespace current_month uniform) draw now
    self customer_id current_items customer_type platform store_number
  = (Raise (AttributeError "_get_wings_r_us_recommendations"), self).
Proof.
  unfold generate_fresh_recommendations, recommendations_of, final_items,
    max_recommendations.
  destruct (String.eqb platform "Digital"); reflexivity.
Qed.



(** C6. On the class as written no call returns a list.  The target count N
    is read (3 for every platform) and the slice [final_recs[:max_recs]] of
    line 379 has at most N entries, numbered from 1 by the loop of line 385,
    whatever [final_recs] is; but every call raises [AttributeError] before
    it gets there, so no list of at most N ranked records comes back. *)
Theorem no_call_returns_a_ranked_list
  (current_month : Z) (uniform : Q) (draw : list string -> nat -> list string)
  (now : Z) (self : Engine) (customer_id : string) (current_items : list string)
  (customer_type platform : string) (store_number : option string) :
  max_recommendations platform = Ok 3%Z
  /\ (forall final_recs : list string,
        (Z.of_nat (List.length (slice_to final_recs 3)) <= 3)%Z
        /\ map (fun ir => (Z.of_nat (fst ir) + 1)%Z)
               (enumerate (slice_to final_recs 3))
           = map Z.of_nat (seq 1 (List.length (slice_to final_recs 3))))
  /\ (forall recommendations,
        fst (generate_fresh_recommendations (class_namespace current_month uniform)
               draw now self customer_id current_items customer_type platform
               store_number)
        <> Ok recommendations).
Proof.
  split; [apply target_count_is_three |]. split.
  - intros final_recs. split.
    + now apply slice_to_length.
    + unfold enumerate. apply ranks_of_enumerate.
  - intros recommendations. rewrite call_raises_at_first_lookup. discriminate.
Qed.

End EnhancedFacts.

(* ------------------------------------------------------------------ *)
(** ** Success metrics *)
Module PilotFacts.
Import Py PyNotations PyFacts Pilot.
Local Open Scope string_scope.
Local Open Scope Q_scope.

(** C7. With no recommendations, no interactions and no baseline the call
    returns the report: it has every metric key, in the order of the
    literal, and each value is 0. *)
Theorem empty_input_all_zero :
  exists metrics,
    measure_success_metrics [] [] None = Ok metrics
    /\ keys metrics = metric_keys
    /\ Forall (fun kv => snd kv = 0) metrics.
Proof.
  exists initial_metrics. split; [reflexivity | split; [reflexivity |]].
  repeat constructor.
Qed.

(** The same report comes back whenever either batch is empty. *)
Lemma empty_batch_report (recommendations : list RecommendationView)
  (user_interactions : list Interaction) (baseline_data : option Baseline) :
  recommendations = [] \/ user_interactions = [] ->
  measure_success_metrics recommendations user_interactions baseline_data
  = Ok initial_metrics.
Proof.
  intros [-> | ->]; [reflexivity |]. now destruct recommendations.
Qed.

Lemma truediv_pos (a b : Q) : 0 < b -> truediv a b = Ok (a / b).
Proof. intros H. apply truediv_ok. lra. Qed.

Lemma subscript_get {V} (d : dict V) (k : string) (v : V) :
  get d k = Some v -> subscript d k = Ok v.
Proof. intros H. unfold subscript. now rewrite H. Qed.

Ltac through_sets :=
  repeat first [ rewrite get_set_same
               | rewrite get_set_other by (intro; discriminate) ].

Ltac div_side :=
  first [ assumption
        | apply Qlt_bool_iff; assumption
        | reflexivity
        | apply len_pos; discriminate ].

Ltac step :=
  first
    [ rewrite bind_Ok
    | rewrite truediv_pos by div_side
    | match goal with
      | |- context [bind (if Qlt_bool 0 ?x then _ else _) _] =>
          let E := fresh "E" in destruct (Qlt_bool 0 x) eqn:E
      | |- context [bind (match ?b with Some _ => _ | None => _ end) _] =>
          destruct b
      | |- context [bind (match ?b with {| baseline_aov := _ |} => _ end) _] =>
          destruct b
      end ].

(** The block under [if total_recommendations > 0] never raises on
    non-empty batches, and sets the four ratios. *)
Lemma business_impact_rates (metrics : dict Q)
  (r : RecommendationView) (recs : list RecommendationView)
  (i : Interaction) (ui : list Interaction) (baseline_data : option Baseline) :
  exists m',
    business_impact metrics (r :: recs) (i :: ui) baseline_data
    = Ok (m', with_action "purchase" (i :: ui))
    /\ get m' "recommendation_adoption_rate"
       = Some (len (with_action "purchase" (i :: ui)) / len (r :: recs))
    /\ get m' "click_through_rate"
       = Some (len (with_action "click" (i :: ui)) / len (r :: recs))
    /\ get m' "add_to_cart_rate"
       = Some (len (with_action "add_to_cart" (i :: ui)) / len (r :: recs))
    /\ get m' "conversion_rate"
       = (if Qlt_bool 0 (len (with_action "click" (i :: ui)))
          then Some (len (with_action "purchase" (i :: ui))
                     / len (with_action "click" (i :: ui)))
          else get metrics "conversion_rate")
    /\ get m' "customer_satisfaction_score"
       = get metrics "customer_satisfaction_score".
Proof.
  assert (Hr : 0 < len (r :: recs)) by (apply len_pos; discriminate).
  assert (Hu : 0 < len (i :: ui)) by (apply len_pos; discriminate).
  unfold business_impact. cbv zeta.
  set (purchases := with_action "purchase" (i :: ui)).
  set (clicks := with_action "click" (i :: ui)).
  set (adds := with_action "add_to_cart" (i :: ui)).
  repeat step.
  all: cbn [map]; rewrite bind_Ok; eexists; (split; [reflexivity |]).
  all: through_sets; repeat split; reflexivity.
Qed.



(** The scenario of the specification, evaluated: three purchases of "X"
    out of ten recommendations. *)
Example adoption_three_of_ten :
  exists metrics rate,
    measure_success_metrics (repeat (recommended "Y") 10)
                            (repeat (purchase_of "X") 3) None
    = Ok metrics
    /\ get metrics "recommendation_adoption_rate" = Some rate
    /\ rate == 3 # 10.
Proof.
  eexists. eexists. split; [vm_compute; reflexivity |].
  split; [reflexivity | reflexivity].
Qed.

End PilotFacts.

(* ================================================================== *)
(** * Part III. Further properties of the same code                    *)
(* ================================================================== *)

(** ** More facts about the runtime pieces *)
Module PyMoreFacts.
Import Py PyFacts.

Lemma get_In_NoDup {V} (d : dict V) (k : string) (v : V) :
  NoDup (keys d) -> In (k, v) d -> get d k = Some v.
Proof.
  unfold keys. induction d as [| [k0 v0] d IH]; simpl; intros Hnd Hin; [contradiction |].
  inversion Hnd as [| ? ? Hnotin Hnd']; subst.
  destruct Hin as [[= -> ->] | Hin].
  - now rewrite String.eqb_refl.
  - destruct (String.eqb_spec k k0) as [-> | Hne]; [| auto].
    exfalso. apply Hnotin. apply in_map_iff. exists (k0, v). now split.
Qed.

Lemma get_Permutation {V} (d d' : dict V) (k : string) :
  NoDup (keys d) -> Permutation d d' -> get d' k = get d k.
Proof.
  intros Hnd Hp.
  assert (Hnd' : NoDup (keys d'))
    by (unfold keys in *; apply (Permutation_NoDup (Permutation_map fst Hp) Hnd)).
  destruct (get d k) as [v |] eqn:E.
  - apply get_In_NoDup; [assumption |].
    apply (Permutation_in _ Hp). now apply get_In.
  - destruct (get d' k) as [v' |] eqn:E'; [| reflexivity].
    apply get_In in E'. apply (Permutation_in _ (Permutation_sym Hp)) in E'.
    rewrite (@get_In_NoDup _ d k v' Hnd E') in E. discriminate.
Qed.

Lemma In_set {V} (d : dict V) (k0 : string) (v0 : V) (k : string) (v : V) :
  In (k, v) (set d k0 v0) -> In (k, v) d \/ v = v0.
Proof.
  induction d as [| [k1 v1] d IH]; simpl.
  - intros [[= _ <-] | []]. now right.
  - destruct (String.eqb k0 k1); simpl.
    + intros [[= _ <-] | H]; [now right | left; now right].
    + intros [H | H]; [left; now left |].
      destruct (IH H); [left; now right | now right].
Qed.

Lemma keys_set_present {V} (d : dict V) (k : string) (v : V) :
  In k (keys d) -> keys (set d k v) = keys d.
Proof.
  unfold keys. induction d as [| [k0 v0] d IH]; simpl; intros Hin; [contradiction |].
  destruct (String.eqb_spec k k0) as [-> | Hne]; simpl; [reflexivity |].
  f_equal. apply IH. destruct Hin; [congruence | assumption].
Qed.

Lemma NoDup_firstn {A} (n : nat) (xs : list A) : NoDup xs -> NoDup (firstn n xs).
Proof.
  intros H. rewrite <- (firstn_skipn n xs) in H. now apply NoDup_app_remove_r in H.
Qed.

Lemma StronglySorted_app {A} (R : A -> A -> Prop) (l1 l2 : list A) :
  StronglySorted R (l1 ++ l2) ->
  StronglySorted R l1 /\ (forall x y, In x l1 -> In y l2 -> R x y).
Proof.
  induction l1 as [| a l1 IH]; simpl; intros H.
  - split; [constructor | intros x y []].
  - inversion H as [| ? ? Hs Hall]; subst. destruct (IH Hs) as [Hs1 Hcross].
    rewrite Forall_forall in Hall. split.
    + constructor; [assumption |]. rewrite Forall_forall. intros z Hz.
      apply Hall. apply in_or_app. now left.
    + intros x y [<- | Hx] Hy; [| auto].
      apply Hall. apply in_or_app. now right.
Qed.

Lemma StronglySorted_firstn {A} (R : A -> A -> Prop) (n : nat) (l : list A) :
  StronglySorted R l -> StronglySorted R (firstn n l).
Proof.
  intros H. rewrite <- (firstn_skipn n l) in H.
  now apply StronglySorted_app in H.
Qed.

(** The first [n] entries of a descending sort dominate the rest. *)
Lemma sorted_desc_top {A} (key : A -> Q) (n : nat) (l : list A) (x y : A) :
  In x (firstn n (sorted_desc key l)) ->
  In y (skipn n (sorted_desc key l)) ->
  key y <= key x.
Proof.
  intros Hx Hy. pose proof (sorted_desc_sorted key l) as Hs.
  rewrite <- (firstn_skipn n (sorted_desc key l)) in Hs.
  apply StronglySorted_app in Hs. destruct Hs as [_ Hcross].
  exact (Hcross x y Hx Hy).
Qed.

(** A loop whose body keeps an invariant and never raises ends normally
    with the invariant. *)
Lemma for_each_invariant {A S} (P : S -> Prop) (body : S -> A -> result S)
  (xs : list A) (acc : S) :
  (forall acc x, In x xs -> P acc -> exists acc', body acc x = Ok acc' /\ P acc') ->
  P acc ->
  exists acc', for_each body xs acc = Ok acc' /\ P acc'.
Proof.
  revert acc. induction xs as [| x xs IH]; simpl; intros acc Hbody Hacc.
  - eauto.
  - destruct (Hbody acc x (or_introl eq_refl) Hacc) as [acc1 [E1 H1]].
    rewrite E1, bind_Ok. apply IH; [| assumption].
    intros; apply Hbody; [now right | assumption].
Qed.

End PyMoreFacts.

(* ------------------------------------------------------------------ *)
(** ** Feature store: frequencies, symmetry, rule lists, categories *)
Module FeatureExtras.
Import Py PyNotations PyFacts PyMoreFacts FeatureEngineering FeatureFacts.
Local Open Scope string_scope.
Local Open Scope Q_scope.

(** *** Item frequency *)

Lemma count_of_cons (x y : string) (names : list string) :
  count_of x (y :: names)
  = ((if String.eqb x y then 1 else 0) + count_of x names)%nat.
Proof. unfold count_of. simpl. now destruct (String.eqb x y). Qed.

Lemma counts_value (names : list string) (d : dict Q) (x : string) :
  get_or (fold_left (fun d n => add_to d n 1) names d) x 0
  == get_or d x 0 + Qnat (count_of x names).
Proof.
  revert d. induction names as [| y names IH]; intros d; simpl.
  - unfold count_of, Qnat. simpl. ring.
  - rewrite IH, count_of_cons. unfold add_to.
    destruct (String.eqb_spec x y) as [-> | Hne].
    + rewrite get_or_set_same.
      change (1 + count_of y names)%nat with (S (count_of y names)).
      rewrite Qnat_S. ring.
    + rewrite get_or_set_other by assumption. simpl. ring.
Qed.

Lemma counts_NoDup (names : list string) (d : dict Q) :
  NoDup (keys d) -> NoDup (keys (fold_left (fun d n => add_to d n 1) names d)).
Proof.
  revert d. induction names as [| y names IH]; intros d Hd; simpl; [assumption |].
  apply IH. unfold add_to. now apply NoDup_keys_set.
Qed.

Lemma counts_keys (names : list string) (d : dict Q) (x : string) :
  In x (keys (fold_left (fun d n => add_to d n 1) names d))
  <-> In x (keys d) \/ In x names.
Proof.
  revert d. induction names as [| y names IH]; intros d; simpl.
  - intuition.
  - rewrite IH. unfold add_to. rewrite keys_set. intuition.
Qed.

Lemma total_set_add (d : dict Q) (k : string) (x : Q) :
  total (add_to d k x) == total d + x.
Proof.
  unfold add_to, total, get_or. induction d as [| [k0 v0] d IH]; simpl.
  - ring.
  - destruct (String.eqb k k0) eqn:E; simpl.
    + ring.
    + rewrite IH. ring.
Qed.

Lemma total_counts (names : list string) (d : dict Q) :
  total (fold_left (fun d n => add_to d n 1) names d)
  == total d + Qnat (List.length names).
Proof.
  revert d. induction names as [| y names IH]; intros d; simpl.
  - unfold Qnat. simpl. ring.
  - rewrite IH, total_set_add.
    change (Qnat (S (List.length names))) with (Qnat (S (List.length names))).
    rewrite Qnat_S. ring.
Qed.

Lemma total_Permutation (d d' : dict Q) :
  Permutation d d' -> total d == total d'.
Proof.
  unfold total. induction 1 as [| x l l' _ IH | x y l | l l' l'' _ IH1 _ IH2];
    simpl.
  - reflexivity.
  - now rewrite IH.
  - ring.
  - now rewrite IH1.
Qed.

Lemma total_scaled (d : dict Q) (t : Q) :
  total (map (fun kv => (fst kv, snd kv / t)) d) == total d / t.
Proof.
  unfold total. induction d as [| [k v] d IH]; simpl.
  - unfold Qdiv. ring.
  - rewrite IH. unfold Qdiv. ring.
Qed.

Lemma value_counts_get (names : list string) (x : string) :
  get_or (value_counts names) x 0 == Qnat (count_of x names).
Proof.
  unfold value_counts, get_or.
  rewrite (get_Permutation (d := fold_left (fun d n => add_to d n 1) names []));
    [| apply counts_NoDup; constructor
     | apply Permutation_sym, sorted_desc_perm].
  fold (get_or (fold_left (fun d n => add_to d n 1) names []) x 0).
  rewrite counts_value. change (get_or [] x 0) with 0. ring.
Qed.

Lemma item_frequency_value (df : DataFrame) (x : string) :
  mem "item_name" (columns df) = true ->
  get_or (_calculate_item_frequency df) x 0
  == Qnat (count_of x (map snd (rows df))) / len (rows df).
Proof.
  intros Hc. unfold _calculate_item_frequency. rewrite Hc. cbn [negb].
  unfold get_or.
  rewrite (get_map_values (fun v => v / len (rows df))).
  pose proof (value_counts_get (map snd (rows df)) x) as Hv.
  unfold get_or in Hv.
  destruct (get (value_counts (map snd (rows df))) x) as [v |]; simpl.
  - now rewrite Hv.
  - rewrite <- Hv. unfold Qdiv. ring.
Qed.

(** X1. On a table with the [item_name] column, the frequency of an item is
    the number of rows naming it divided by the number of rows (0 for an
    item the table never names). *)
Theorem frequency_is_share_of_rows (df : DataFrame) (x : string) :
  mem "item_name" (columns df) = true ->
  get_or (_calculate_item_frequency df) x 0
  == Qnat (count_of x (map snd (rows df))) / len (rows df).
Proof. exact (@item_frequency_value df x). Qed.

Lemma frequency_is_share_of_rows_witness :
  get_or (_calculate_item_frequency scenario_orders) "Fries" 0
  == Qnat (count_of "Fries" (map snd (rows scenario_orders)))
     / len (rows scenario_orders).
Proof.
  apply (@frequency_is_share_of_rows scenario_orders "Fries"). reflexivity.
Defined.

(** X2. On a table with the [item_name] column and at least one row, the
    frequencies add up to 1, every stored frequency lies in (0, 1], and the
    keys are the names of the table, each once. *)
Theorem frequencies_sum_to_one (df : DataFrame) :
  mem "item_name" (columns df) = true ->
  rows df <> [] ->
  total (_calculate_item_frequency df) == 1
  /\ NoDup (keys (_calculate_item_frequency df))
  /\ (forall x, In x (keys (_calculate_item_frequency df))
                <-> In x (map snd (rows df)))
  /\ (forall x v, get (_calculate_item_frequency df) x = Some v ->
                  0 < v /\ v <= 1).
Proof.
  intros Hc Hrows.
  assert (Hlen : 0 < len (rows df)) by now apply len_pos.
  assert (Hperm : Permutation (value_counts (map snd (rows df)))
                    (fold_left (fun d n => add_to d n 1) (map snd (rows df)) []))
    by apply sorted_desc_perm.
  assert (Hkeys : keys (_calculate_item_frequency df)
                  = keys (value_counts (map snd (rows df)))).
  { unfold _calculate_item_frequency. rewrite Hc. cbn [negb].
    unfold keys. rewrite map_map. reflexivity. }
  split; [| split; [| split]].
  - unfold _calculate_item_frequency. rewrite Hc. cbn [negb].
    rewrite total_scaled, (total_Permutation Hperm), total_counts.
    change (total []) with 0. rewrite length_map. fold (len (rows df)).
    field. lra.
  - rewrite Hkeys. unfold keys.
    apply (Permutation_NoDup (Permutation_map fst (Permutation_sym Hperm))).
    apply counts_NoDup. constructor.
  - intros x. rewrite Hkeys. unfold keys. split; intros H.
    + apply (Permutation_in _ (Permutation_map fst Hperm)) in H.
      apply (counts_keys (map snd (rows df)) [] x) in H.
      destruct H as [[] | H]. exact H.
    + apply (Permutation_in _ (Permutation_map fst (Permutation_sym Hperm))).
      apply (counts_keys (map snd (rows df)) [] x). now right.
  - intros x v Hget.
    pose proof (item_frequency_value df x Hc) as Hv.
    unfold get_or in Hv. rewrite Hget in Hv.
    assert (Hin : In x (map snd (rows df))).
    { assert (Hk : In x (keys (_calculate_item_frequency df))).
      { apply get_In in Hget. unfold keys. apply in_map_iff.
        exists (x, v). now split. }
      rewrite Hkeys in Hk. unfold keys in Hk.
      apply (Permutation_in _ (Permutation_map fst Hperm)) in Hk.
      apply (counts_keys (map snd (rows df)) [] x) in Hk.
      destruct Hk as [[] | Hk]. exact Hk. }
    assert (Hpos : (0 < count_of x (map snd (rows df)))%nat).
    { unfold count_of.
      destruct (filter (String.eqb x) (map snd (rows df))) eqn:E; [| simpl; lia].
      assert (Hf : In x (filter (String.eqb x) (map snd (rows df))))
        by (apply filter_In; split; [assumption | apply String.eqb_refl]).
      rewrite E in Hf. contradiction. }
    assert (Hle : (count_of x (map snd (rows df)) <= List.length (rows df))%nat).
    { unfold count_of. rewrite <- (length_map snd (rows df)).
      apply filter_length_le. }
    rewrite Hv. split.
    + apply Qlt_shift_div_l; [assumption |]. rewrite Qmult_0_l.
      now apply Qnat_pos.
    + apply Qle_shift_div_r; [assumption |]. rewrite Qmult_1_l.
      unfold len. now apply Qnat_le.
Qed.

Lemma frequencies_sum_to_one_witness :
  total (_calculate_item_frequency scenario_orders) == 1
  /\ NoDup (keys (_calculate_item_frequency scenario_orders))
  /\ (forall x, In x (keys (_calculate_item_frequency scenario_orders))
                <-> In x (map snd (rows scenario_orders)))
  /\ (forall x v, get (_calculate_item_frequency scenario_orders) x = Some v ->
                  0 < v /\ v <= 1).
Proof.
  apply (@frequencies_sum_to_one scenario_orders); [reflexivity | discriminate].
Defined.

(** *** Symmetry of the co-occurrence matrix *)

Lemma orders_with_both_sym (a b : string) (orders : list (Z * list string)) :
  orders_with_both a b orders = orders_with_both b a orders.
Proof.
  unfold orders_with_both. f_equal. apply filter_ext. intros o. apply andb_comm.
Qed.

(** X3. The method does not enforce it, but the matrix it builds is
    symmetric: the value for [(a, b)] equals the value for [(b, a)]. *)
Theorem cooccurrence_symmetric (df : DataFrame) (a b : string) :
  mem "order_id" (columns df) = true ->
  mem "item_name" (columns df) = true ->
  cooccurrence_of (_calculate_item_cooccurrence df) a b
  == cooccurrence_of (_calculate_item_cooccurrence df) b a.
Proof.
  intros Hc1 Hc2. destruct (String.eqb_spec a b) as [-> | Hab]; [reflexivity |].
  rewrite !cooccurrence_share by assumption.
  rewrite (occurrences_dataset _ Hab).
  rewrite (occurrences_dataset _ (not_eq_sym Hab)).
  now rewrite orders_with_both_sym.
Qed.

Lemma cooccurrence_symmetric_witness :
  cooccurrence_of (_calculate_item_cooccurrence scenario_orders) "Fries" "Soda"
  == cooccurrence_of (_calculate_item_cooccurrence scenario_orders) "Soda" "Fries".
Proof.
  apply (@cooccurrence_symmetric scenario_orders "Fries" "Soda"); reflexivity.
Defined.

(** *** Rule lists, whatever [self.item_cooccurrence] holds *)

Lemma append_rule_confident (rules : dict (list (string * Q)))
  (item_a item_b : string) (confidence : Q) :
  confident_rules rules -> 1 # 10 < confidence ->
  confident_rules (append_rule rules item_a item_b confidence).
Proof.
  intros Hinv Hc a l Hin. unfold append_rule in Hin.
  apply In_set in Hin. destruct Hin as [Hin | ->]; [exact (Hinv a l Hin) |].
  apply Forall_app. split; [| constructor; [exact Hc | constructor]].
  unfold get_or. destruct (get rules item_a) as [l0 |] eqn:E; [| constructor].
  apply get_In in E. exact (Hinv _ _ E).
Qed.

(** X4. For every engineer object, filled or not, and every table,
    [_create_market_basket_rules] ends normally, and each list of the rule
    set it returns has at most ten entries, in descending order of
    confidence, each confidence above 0.1. *)
Theorem market_basket_lists_well_formed (self : FeatureEngineer) (df : DataFrame) :
  exists rules,
    _create_market_basket_rules self df = Ok rules
    /\ forall a l, get rules a = Some l -> rule_list_ok l.
Proof.
  unfold _create_market_basket_rules.
  destruct (negb (mem "order_id" (columns df))
            || negb (mem "item_name" (columns df))).
  { exists []. split; [reflexivity | intros a l H; discriminate H]. }
  set (orders := group_orders df).
  match goal with
  | |- context [map_result _ ?c] => set (counts := c)
  end.
  assert (Hcounts : positive_values counts)
    by (apply positive_values_support; constructor).
  assert (Hsup : exists item_support,
             map_result (fun kv => let* p := truediv (snd kv) (len orders) in
                                   Ok (fst kv, p)) counts = Ok item_support
             /\ positive_values item_support).
  { destruct orders as [| o orders'] eqn:Eo.
    - exists []. split; [reflexivity | constructor].
    - assert (Ht : 0 < len (o :: orders')) by (apply len_pos; discriminate).
      exists (map (fun kv => (fst kv, snd kv / len (o :: orders'))) counts).
      split; [| now apply positive_values_scaled].
      apply map_result_ok. intros kv _. rewrite truediv_ok by lra. reflexivity. }
  destruct Hsup as [item_support [Hms Hpos]]. rewrite Hms, bind_Ok.
  match goal with
  | |- context [for_each ?body orders []] =>
      destruct (@for_each_invariant _ _ confident_rules body orders [])
        as [rules [Hrules Hinv]]
  end.
  - intros acc o _ Hacc. apply for_each_invariant; [| assumption].
    intros acc1 ix1 _ Hacc1. apply for_each_invariant; [| assumption].
    intros acc2 ix2 _ Hacc2.
    destruct (negb (fst ix1 =? fst ix2)%nat); [| eauto].
    assert (Hs : 0 < get_or item_support (snd ix1) (1 # 1000))
      by (apply positive_values_get_or_pos; [assumption | reflexivity]).
    rewrite truediv_ok by lra. rewrite bind_Ok.
    match goal with
    | |- context [Qlt_bool (1 # 10) ?c] => destruct (Qlt_bool (1 # 10) c) eqn:Ec
    end; [| eauto].
    eexists. split; [reflexivity |].
    apply append_rule_confident; [assumption |]. now apply Qlt_bool_iff.
  - intros a l H; contradiction.
  - rewrite Hrules, bind_Ok. eexists. split; [reflexivity |].
    intros a l Hget.
    rewrite (get_map_values (fun l0 => firstn 10 (sorted_desc snd l0))) in Hget.
    destruct (get rules a) as [l0 |] eqn:E; [| discriminate Hget].
    change (Some (firstn 10 (sorted_desc snd l0)) = Some l) in Hget.
    assert (Hl : firstn 10 (sorted_desc snd l0) = l) by congruence.
    rewrite <- Hl. clear Hl Hget. apply get_In in E.
    unfold rule_list_ok. split; [apply firstn_le_length | split].
    + apply StronglySorted_firstn. apply sorted_desc_sorted.
    + rewrite Forall_forall. intros r Hr.
      apply EnhancedFacts.firstn_subset in Hr.
      apply (Permutation_in _ (sorted_desc_perm snd l0)) in Hr.
      pose proof (Hinv _ _ E) as Hall. rewrite Forall_forall in Hall. auto.
Qed.

(** With the matrix filled in by hand the same table does get rules. *)
Example filled_engineer_rules :
  exists rules,
    _create_market_basket_rules (filled_engineer scenario_orders) scenario_orders
    = Ok rules
    /\ get rules "Ranch Dip" = Some [("Traditional Wings", 3 # 6)].
Proof. eexists. split; [vm_compute; reflexivity | reflexivity]. Qed.

(** *** Categories *)

Lemma categorize_fold (items : list string) (d : dict string) (x : string) :
  get (fold_left (fun categories item => set categories item (category_of item))
                 items d) x
  = if mem x items then Some (category_of x) else get d x.
Proof.
  revert d. induction items as [| y items IH]; intros d; [reflexivity |].
  simpl fold_left. rewrite IH. unfold mem. simpl existsb. fold (mem x items).
  destruct (mem x items); [now rewrite orb_true_r |].
  destruct (String.eqb_spec x y) as [-> | Hne]; simpl.
  - apply get_set_same.
  - now apply get_set_other.
Qed.

Lemma category_of_range (item : string) :
  In (category_of item) ["wings"; "drinks"; "sides"; "desserts"; "other"].
Proof.
  unfold category_of, category_keywords. cbn [first_category].
  repeat match goal with
         | |- context [if any_keyword ?k ?i then _ else _] =>
             destruct (any_keyword k i)
         end; simpl; auto 10.
Qed.

(** X5. On a table with the [item_name] column, [_categorize_items] gives
    every name of the table its category and nothing else; the category is
    one of wings, drinks, sides, desserts and other. *)
Theorem categories_cover_the_table (df : DataFrame) (x : string) :
  mem "item_name" (columns df) = true ->
  (In x (map snd (rows df)) ->
   get (_categorize_items df) x = Some (category_of x))
  /\ (~ In x (map snd (rows df)) -> get (_categorize_items df) x = None)
  /\ (forall c, get (_categorize_items df) x = Some c ->
                In c ["wings"; "drinks"; "sides"; "desserts"; "other"]).
Proof.
  intros Hc. unfold _categorize_items. rewrite Hc. cbn [negb].
  rewrite categorize_fold, mem_unique.
  split; [| split].
  - intros Hin. apply mem_In in Hin. now rewrite Hin.
  - intros Hnot. apply mem_false in Hnot. now rewrite Hnot.
  - intros c. destruct (mem x (map snd (rows df))); [| discriminate].
    intros [= <-]. apply category_of_range.
Qed.

Lemma categories_cover_the_table_witness :
  (In "Ranch Dip" (map snd (rows scenario_orders)) ->
   get (_categorize_items scenario_orders) "Ranch Dip"
   = Some (category_of "Ranch Dip"))
  /\ (~ In "Ranch Dip" (map snd (rows scenario_orders)) ->
      get (_categorize_items scenario_orders) "Ranch Dip" = None)
  /\ (forall c, get (_categorize_items scenario_orders) "Ranch Dip" = Some c ->
                In c ["wings"; "drinks"; "sides"; "desserts"; "other"]).
Proof.
  apply (@categories_cover_the_table scenario_orders "Ranch Dip"). reflexivity.
Defined.

(** X6. The first keyword group wins: a name that contains any of the wings
    keywords (wing, chicken, buffalo, bbq, hot, mild, spicy), in any letter
    case, is categorised as wings whatever else it contains. *)
Theorem wings_keywords_take_precedence (item keyword : string) :
  In keyword ["wing"; "chicken"; "buffalo"; "bbq"; "hot"; "mild"; "spicy"] ->
  contains keyword (lower item) = true ->
  category_of item = "wings".
Proof.
  intros Hin Hc. unfold category_of, category_keywords. cbn [first_category].
  assert (H : any_keyword ["wing"; "chicken"; "buffalo"; "bbq"; "hot"; "mild";
                           "spicy"] (lower item) = true).
  { unfold any_keyword. apply existsb_exists. exists keyword. now split. }
  now rewrite H.
Qed.

Lemma wings_keywords_take_precedence_witness :
  category_of "Hot Coffee" = "wings".
Proof.
  apply (@wings_keywords_take_precedence "Hot Coffee" "hot").
  - simpl. auto 10.
  - reflexivity.
Defined.

End FeatureExtras.

(* ------------------------------------------------------------------ *)
(** ** Baseline recommender: exclusions, ranking, training *)
Module BlenderExtras.
Import Py PyNotations PyFacts PyMoreFacts RecommendationEngine BlenderFacts.
Local Open Scope string_scope.
Local Open Scope Q_scope.

Lemma clear_of_add (exclude : list string) (d : dict Q) (k : string) (x : Q) :
  clear_of exclude d -> mem k exclude = false -> clear_of exclude (add_to d k x).
Proof.
  intros Hd Hk k' Hin. unfold add_to in Hin. apply keys_set in Hin.
  destruct Hin as [-> | Hin]; [now apply mem_false | auto].
Qed.

Lemma clear_of_related {A} (exclude : list string) (name : A -> string)
  (score : A -> Q) (related : list A) (d : dict Q) :
  clear_of exclude d ->
  clear_of exclude
    (fold_left (fun recs r => if negb (mem (name r) exclude)
                              then add_to recs (name r) (score r) else recs)
               related d).
Proof.
  revert d. induction related as [| r related IH]; intros d Hd; simpl; [assumption |].
  apply IH. destruct (mem (name r) exclude) eqn:E; simpl; [assumption |].
  now apply clear_of_add.
Qed.

Lemma clear_of_lookup {V} (exclude : list string) (table : dict (list V))
  (name : V -> string) (score : V -> Q) (order_items : list string) (d : dict Q) :
  clear_of exclude d ->
  clear_of exclude
    (fold_left (fun recommendations item =>
                  match get table item with
                  | Some related =>
                      fold_left (fun recs r =>
                                   if negb (mem (name r) exclude)
                                   then add_to recs (name r) (score r) else recs)
                                related recommendations
                  | None => recommendations
                  end)
               order_items d).
Proof.
  revert d. induction order_items as [| item items IH]; intros d Hd; simpl;
    [assumption |].
  apply IH. destruct (get table item); [| assumption].
  now apply clear_of_related.
Qed.

Lemma clear_of_category (exclude complementary : list string) (freq : dict Q)
  (categories : list (string * string)) (d : dict Q) :
  clear_of exclude d ->
  clear_of exclude
    (fold_left (fun recommendations ic =>
                  if negb (mem (fst ic) exclude) && mem (snd ic) complementary
                  then add_to recommendations (fst ic)
                              (get_or freq (fst ic) 0 * (5 # 10))
                  else recommendations)
               categories d).
Proof.
  revert d. induction categories as [| ic categories IH]; intros d Hd; simpl;
    [assumption |].
  apply IH. destruct (mem (fst ic) exclude) eqn:E; simpl; [assumption |].
  destruct (mem (snd ic) complementary); [| assumption].
  now apply clear_of_add.
Qed.

Lemma clear_of_nil (exclude : list string) : clear_of exclude [].
Proof. intros k []. Qed.

(** The four candidate lists avoid the excluded items. *)
Lemma generators_avoid_excluded (self : Engine) (f : Features)
  (order_items exclude : list string) :
  features self = Some f ->
  exists c m g p,
    _get_cooccurrence_recommendations self order_items exclude = Ok c
    /\ _get_market_basket_recommendations self order_items exclude = Ok m
    /\ _get_category_recommendations self order_items exclude = Ok g
    /\ _get_popularity_recommendations self exclude = Ok p
    /\ clear_of exclude c /\ clear_of exclude m /\ clear_of exclude g
    /\ clear_of exclude p.
Proof.
  intros Hf.
  unfold _get_cooccurrence_recommendations, _get_market_basket_recommendations,
    _get_category_recommendations, _get_popularity_recommendations, self_features.
  rewrite Hf. cbn [bind]. do 4 eexists.
  repeat (split; [reflexivity |]).
  split; [exact (@clear_of_lookup (string * Q) exclude (item_cooccurrence f)
                    fst snd order_items [] (clear_of_nil exclude)) |].
  split; [exact (@clear_of_lookup (string * Q) exclude (market_basket f)
                    fst snd order_items [] (clear_of_nil exclude)) |].
  split; [apply clear_of_category; apply clear_of_nil |].
  intros k Hin. unfold keys in Hin. apply in_map_iff in Hin.
  destruct Hin as [e [<- Hin]]. apply EnhancedFacts.firstn_subset in Hin.
  apply (Permutation_in _ (sorted_desc_perm snd _)) in Hin.
  apply filter_In in Hin. destruct Hin as [_ Hneg].
  apply negb_true_iff in Hneg. now apply mem_false.
Qed.

Lemma recommend_items_shape (self : Engine) (f : Features)
  (order_items : list string) (exclude_items : option (list string)) :
  features self = Some f ->
  exists recs,
    _recommend_items self order_items exclude_items = Ok recs
    /\ (List.length recs <= 3)%nat
    /\ NoDup recs
    /\ forall r, In r recs ->
                 ~ In r (match exclude_items with Some e => e | None => [] end).
Proof.
  intros Hf.
  set (exclude := match exclude_items with Some e => e | None => [] end).
  destruct (@generators_avoid_excluded self f order_items exclude Hf)
    as (c & m & g & p & Hc & Hm & Hg & Hp & Cc & Cm & Cg & Cp).
  unfold _recommend_items. fold exclude. rewrite Hc, Hm, Hg, Hp, !bind_Ok.
  eexists. split; [reflexivity |].
  assert (Hperm : Permutation (map fst (sorted_desc snd (blend c m g p)))
                              (keys (blend c m g p)))
    by (unfold keys; apply Permutation_map, sorted_desc_perm).
  split; [rewrite length_map; apply firstn_le_length | split].
  - rewrite <- firstn_map. apply NoDup_firstn.
    apply (Permutation_NoDup (Permutation_sym Hperm)). apply blend_NoDup.
  - intros r Hr. rewrite <- firstn_map in Hr.
    apply EnhancedFacts.firstn_subset in Hr.
    apply (Permutation_in _ Hperm) in Hr. apply blend_keys in Hr.
    destruct Hr as [Hr | [Hr | [Hr | Hr]]]; [apply Cc | apply Cm | apply Cg | apply Cp];
      exact Hr.
Qed.

(** X7. With features in place, [_recommend_items] returns at most three
    names, no name twice, and never a name from the exclusion list. *)
Theorem recommendations_distinct_and_not_excluded (self : Engine) (f : Features)
  (order_items : list string) (exclude_items : option (list string)) :
  features self = Some f ->
  exists recs,
    _recommend_items self order_items exclude_items = Ok recs
    /\ (List.length recs <= 3)%nat
    /\ NoDup recs
    /\ forall r, In r recs ->
                 ~ In r (match exclude_items with Some e => e | None => [] end).
Proof. apply recommend_items_shape. Qed.

Lemma recommendations_distinct_and_not_excluded_witness :
  exists recs,
    _recommend_items scenario_engine ["Traditional Wings"]
                     (Some ["Traditional Wings"]) = Ok recs
    /\ (List.length recs <= 3)%nat
    /\ NoDup recs
    /\ forall r, In r recs -> ~ In r ["Traditional Wings"].
Proof.
  apply (@recommendations_distinct_and_not_excluded scenario_engine
           scenario_features ["Traditional Wings"] (Some ["Traditional Wings"])).
  reflexivity.
Defined.

(** X8. The three returned names are the top of the ranking: a candidate
    that was scored but not returned has a combined score no higher than
    that of any returned name. *)
Theorem returned_names_dominate (self : Engine) (f : Features)
  (order_items : list string) (exclude_items : option (list string)) :
  features self = Some f ->
  let exclude := match exclude_items with Some e => e | None => [] end in
  exists c m g p recs,
    _get_cooccurrence_recommendations self order_items exclude = Ok c
    /\ _get_market_basket_recommendations self order_items exclude = Ok m
    /\ _get_category_recommendations self order_items exclude = Ok g
    /\ _get_popularity_recommendations self exclude = Ok p
    /\ _recommend_items self order_items exclude_items = Ok recs
    /\ forall r y,
         In r recs -> In y (keys (blend c m g p)) -> ~ In y recs ->
         get_or (blend c m g p) y 0 <= get_or (blend c m g p) r 0.
Proof.
  intros Hf exclude.
  destruct (@generators_avoid_excluded self f order_items exclude Hf)
    as (c & m & g & p & Hc & Hm & Hg & Hp & _).
  exists c, m, g, p. unfold _recommend_items. fold exclude.
  rewrite Hc, Hm, Hg, Hp, !bind_Ok. eexists.
  repeat (split; [reflexivity |]).
  intros r y Hr Hy Hnot.
  set (scores := blend c m g p) in *.
  set (ranked := sorted_desc snd scores) in *.
  assert (Hnd : NoDup (keys scores)) by apply blend_NoDup.
  assert (Hperm : Permutation ranked scores) by apply sorted_desc_perm.
  apply in_map_iff in Hr. destruct Hr as [[r' sr] [Heq Hr]]. simpl in Heq. subst r'.
  unfold keys in Hy. apply in_map_iff in Hy.
  destruct Hy as [[y' sy] [Heq Hy]]. simpl in Heq. subst y'.
  assert (Hsr : get_or scores r 0 = sr).
  { unfold get_or. rewrite (@get_In_NoDup _ scores r sr Hnd); [reflexivity |].
    apply (Permutation_in _ Hperm). now apply EnhancedFacts.firstn_subset in Hr. }
  assert (Hsy : get_or scores y 0 = sy).
  { unfold get_or. now rewrite (@get_In_NoDup _ scores y sy Hnd). }
  rewrite Hsr, Hsy.
  apply (Permutation_in _ (Permutation_sym Hperm)) in Hy.
  rewrite <- (firstn_skipn 3 ranked) in Hy. apply in_app_or in Hy.
  destruct Hy as [Hy | Hy].
  - exfalso. apply Hnot. apply in_map_iff. exists (y, sy). now split.
  - exact (@sorted_desc_top _ snd 3 scores (r, sr) (y, sy) Hr Hy).
Qed.

Lemma returned_names_dominate_witness :
  exists c m g p recs,
    _get_cooccurrence_recommendations scenario_engine ["Fries"] ["Fries"] = Ok c
    /\ _get_market_basket_recommendations scenario_engine ["Fries"] ["Fries"]
       = Ok m
    /\ _get_category_recommendations scenario_engine ["Fries"] ["Fries"] = Ok g
    /\ _get_popularity_recommendations scenario_engine ["Fries"] = Ok p
    /\ _recommend_items scenario_engine ["Fries"] (Some ["Fries"]) = Ok recs
    /\ forall r y,
         In r recs -> In y (keys (blend c m g p)) -> ~ In y recs ->
         get_or (blend c m g p) y 0 <= get_or (blend c m g p) r 0.
Proof.
  apply (@returned_names_dominate scenario_engine scenario_features ["Fries"]
           (Some ["Fries"])).
  reflexivity.
Defined.

(** *** [predict] never recommends what the row already holds *)

Lemma predict_row_avoids_cart (self : Engine) (f : Features) (idx : nat)
  (row : Row) :
  features self = Some f ->
  exists out,
    predict_row self idx row = Ok out
    /\ forall r,
         In r [RECOMMENDATION_1 out; RECOMMENDATION_2 out; RECOMMENDATION_3 out] ->
         r = popular_item_fallback \/ ~ In r (_extract_order_items row).
Proof.
  intros Hf.
  destruct (@predict_row_slots self f idx row Hf) as [out [Hout Hslots]].
  exists out. split; [assumption |].
  destruct Hslots as [recs [Hrecs [_ Hfields]]].
  destruct (@recommend_items_shape self f
              (_extract_order_items row) (Some (_extract_order_items row)) Hf)
    as [recs' [Hrecs' [_ [_ Havoid]]]].
  rewrite Hrecs in Hrecs'. inversion Hrecs'; subst recs'.
  intros r Hr. rewrite Hfields in Hr. apply in_app_or in Hr.
  destruct Hr as [Hr | Hr]; [right; now apply Havoid |].
  left. now apply repeat_spec in Hr.
Qed.

(** X9. On a trained engine, no recommendation field of an output row
    repeats an item of that row: each field holds the fallback literal or a
    name that is not among the row's items. *)
Theorem predict_avoids_row_items (self : Engine) (f : Features)
  (test_data : list Row) :
  trained self = true ->
  features self = Some f ->
  exists outs,
    predict self test_data = Ok outs
    /\ Forall2 (fun row out =>
                  forall r,
                    In r [RECOMMENDATION_1 out; RECOMMENDATION_2 out;
                          RECOMMENDATION_3 out] ->
                    r = popular_item_fallback
                    \/ ~ In r (_extract_order_items row))
               test_data outs.
Proof.
  intros Ht Hf. unfold predict. rewrite Ht. cbn [negb].
  pose (P := fun (row : Row) (out : Output) =>
               forall r,
                 In r [RECOMMENDATION_1 out; RECOMMENDATION_2 out;
                       RECOMMENDATION_3 out] ->
                 r = popular_item_fallback
                 \/ ~ In r (_extract_order_items row)).
  destruct (map_result_Forall2
              (fun ir => predict_row self (fst ir) (snd ir))
              (fun ir out => P (snd ir) out)
              (enumerate test_data)) as [outs [Hok HF]].
  - intros ir _. apply (@predict_row_avoids_cart self f (fst ir) (snd ir) Hf).
  - exists outs. split; [assumption |].
    exact (@Forall2_enumerate_from _ _ P 0 test_data outs HF).
Qed.

Lemma predict_avoids_row_items_witness :
  exists outs,
    predict scenario_engine [wings_row] = Ok outs
    /\ Forall2 (fun row out =>
                  forall r,
                    In r [RECOMMENDATION_1 out; RECOMMENDATION_2 out;
                          RECOMMENDATION_3 out] ->
                    r = popular_item_fallback
                    \/ ~ In r (_extract_order_items row))
               [wings_row] outs.
Proof.
  apply (@predict_avoids_row_items scenario_engine scenario_features [wings_row]);
    reflexivity.
Defined.

(** *** Popularity *)

(** X10. The popularity generator returns at most ten entries of the
    frequency table, none excluded, most frequent first; an entry that is
    not excluded and was left out is no more frequent than any entry
    returned. *)
Theorem popularity_is_top_ten (self : Engine) (f : Features)
  (exclude : list string) :
  features self = Some f ->
  exists p,
    _get_popularity_recommendations self exclude = Ok p
    /\ (List.length p <= 10)%nat
    /\ StronglySorted (desc snd) p
    /\ (forall e, In e p -> In e (item_frequency f) /\ ~ In (fst e) exclude)
    /\ (forall e e', In e p -> In e' (item_frequency f) ->
                     ~ In (fst e') exclude -> ~ In e' p -> snd e' <= snd e).
Proof.
  intros Hf. unfold _get_popularity_recommendations, self_features.
  rewrite Hf, bind_Ok.
  set (candidates := filter (fun ifr => negb (mem (fst ifr) exclude))
                            (item_frequency f)).
  eexists. split; [reflexivity |].
  split; [apply firstn_le_length | split; [| split]].
  - apply StronglySorted_firstn. apply sorted_desc_sorted.
  - intros e He. apply EnhancedFacts.firstn_subset in He.
    apply (Permutation_in _ (sorted_desc_perm snd candidates)) in He.
    apply filter_In in He. destruct He as [Hin Hneg]. split; [assumption |].
    apply negb_true_iff in Hneg. now apply mem_false.
  - intros e e' He Hin Hnex Hnot.
    assert (Hc : In e' (sorted_desc snd candidates)).
    { apply (Permutation_in _ (Permutation_sym (sorted_desc_perm snd candidates))).
      apply filter_In. split; [assumption |].
      apply negb_true_iff. now apply mem_false. }
    rewrite <- (firstn_skipn 10 (sorted_desc snd candidates)) in Hc.
    apply in_app_or in Hc. destruct Hc as [Hc | Hc]; [contradiction |].
    exact (@sorted_desc_top _ snd 10 candidates e e' He Hc).
Qed.

Lemma popularity_is_top_ten_witness :
  exists p,
    _get_popularity_recommendations scenario_engine ["Fries"] = Ok p
    /\ (List.length p <= 10)%nat
    /\ StronglySorted (desc snd) p
    /\ (forall e, In e p ->
                  In e (item_frequency scenario_features) /\ ~ In (fst e) ["Fries"])
    /\ (forall e e', In e p -> In e' (item_frequency scenario_features) ->
                     ~ In (fst e') ["Fries"] -> ~ In e' p -> snd e' <= snd e).
Proof.
  apply (@popularity_is_top_ten scenario_engine scenario_features ["Fries"]).
  reflexivity.
Defined.

(** *** Complementary categories *)

Lemma complementary_rule_range (category : string) (cs : list string) :
  get complementary_rules category = Some cs ->
  Forall (fun c => In c ["wings"; "drinks"; "sides"; "desserts"]) cs.
Proof.
  unfold complementary_rules. simpl get.
  repeat match goal with
         | |- context [String.eqb category ?k] => destruct (String.eqb category k)
         end;
    intros H; inversion H; subst; rewrite Forall_forall; simpl;
    intros c Hc; intuition (subst; auto 10).
Qed.

(** X11. [_get_complementary_categories] never returns the empty set:
    an order that touches no category with a rule gets wings, drinks and
    sides; and every category it returns is one of wings, drinks, sides and
    desserts. *)
Theorem complementary_categories_never_empty (order_categories : list string) :
  _get_complementary_categories order_categories <> []
  /\ Forall (fun c => In c ["wings"; "drinks"; "sides"; "desserts"])
            (_get_complementary_categories order_categories)
  /\ ((forall c, In c order_categories -> get complementary_rules c = None) ->
      _get_complementary_categories order_categories
      = ["wings"; "drinks"; "sides"]).
Proof.
  unfold _get_complementary_categories.
  set (step := fun (acc : list string) (category : string) =>
                 match get complementary_rules category with
                 | Some cs => (acc ++ cs)%list
                 | None => acc
                 end).
  assert (Hrange : forall cats acc,
             Forall (fun c => In c ["wings"; "drinks"; "sides"; "desserts"]) acc ->
             Forall (fun c => In c ["wings"; "drinks"; "sides"; "desserts"])
                    (fold_left step cats acc)).
  { induction cats as [| c cats IH]; intros acc Hacc; simpl; [assumption |].
    apply IH. unfold step. destruct (get complementary_rules c) eqn:E;
      [| assumption].
    apply Forall_app. split; [assumption | now apply complementary_rule_range in E]. }
  assert (Hnone : forall cats acc,
             (forall c, In c cats -> get complementary_rules c = None) ->
             fold_left step cats acc = acc).
  { induction cats as [| c cats IH]; intros acc Hc; simpl; [reflexivity |].
    unfold step at 2. rewrite (Hc c (or_introl eq_refl)).
    apply IH. intros; apply Hc; now right. }
  split; [| split].
  - destruct (fold_left step order_categories []); discriminate.
  - specialize (Hrange order_categories [] (Forall_nil _)).
    destruct (fold_left step order_categories []); [| assumption].
    rewrite Forall_forall. simpl. intros c Hc. intuition (subst; auto 10).
  - intros Hc. now rewrite Hnone.
Qed.

Lemma complementary_categories_never_empty_witness :
  _get_complementary_categories ["entrees"] <> []
  /\ Forall (fun c => In c ["wings"; "drinks"; "sides"; "desserts"])
            (_get_complementary_categories ["entrees"])
  /\ ((forall c, In c ["entrees"] -> get complementary_rules c = None) ->
      _get_complementary_categories ["entrees"] = ["wings"; "drinks"; "sides"]).
Proof. exact (complementary_categories_never_empty ["entrees"]). Defined.

(** *** Items of a test row *)

Lemma extract_as_cells (row : Row) :
  _extract_order_items row
  = (usable_cell (item1 row) ++ usable_cell (item2 row)
     ++ usable_cell (item3 row))%list.
Proof.
  unfold _extract_order_items, usable_cell. simpl fold_left.
  destruct (item1 row) as [[| s1] |], (item2 row) as [[| s2] |],
    (item3 row) as [[| s3] |]; simpl;
    repeat match goal with
           | |- context [if ?b then _ else _] => destruct b
           end; reflexivity.
Qed.

Lemma usable_cell_spec (col : option Cell) (i : string) :
  In i (usable_cell col) ->
  i <> EmptyString
  /\ exists s, col = Some (Str s) /\ i = strip s /\ s <> "nan".
Proof.
  unfold usable_cell. destruct col as [[| s] |]; try contradiction.
  destruct (String.eqb_spec (strip s) EmptyString) as [He | He];
    [contradiction |].
  destruct (String.eqb_spec s "nan") as [Hn | Hn]; [contradiction |].
  simpl. intros [<- | []]. split; [assumption |]. exists s. auto.
Qed.

Lemma usable_cell_length (col : option Cell) :
  (List.length (usable_cell col) <= 1)%nat.
Proof.
  unfold usable_cell. destruct col as [[| s] |]; simpl; try lia.
  destruct (negb _ && negb _); simpl; lia.
Qed.

(** X12. [_extract_order_items] yields at most three items, in column
    order; each is the stripped text of one of the cells [item1], [item2],
    [item3], is not empty, and comes from a cell other than the text "nan";
    absent columns, missing values and blank cells yield nothing. *)
Theorem extracted_items_are_usable_cells (row : Row) :
  (List.length (_extract_order_items row) <= 3)%nat
  /\ (forall i, In i (_extract_order_items row) ->
                i <> EmptyString
                /\ exists s, In (Some (Str s)) [item1 row; item2 row; item3 row]
                             /\ i = strip s /\ s <> "nan")
  /\ (forall s, strip s = EmptyString ->
                item1 row = Some (Str s) -> item2 row = None ->
                item3 row = Some NaN -> _extract_order_items row = []).
Proof.
  rewrite extract_as_cells. split; [| split].
  - rewrite !length_app.
    pose proof (usable_cell_length (item1 row)).
    pose proof (usable_cell_length (item2 row)).
    pose proof (usable_cell_length (item3 row)). lia.
  - intros i Hi. apply in_app_or in Hi. destruct Hi as [Hi | Hi];
      [| apply in_app_or in Hi; destruct Hi as [Hi | Hi]];
      apply usable_cell_spec in Hi; destruct Hi as [Hne [s [Hc [Hs Hn]]]];
      (split; [assumption |]); exists s; rewrite <- Hc; simpl; auto.
  - intros s Hs H1 H2 H3. rewrite H1, H2, H3. unfold usable_cell.
    rewrite Hs. reflexivity.
Qed.

Lemma extracted_items_are_usable_cells_witness :
  (List.length (_extract_order_items wings_row) <= 3)%nat
  /\ (forall i, In i (_extract_order_items wings_row) ->
                i <> EmptyString
                /\ exists s, In (Some (Str s))
                                [item1 wings_row; item2 wings_row; item3 wings_row]
                             /\ i = strip s /\ s <> "nan")
  /\ (forall s, strip s = EmptyString ->
                item1 wings_row = Some (Str s) -> item2 wings_row = None ->
                item3 wings_row = Some NaN -> _extract_order_items wings_row = []).
Proof. exact (extracted_items_are_usable_cells wings_row). Defined.

(** *** Training *)

Lemma max_fold_bounds (rest : list (string * Q)) (m0 : Q) :
  m0 <= fold_left max_step rest m0
  /\ Forall (fun kv => snd kv <= fold_left max_step rest m0) rest.
Proof.
  revert m0. induction rest as [| kv rest IH]; intros m0; simpl.
  - split; [apply Qle_refl | constructor].
  - destruct (IH (max_step m0 kv)) as [Hge Hall].
    assert (Hstep : m0 <= max_step m0 kv /\ snd kv <= max_step m0 kv).
    { unfold max_step. destruct (Qlt_bool m0 (snd kv)) eqn:E.
      - apply Qlt_bool_iff in E. split; [now apply Qlt_le_weak | apply Qle_refl].
      - apply Qlt_bool_false in E. split; [apply Qle_refl | assumption]. }
    destruct Hstep as [H1 H2]. split.
    + now apply Qle_trans with (max_step m0 kv).
    + constructor; [now apply Qle_trans with (max_step m0 kv) | assumption].
Qed.

Lemma max_fold_zero (rest : list (string * Q)) (m0 : Q) :
  m0 == 0 -> Forall (fun kv => snd kv == 0) rest ->
  fold_left max_step rest m0 == 0.
Proof.
  revert m0. induction rest as [| kv rest IH]; intros m0 H0 Hall; simpl;
    [assumption |].
  inversion Hall; subst. apply IH; [| assumption].
  unfold max_step. now destruct (Qlt_bool m0 (snd kv)).
Qed.

Lemma popularity_scores_unfold (self : Engine) (f : Features) :
  features self = Some f ->
  _calculate_popularity_scores self
  = map_result (fun kv => bind (truediv (snd kv)
                                  match item_frequency f with
                                  | [] => 1
                                  | kv0 :: rest => fold_left max_step rest (snd kv0)
                                  end)
                               (fun p => Ok (fst kv, p)))
               (item_frequency f).
Proof.
  intros Hf. unfold _calculate_popularity_scores, self_features.
  rewrite Hf, bind_Ok. reflexivity.
Qed.

Lemma train_predict_positive (self : Engine) (f : Features) (test_data : list Row) :
  FeatureEngineering.positive_values (item_frequency f) ->
  exists scores outs,
    train self f
    = ({| features := Some f; trained := true;
          item_similarity := item_similarity self;
          popularity_scores := scores |}, Ok tt)
    /\ (forall k v, get scores k = Some v -> 0 < v /\ v <= 1)
    /\ predict (fst (train self f)) test_data = Ok outs
    /\ List.length outs = List.length test_data.
Proof.
  intros Hpos. unfold FeatureEngineering.positive_values in Hpos.
  rewrite Forall_forall in Hpos.
  set (M := match item_frequency f with
            | [] => 1
            | kv0 :: rest => fold_left max_step rest (snd kv0)
            end).
  assert (HM : 0 < M /\ forall kv, In kv (item_frequency f) -> snd kv <= M).
  { unfold M. destruct (item_frequency f) as [| kv0 rest].
    - split; [reflexivity | intros kv []].
    - destruct (max_fold_bounds rest (snd kv0)) as [Hge Hall].
      rewrite Forall_forall in Hall. split.
      + apply Qlt_le_trans with (snd kv0); [| assumption].
        apply Hpos. now left.
      + intros kv [<- | Hin]; auto. }
  destruct HM as [HM0 HMall].
  assert (Hscores : _calculate_popularity_scores
                      {| features := Some f; trained := trained self;
                         item_similarity := item_similarity self;
                         popularity_scores := popularity_scores self |}
                    = Ok (map (fun kv => (fst kv, snd kv / M)) (item_frequency f))).
  { erewrite popularity_scores_unfold; [| reflexivity]. cbn [item_frequency]. fold M.
    apply map_result_ok. intros kv _. rewrite truediv_ok by lra. reflexivity. }
  assert (Htrain : train self f
                   = ({| features := Some f; trained := true;
                         item_similarity := item_similarity self;
                         popularity_scores :=
                           map (fun kv => (fst kv, snd kv / M)) (item_frequency f) |},
                      Ok tt)).
  { unfold train. rewrite Hscores. reflexivity. }
  destruct (map_result_Forall2
              (fun ir => predict_row
                           {| features := Some f; trained := true;
                              item_similarity := item_similarity self;
                              popularity_scores :=
                                map (fun kv => (fst kv, snd kv / M))
                                    (item_frequency f) |}
                           (fst ir) (snd ir))
              (fun _ _ => True) (enumerate test_data)) as [outs [Hok _]].
  { intros ir _.
    destruct (@predict_row_slots
                {| features := Some f; trained := true;
                   item_similarity := item_similarity self;
                   popularity_scores :=
                     map (fun kv => (fst kv, snd kv / M)) (item_frequency f) |}
                f (fst ir) (snd ir) eq_refl) as [out [Hout _]].
    exists out. split; [assumption | exact I]. }
  exists (map (fun kv => (fst kv, snd kv / M)) (item_frequency f)), outs.
  split; [exact Htrain | split; [| split]].
  - intros k v Hget. apply get_In in Hget. apply in_map_iff in Hget.
    destruct Hget as [kv [Heq Hin]]. inversion Heq; subst. split.
    + apply Qlt_shift_div_l; [assumption |]. rewrite Qmult_0_l. now apply Hpos.
    + apply Qle_shift_div_r; [assumption |]. rewrite Qmult_1_l. now apply HMall.
  - rewrite Htrain. exact Hok.
  - apply map_result_length in Hok. rewrite Hok. unfold enumerate.
    apply enumerate_from_length.
Qed.

(** X13. When every frequency of the features is positive (or there is
    none), [train] ends normally, stores the features and sets the trained
    flag; every popularity score lies in (0, 1]; and [predict] on the
    trained engine returns one output row per test row. *)
Theorem train_then_predict (self : Engine) (f : Features) (test_data : list Row) :
  FeatureEngineering.positive_values (item_frequency f) ->
  exists scores outs,
    train self f
    = ({| features := Some f; trained := true;
          item_similarity := item_similarity self;
          popularity_scores := scores |}, Ok tt)
    /\ (forall k v, get scores k = Some v -> 0 < v /\ v <= 1)
    /\ predict (fst (train self f)) test_data = Ok outs
    /\ List.length outs = List.length test_data.
Proof. apply train_predict_positive. Qed.

Lemma train_then_predict_witness :
  exists scores outs,
    train __init__ scenario_features
    = ({| features := Some scenario_features; trained := true;
          item_similarity := item_similarity __init__;
          popularity_scores := scores |}, Ok tt)
    /\ (forall k v, get scores k = Some v -> 0 < v /\ v <= 1)
    /\ predict (fst (train __init__ scenario_features)) [wings_row] = Ok outs
    /\ List.length outs = List.length [wings_row].
Proof.
  apply (@train_then_predict __init__ scenario_features [wings_row]).
  vm_compute. repeat constructor.
Defined.

(** X14. When the frequency table is not empty and all its frequencies are
    the number 0, [train] raises [ZeroDivisionError] after storing the features and
    before setting the trained flag; on an engine that was not trained
    before, [predict] then still refuses with [ValueError]. *)
Theorem train_on_zero_frequencies (self : Engine) (f : Features)
  (test_data : list Row) :
  item_frequency f <> [] ->
  Forall (fun kv => snd kv == 0) (item_frequency f) ->
  train self f
  = ({| features := Some f; trained := trained self;
        item_similarity := item_similarity self;
        popularity_scores := popularity_scores self |}, Raise ZeroDivisionError)
  /\ (trained self = false ->
      predict (fst (train self f)) test_data
      = Raise (ValueError "Model must be trained before making predictions")).
Proof.
  intros Hne Hzero.
  assert (Hscores : _calculate_popularity_scores
                      {| features := Some f; trained := trained self;
                         item_similarity := item_similarity self;
                         popularity_scores := popularity_scores self |}
                    = Raise ZeroDivisionError).
  { erewrite popularity_scores_unfold; [| reflexivity].
    destruct (item_frequency f) as [| kv0 rest]; [congruence |].
    inversion Hzero; subst.
    assert (HM : fold_left max_step rest (snd kv0) == 0)
      by now apply max_fold_zero.
    simpl map_result. unfold truediv.
    apply Qeq_bool_iff in HM. rewrite HM. reflexivity. }
  assert (Htrain : train self f
                   = ({| features := Some f; trained := trained self;
                         item_similarity := item_similarity self;
                         popularity_scores := popularity_scores self |},
                      Raise ZeroDivisionError)).
  { unfold train. rewrite Hscores. reflexivity. }
  split; [exact Htrain |].
  intros Hu. rewrite Htrain. unfold predict. simpl. rewrite Hu. reflexivity.
Qed.

Lemma train_on_zero_frequencies_witness :
  train __init__ zero_features
  = ({| features := Some zero_features; trained := trained __init__;
        item_similarity := item_similarity __init__;
        popularity_scores := popularity_scores __init__ |},
     Raise ZeroDivisionError)
  /\ (trained __init__ = false ->
      predict (fst (train __init__ zero_features)) [wings_row]
      = Raise (ValueError "Model must be trained before making predictions")).
Proof.
  apply (@train_on_zero_frequencies __init__ zero_features [wings_row]).
  - discriminate.
  - repeat constructor.
Defined.

End BlenderExtras.

(* ------------------------------------------------------------------ *)
(** ** Enhanced engine: history, success measures, A/B allocation *)
Module EnhancedExtras.
Import Py PyNotations PyFacts PyMoreFacts Enhanced EnhancedFacts.
Local Open Scope string_scope.
Local Open Scope Q_scope.

(** *** [measure_success] *)

Lemma hits_bound (rec_items actual_orders : list string) :
  (hits rec_items actual_orders <= List.length rec_items)%nat
  /\ (hits rec_items actual_orders <= List.length actual_orders)%nat.
Proof.
  unfold hits. split.
  - apply Nat.le_trans with (List.length (unique rec_items));
      [apply filter_length_le |].
    apply NoDup_incl_length; [apply unique_NoDup |].
    intros x Hx. now apply unique_In.
  - apply NoDup_incl_length; [apply NoDup_filter, unique_NoDup |].
    intros x Hx. apply filter_In in Hx. destruct Hx as [_ Hm]. now apply mem_In.
Qed.

Lemma typed_counts_bound (recommendations : list Recommendation) :
  (List.length (filter (is_type trending) recommendations)
   + List.length (filter (is_type seasonal) recommendations)
   <= List.length recommendations)%nat.
Proof.
  induction recommendations as [| r rs IH]; [simpl; lia |].
  cbn [filter].
  destruct (is_type trending r) eqn:E1, (is_type seasonal r) eqn:E2;
    cbn [List.length]; try lia.
  unfold is_type in E1, E2. destruct (recommendation_type r); discriminate.
Qed.

Lemma unique_length_le (xs : list string) :
  (List.length (unique xs) <= List.length xs)%nat.
Proof.
  apply NoDup_incl_length; [apply unique_NoDup |].
  intros x Hx. now apply unique_In.
Qed.

Lemma ratio_bounds (n m : nat) :
  (n <= m)%nat -> (0 < m)%nat -> 0 <= Qnat n / Qnat m /\ Qnat n / Qnat m <= 1.
Proof.
  intros Hle Hm.
  assert (HQ : 0 < Qnat m).
  { unfold Qnat. change 0 with (inject_Z 0). rewrite <- Zlt_Qlt. lia. }
  assert (Hn : 0 <= Qnat n).
  { unfold Qnat. change 0 with (inject_Z 0). rewrite <- Zle_Qle. lia. }
  assert (Hnm : Qnat n <= Qnat m).
  { unfold Qnat. rewrite <- Zle_Qle. lia. }
  split.
  - apply Qle_shift_div_l; [assumption |]. now rewrite Qmult_0_l.
  - apply Qle_shift_div_r; [assumption |]. now rewrite Qmult_1_l.
Qed.

Lemma Qnat_add (n m : nat) : Qnat n + Qnat m == Qnat (n + m).
Proof. unfold Qnat. now rewrite Nat2Z.inj_add, inject_Z_plus. Qed.

(** X16. [measure_success] never raises, whatever the lists and the
    feedback; the diversity score and the freshness score lie in [0, 1];
    and for a list of at most three recommendations the recall lies in
    [0, 1] as well. *)
Theorem measure_success_scores_bounded (recommendations : list Recommendation)
  (actual_orders : list string) (customer_feedback : option Feedback) :
  exists metrics,
    measure_success recommendations actual_orders customer_feedback = Ok metrics
    /\ 0 <= get_or metrics "diversity_score" 0 <= 1
    /\ 0 <= get_or metrics "freshness_score" 0 <= 1
    /\ ((List.length recommendations <= 3)%nat ->
        0 <= get_or metrics "recall_at_3" 0 <= 1).
Proof.
  unfold measure_success. cbv zeta.
  assert (Hrecall : exists v,
    match actual_orders with
    | [] => Ok 0
    | _ :: _ => truediv (Qnat (hits (map item_name recommendations) actual_orders))
                        (if Qle_bool 3 (len actual_orders) then 3
                         else len actual_orders)
    end = Ok v
    /\ ((List.length recommendations <= 3)%nat -> 0 <= v <= 1)).
  { destruct actual_orders as [| a actual].
    - exists 0. split; [reflexivity | intros _; split; discriminate].
    - destruct (hits_bound (map item_name recommendations) (a :: actual))
        as [H1 H2].
      rewrite length_map in H1.
      destruct (Qle_bool 3 (len (a :: actual))) eqn:E.
      + eexists. split; [reflexivity |]. intros H3.
        change 3 with (Qnat 3). apply ratio_bounds; lia.
      + assert (Hp : 0 < len (a :: actual)) by (apply len_pos; discriminate).
        rewrite truediv_ok by lra. eexists. split; [reflexivity |].
        intros _. unfold len. apply ratio_bounds; [assumption | simpl; lia]. }
  destruct Hrecall as [recall [Er Hr]]. rewrite Er, bind_Ok.
  assert (Hdiv : exists v,
    match map (fun r => category (metadata r)) recommendations with
    | [] => Ok 0
    | _ :: _ =>
        truediv (len (unique (map (fun r => category (metadata r))
                                  recommendations)))
                (len (map (fun r => category (metadata r)) recommendations))
    end = Ok v /\ 0 <= v <= 1).
  { destruct (map (fun r => category (metadata r)) recommendations)
      as [| c cs] eqn:Ec.
    - exists 0. split; [reflexivity | split; discriminate].
    - assert (Hp : 0 < len (c :: cs)) by (apply len_pos; discriminate).
      rewrite truediv_ok by lra. eexists. split; [reflexivity |].
      unfold len. apply ratio_bounds; [apply unique_length_le | simpl; lia]. }
  destruct Hdiv as [diversity [Ed Hd]]. rewrite Ed, bind_Ok.
  assert (Hfresh : exists v,
    match recommendations with
    | [] => Ok 0
    | _ :: _ =>
        truediv (len (filter (is_type trending) recommendations)
                 + len (filter (is_type seasonal) recommendations))
                (len recommendations)
    end = Ok v /\ 0 <= v <= 1).
  { destruct recommendations as [| r rs] eqn:Erecs.
    - exists 0. split; [reflexivity | split; discriminate].
    - assert (Hp : 0 < len (r :: rs)) by (apply len_pos; discriminate).
      rewrite truediv_ok by lra. eexists. split; [reflexivity |].
      unfold len. rewrite Qnat_add.
      apply ratio_bounds; [apply typed_counts_bound | simpl; lia]. }
  destruct Hfresh as [freshness [Ef Hf]]. rewrite Ef, bind_Ok.
  assert (Havg : exists v,
    match map confidence_score recommendations with
    | [] => Ok 0
    | _ :: _ => truediv (fold_left Qplus (map confidence_score recommendations) 0)
                        (len (map confidence_score recommendations))
    end = Ok v).
  { destruct (map confidence_score recommendations) as [| c cs] eqn:Ec.
    - exists 0. reflexivity.
    - assert (Hp : 0 < len (c :: cs)) by (apply len_pos; discriminate).
      rewrite truediv_ok by lra. eexists. reflexivity. }
  destruct Havg as [avg Ea]. rewrite Ea, bind_Ok.
  assert (Hfive : forall x, truediv x 5 = Ok (x / 5))
    by (intros; apply truediv_ok; discriminate).
  destruct (feedback_truthy customer_feedback);
    [destruct customer_feedback as [fb |];
     [rewrite Hfive, bind_Ok |] |];
    (eexists; split; [reflexivity |]);
    repeat first [ rewrite get_or_set_same
                 | rewrite get_or_set_other by (intro; discriminate) ];
    auto.
Qed.

Lemma measure_success_scores_bounded_witness :
  exists metrics,
    measure_success sample_recommendations ["Honey BBQ Wings"] None = Ok metrics
    /\ 0 <= get_or metrics "diversity_score" 0 <= 1
    /\ 0 <= get_or metrics "freshness_score" 0 <= 1
    /\ ((List.length sample_recommendations <= 3)%nat ->
        0 <= get_or metrics "recall_at_3" 0 <= 1).
Proof.
  exact (measure_success_scores_bounded sample_recommendations ["Honey BBQ Wings"] None).
Defined.

(** *** A/B testing *)

Lemma for_each_as_fold {A S} (body : S -> A -> result S) (g : S -> A -> S)
  (xs : list A) (acc : S) :
  (forall acc x, In x xs -> body acc x = Ok (g acc x)) ->
  for_each body xs acc = Ok (fold_left g xs acc).
Proof.
  revert acc. induction xs as [| x xs IH]; simpl; intros acc H; [reflexivity |].
  rewrite (H acc x (or_introl eq_refl)), bind_Ok. apply IH.
  intros; apply H; now right.
Qed.

Lemma constant_fold_get (c : Q) (vs : list string) (d : dict Q) (x : string) :
  get (fold_left (fun d v => set d v c) vs d) x
  = if mem x vs then Some c else get d x.
Proof.
  revert d. induction vs as [| v vs IH]; intros d; [reflexivity |].
  simpl fold_left. rewrite IH. unfold mem. simpl existsb. fold (mem x vs).
  destruct (mem x vs); [now rewrite orb_true_r |].
  destruct (String.eqb_spec x v) as [-> | Hne]; simpl.
  - apply get_set_same.
  - now apply get_set_other.
Qed.

Lemma total_set_new (d : dict Q) (k : string) (v : Q) :
  ~ In k (keys d) -> FeatureEngineering.total (set d k v)
                     == FeatureEngineering.total d + v.
Proof.
  unfold FeatureEngineering.total, keys.
  induction d as [| [k0 v0] d IH]; simpl; intros Hnot.
  - ring.
  - destruct (String.eqb_spec k k0) as [-> | Hne]; [exfalso; auto |].
    simpl. rewrite IH by auto. ring.
Qed.

Lemma constant_fold_keys (c : Q) (vs : list string) (d : dict Q) (x : string) :
  In x (keys (fold_left (fun d v => set d v c) vs d))
  <-> In x (keys d) \/ In x vs.
Proof.
  revert d. induction vs as [| v vs IH]; intros d; simpl.
  - intuition.
  - rewrite IH, keys_set. intuition.
Qed.

Lemma constant_fold_total (c : Q) (vs : list string) (d : dict Q) :
  NoDup vs -> (forall v, In v vs -> ~ In v (keys d)) ->
  FeatureEngineering.total (fold_left (fun d v => set d v c) vs d)
  == FeatureEngineering.total d + Qnat (List.length vs) * c.
Proof.
  revert d. induction vs as [| v vs IH]; intros d Hnd Hfresh.
  - simpl. unfold Qnat. simpl. ring.
  - inversion Hnd as [| ? ? Hnotin Hnd']; subst. simpl fold_left.
    rewrite IH; [| assumption |].
    + rewrite total_set_new by (apply Hfresh; now left).
      simpl List.length. rewrite FeatureFacts.Qnat_S. ring.
    + intros w Hw Hin. apply keys_set in Hin. destruct Hin as [-> | Hin];
        [contradiction | apply (Hfresh w); [now right | assumption]].
Qed.

(** X17. [setup_ab_testing] never raises, not even for an empty list of
    variants; every listed variant is allocated the share 1 / (number of
    listed variants); and when no variant is listed twice the shares add up
    to 1. *)
Theorem ab_allocation_shares (percentage : Q) (test_variants : option (list string)) :
  let listed := match test_variants with
                | Some vs => vs
                | None => default_variants
                end in
  exists config,
    setup_ab_testing percentage test_variants = Ok config
    /\ variants config = listed
    /\ test_percentage config = percentage
    /\ (forall v, In v listed -> get (allocation config) v = Some (1 / len listed))
    /\ (forall v, ~ In v listed -> get (allocation config) v = None)
    /\ (NoDup listed -> listed <> [] ->
        FeatureEngineering.total (allocation config) == 1).
Proof.
  intros listed. unfold setup_ab_testing. fold listed.
  assert (Halloc : for_each (fun d variant =>
                               bind (truediv 1 (len listed))
                                    (fun share => Ok (set d variant share)))
                            listed []
                   = Ok (fold_left (fun d v => set d v (1 / len listed)) listed [])).
  { apply for_each_as_fold. intros acc x Hin.
    assert (Hp : 0 < len listed) by (apply len_pos; intros E; now rewrite E in Hin).
    rewrite truediv_ok by lra. reflexivity. }
  rewrite Halloc, bind_Ok. eexists. split; [reflexivity |].
  cbn [variants test_percentage allocation].
  split; [reflexivity | split; [reflexivity | split; [| split]]].
  - intros v Hin. rewrite constant_fold_get. apply mem_In in Hin. now rewrite Hin.
  - intros v Hnot. rewrite constant_fold_get. apply mem_false in Hnot.
    now rewrite Hnot.
  - intros Hnd Hne. rewrite constant_fold_total; [| assumption | intros v _ []].
    change (FeatureEngineering.total []) with 0. fold (len listed).
    assert (Hp : 0 < len listed) by now apply len_pos.
    field. lra.
Qed.

Lemma ab_allocation_shares_witness :
  exists config,
    setup_ab_testing (1 # 10) None = Ok config
    /\ variants config = default_variants
    /\ test_percentage config = 1 # 10
    /\ (forall v, In v default_variants ->
                  get (allocation config) v = Some (1 / len default_variants))
    /\ (forall v, ~ In v default_variants -> get (allocation config) v = None)
    /\ (NoDup default_variants -> default_variants <> [] ->
        FeatureEngineering.total (allocation config) == 1).
Proof. exact (ab_allocation_shares (1 # 10) None). Defined.

(** X18. For a digest value from 0 up and a configuration that lists at
    least one variant, [get_user_variant] returns, and what it returns is
    "control" or one of the listed variants: the index never leaves the
    list.  With no variant listed, a user who falls into the test share
    gets [ZeroDivisionError]. *)
Theorem user_variant_is_control_or_listed (hash_value : Z) (config : AbConfig) :
  (0 <= hash_value)%Z ->
  (variants config <> [] ->
   exists v, get_user_variant hash_value config = Ok v
             /\ (v = "control" \/ In v (variants config)))
  /\ (variants config = [] ->
      get_user_variant hash_value config = Ok "control"
      \/ get_user_variant hash_value config = Raise ZeroDivisionError).
Proof.
  intros Hh. unfold get_user_variant.
  destruct (Qlt_bool (test_percentage config) (inject_Z (hash_value mod 100) / 100)).
  { split; [intros _; exists "control"; auto | intros _; now left]. }
  split.
  - intros Hne.
    assert (Hlen : (0 < Z.of_nat (List.length (variants config)))%Z).
    { destruct (variants config); [congruence | simpl; lia]. }
    destruct (Z.eqb_spec (Z.of_nat (List.length (variants config))) 0); [lia |].
    pose proof (Z.mod_pos_bound hash_value _ Hlen) as Hb.
    destruct (nth_error (variants config)
                (Z.to_nat (hash_value mod Z.of_nat (List.length (variants config)))))
      as [v |] eqn:E.
    + exists v. split; [reflexivity |]. right. now apply nth_error_In in E.
    + exfalso. apply nth_error_None in E. lia.
  - intros Hnil. rewrite Hnil. now right.
Qed.

Lemma user_variant_is_control_or_listed_witness :
  (default_variants <> [] ->
   exists v,
     get_user_variant 7
       {| test_percentage := 1 # 10; variants := default_variants;
          allocation := []; metrics_to_track := [];
          minimum_sample_size := 1000; test_duration_days := 14 |} = Ok v
     /\ (v = "control" \/ In v default_variants))
  /\ (default_variants = [] ->
      get_user_variant 7
        {| test_percentage := 1 # 10; variants := default_variants;
           allocation := []; metrics_to_track := [];
           minimum_sample_size := 1000; test_duration_days := 14 |}
      = Ok "control"
      \/ get_user_variant 7
           {| test_percentage := 1 # 10; variants := default_variants;
              allocation := []; metrics_to_track := [];
              minimum_sample_size := 1000; test_duration_days := 14 |}
         = Raise ZeroDivisionError).
Proof.
  apply (@user_variant_is_control_or_listed 7
           {| test_percentage := 1 # 10; variants := default_variants;
              allocation := []; metrics_to_track := [];
              minimum_sample_size := 1000; test_duration_days := 14 |}).
  lia.
Defined.

End EnhancedExtras.

(* ------------------------------------------------------------------ *)
(** ** Success metrics: the report keeps its shape *)
Module PilotExtras.
Import Py PyNotations PyFacts PyMoreFacts Pilot PilotFacts.
Local Open Scope string_scope.
Local Open Scope Q_scope.

Lemma shaped_set (d : dict Q) (k : string) (v : Q) :
  keys d = metric_keys -> mem k metric_keys = true ->
  keys (set d k v) = metric_keys.
Proof.
  intros Hd Hk. rewrite keys_set_present; [assumption |].
  rewrite Hd. now apply mem_In.
Qed.

Ltac keep_shape :=
  repeat (apply shaped_set; [| reflexivity]); try assumption; try reflexivity.

Lemma business_impact_shape (metrics : dict Q)
  (r : RecommendationView) (recs : list RecommendationView)
  (i : Interaction) (ui : list Interaction) (baseline_data : option Baseline) :
  keys metrics = metric_keys ->
  exists m' purchases,
    business_impact metrics (r :: recs) (i :: ui) baseline_data
    = Ok (m', purchases)
    /\ keys m' = metric_keys.
Proof.
  intros Hshape.
  assert (Hr : 0 < len (r :: recs)) by (apply len_pos; discriminate).
  assert (Hu : 0 < len (i :: ui)) by (apply len_pos; discriminate).
  unfold business_impact. cbv zeta.
  repeat step.
  all: cbn [map]; rewrite bind_Ok; eexists; eexists; (split; [reflexivity |]).
  all: keep_shape.
Qed.

(** X19. For every pair of batches and every baseline,
    [measure_success_metrics] returns a report with exactly the 23 metric
    keys in their fixed order; in it the complaint rate lies in [0, 0.05]
    and the customer satisfaction score in [0, 5]. *)
Theorem metrics_report_keeps_shape (recommendations : list RecommendationView)
  (user_interactions : list Interaction) (baseline_data : option Baseline) :
  exists metrics complaint satisfaction,
    measure_success_metrics recommendations user_interactions baseline_data
    = Ok metrics
    /\ keys metrics = metric_keys
    /\ get metrics "complaint_rate" = Some complaint
    /\ 0 <= complaint <= 5 # 100
    /\ get metrics "customer_satisfaction_score" = Some satisfaction
    /\ 0 <= satisfaction <= 5.
Proof.
  destruct recommendations as [| r recs].
  { exists initial_metrics, 0, 0. repeat split; discriminate. }
  destruct user_interactions as [| i ui].
  { exists initial_metrics, 0, 0. repeat split; discriminate. }
  unfold measure_success_metrics.
  assert (Hr : 0 < len (r :: recs)) by (apply len_pos; discriminate).
  assert (Hpos : Qlt_bool 0 (len (r :: recs)) = true) by now apply Qlt_bool_iff.
  rewrite Hpos.
  destruct (business_impact_rates initial_metrics r recs i ui baseline_data)
    as (m' & Hm & Ha & _ & _ & _ & Hs).
  destruct (@business_impact_shape initial_metrics r recs i ui baseline_data
              eq_refl) as (m'' & p'' & Hm'' & Hshape).
  rewrite Hm in Hm''. inversion Hm''; subst m'' p''. clear Hm''.
  rewrite Hm, !bind_Ok. cbn [fst snd]. cbv zeta.
  change (get initial_metrics "customer_satisfaction_score") with (Some 0) in Hs.
  assert (Hadopt : 0 <= len (with_action "purchase" (i :: ui)) / len (r :: recs)).
  { apply Qle_shift_div_l; [assumption |]. rewrite Qmult_0_l. apply len_nonneg. }
  set (adoption := len (with_action "purchase" (i :: ui)) / len (r :: recs)) in *.
  destruct (with_action "purchase" (i :: ui)) as [| p ps].
  - repeat first [ rewrite bind_Ok | progress unfold subscript
                 | progress through_sets | rewrite Hs ].
    eexists. eexists. eexists. split; [reflexivity |].
    split; [keep_shape |]. through_sets.
    split; [reflexivity |]. split; [| split; [exact Hs |]].
    + destruct (Qlt_bool 0 ((5 # 100) - 0 * (1 # 100))) eqn:E; split;
        try discriminate; lra.
    + split; discriminate.
  - repeat first [ rewrite bind_Ok | progress unfold subscript
                 | progress through_sets | rewrite Ha ].
    eexists. eexists. eexists. split; [reflexivity |].
    split; [keep_shape |]. through_sets.
    split; [reflexivity |].
    assert (Hsat : 0 <= (if Qlt_bool ((35 # 10) + adoption * (15 # 10)) 5
                         then (35 # 10) + adoption * (15 # 10) else 5) <= 5).
    { destruct (Qlt_bool ((35 # 10) + adoption * (15 # 10)) 5) eqn:E.
      - apply Qlt_bool_iff in E. split; lra.
      - split; [discriminate | apply Qle_refl]. }
    split; [| split; [reflexivity | exact Hsat]].
    match goal with
    | |- 0 <= (if Qlt_bool 0 ?c then _ else _) <= _ =>
        destruct (Qlt_bool 0 c) eqn:Ec
    end.
    + apply Qlt_bool_iff in Ec. split; lra.
    + split; [apply Qle_refl | discriminate].
Qed.

End PilotExtras.

(* ------------------------------------------------------------------ *)
(** ** Evaluation of predictions *)
Module EvaluationExtras.
Import Py PyNotations PyFacts PyMoreFacts RecommendationEngine Evaluation.
Local Open Scope string_scope.
Local Open Scope Q_scope.

Lemma recall_loop_bounds (ground_truth : list Cell) (k : Z)
  (predictions : list Output) (i : nat) (acc : Q) :
  (i + List.length predictions <= List.length ground_truth)%nat ->
  exists v,
    for_each (recall_step ground_truth k) (enumerate_from i predictions) acc = Ok v
    /\ acc <= v /\ v <= acc + Qnat (List.length predictions).
Proof.
  revert i acc. induction predictions as [| out outs IH]; intros i acc Hlen.
  - exists acc. split; [reflexivity |].
    change (Qnat (List.length (@nil Output))) with (inject_Z 0).
    change (inject_Z 0) with 0. split; lra.
  - simpl in Hlen. simpl for_each. unfold recall_step at 1. simpl fst.
    destruct (nth_error ground_truth i) as [cell |] eqn:E.
    2:{ apply nth_error_None in E. lia. }
    assert (Hstep : exists acc', 
               match cell with
               | NaN => Ok acc
               | Str true_item =>
                   if existsb (fun col => String.eqb (normalise (col (snd (i, out))))
                                                     (normalise true_item))
                              (rec_columns k)
                   then Ok (acc + 1) else Ok acc
               end = Ok acc' /\ acc <= acc' /\ acc' <= acc + 1).
    { destruct cell as [| t]; [exists acc; repeat split; lra |].
      destruct (existsb _ (rec_columns k));
        [exists (acc + 1) | exists acc]; repeat split; lra. }
    destruct Hstep as [acc' [Es [H1 H2]]]. rewrite Es, bind_Ok.
    destruct (IH (S i) acc') as [v [Ev [H3 H4]]]; [lia |].
    exists v. split; [assumption |]. simpl List.length.
    rewrite FeatureFacts.Qnat_S. split; lra.
Qed.

Lemma recall_bounds (predictions : list Output)
  (ground_truth : list Cell) (k : Z) :
  exists score,
    calculate_recall_at_k predictions ground_truth k = Ok score
    /\ 0 <= score <= 1
    /\ (List.length predictions <> List.length ground_truth -> score = 0).
Proof.
  unfold calculate_recall_at_k.
  destruct (Nat.eqb_spec (List.length predictions) (List.length ground_truth))
    as [Hlen | Hlen]; cbn [negb].
  2:{ exists 0. split; [reflexivity |]. split; [split; discriminate |].
      reflexivity. }
  destruct (@recall_loop_bounds ground_truth k predictions 0 0) as [v [Ev [H1 H2]]];
    [lia |].
  unfold enumerate. rewrite Ev, bind_Ok.
  destruct (Qlt_bool 0 (len predictions)) eqn:E.
  - apply Qlt_bool_iff in E. rewrite truediv_ok by lra.
    eexists. split; [reflexivity |]. split; [| intros; contradiction].
    unfold len in *. split.
    + apply Qle_shift_div_l; [assumption | lra].
    + apply Qle_shift_div_r; [assumption | lra].
  - exists 0. split; [reflexivity |]. split; [split; discriminate |].
    intros; contradiction.
Qed.

(** X20. [calculate_recall_at_k] never raises; its score lies in [0, 1];
    and it is 0 when the predictions and the ground truth differ in
    length. *)
Theorem recall_score_in_unit_interval (predictions : list Output)
  (ground_truth : list Cell) (k : Z) :
  exists score,
    calculate_recall_at_k predictions ground_truth k = Ok score
    /\ 0 <= score <= 1
    /\ (List.length predictions <> List.length ground_truth -> score = 0).
Proof. apply recall_bounds. Qed.

Lemma rec_columns_head (k : Z) :
  (1 <= k)%Z -> exists rest, rec_columns k = RECOMMENDATION_1 :: rest.
Proof.
  intros Hk. unfold rec_columns, Enhanced.slice_to.
  destruct (Z.leb_spec 0 k); [| lia].
  destruct (Z.to_nat k) as [| n] eqn:E; [lia |].
  eexists. reflexivity.
Qed.

Lemma recall_loop_own (k : Z) (prefix suffix : list Output) (acc : Q) :
  (1 <= k)%Z ->
  exists v,
    for_each (recall_step (first_recommendations (prefix ++ suffix)) k)
             (enumerate_from (List.length prefix) suffix) acc = Ok v
    /\ v == acc + Qnat (List.length suffix).
Proof.
  intros Hk. revert prefix acc.
  induction suffix as [| out outs IH]; intros prefix acc.
  - exists acc. split; [reflexivity |].
    change (Qnat (List.length (@nil Output))) with (inject_Z 0).
    change (inject_Z 0) with 0. ring.
  - simpl for_each. unfold recall_step at 1. simpl fst. simpl snd.
    assert (Hnth : nth_error (first_recommendations (prefix ++ out :: outs))
                             (List.length prefix)
                   = Some (Str (RECOMMENDATION_1 out))).
    { unfold first_recommendations. rewrite nth_error_map.
      rewrite nth_error_app2 by lia. now rewrite Nat.sub_diag. }
    rewrite Hnth.
    destruct (rec_columns_head Hk) as [rest Hcols]. rewrite Hcols.
    cbn [existsb]. rewrite String.eqb_refl. cbn [orb].
    specialize (IH (prefix ++ [out])%list (acc + 1)).
    rewrite <- app_assoc in IH. simpl app in IH.
    rewrite length_app in IH. simpl List.length in IH.
    rewrite Nat.add_1_r in IH.
    destruct IH as [v [Ev Hv]]. exists v. split; [assumption |].
    rewrite Hv. simpl List.length. rewrite FeatureFacts.Qnat_S. ring.
Qed.

(** X21. Evaluated against a ground truth that names, row by row, the first
    recommendation of that row, a non-empty predictions table scores 1 for
    every [k] from 1 up. *)
Theorem recall_of_own_first_recommendation (predictions : list Output) (k : Z) :
  predictions <> [] ->
  (1 <= k)%Z ->
  exists score,
    calculate_recall_at_k predictions (first_recommendations predictions) k
    = Ok score
    /\ score == 1.
Proof.
  intros Hne Hk. unfold calculate_recall_at_k.
  assert (Hlen : Nat.eqb (List.length predictions)
                         (List.length (first_recommendations predictions)) = true).
  { unfold first_recommendations. rewrite length_map. apply Nat.eqb_refl. }
  rewrite Hlen. cbn [negb].
  destruct (@recall_loop_own k [] predictions 0 Hk) as [v [Ev Hv]].
  simpl in Ev. unfold enumerate. rewrite Ev, bind_Ok.
  assert (Hp : 0 < len predictions) by now apply len_pos.
  assert (Hb : Qlt_bool 0 (len predictions) = true) by now apply Qlt_bool_iff.
  rewrite Hb, truediv_ok by lra.
  eexists. split; [reflexivity |]. rewrite Hv. unfold len. field.
  unfold len in Hp. lra.
Qed.

Lemma recall_of_own_first_recommendation_witness :
  exists score,
    calculate_recall_at_k scenario_outputs
                          (first_recommendations scenario_outputs) 3
    = Ok score
    /\ score == 1.
Proof.
  apply (@recall_of_own_first_recommendation scenario_outputs 3);
    [vm_compute; discriminate | lia].
Defined.

End EvaluationExtras.

(* ------------------------------------------------------------------ *)
(** ** The pipeline of [main.py]: features of the test table, training,
       prediction, evaluation *)
Module PipelineExtras.
Import Py PyNotations PyFacts PyMoreFacts RecommendationEngine.
Import FeatureEngineeringV2 Evaluation.
Local Open Scope string_scope.
Local Open Scope Q_scope.

Lemma count_of_pos (x : string) (names : list string) :
  In x names -> (0 < FeatureEngineering.count_of x names)%nat.
Proof.
  intros Hin. unfold FeatureEngineering.count_of.
  destruct (filter (String.eqb x) names) eqn:E; [| simpl; lia].
  assert (Hf : In x (filter (String.eqb x) names))
    by (apply filter_In; split; [assumption | apply String.eqb_refl]).
  rewrite E in Hf. contradiction.
Qed.

Lemma test_frequency_unfold (test_df : list Row) :
  collect_items test_df <> [] ->
  _calculate_item_frequency_from_test test_df
  = Ok (map (fun kv => (fst kv, snd kv / len (collect_items test_df)))
            (Counter (collect_items test_df))).
Proof.
  intros Hne. unfold _calculate_item_frequency_from_test.
  assert (Hlen : 0 < len (collect_items test_df)) by now apply len_pos.
  destruct (collect_items test_df) as [| n names] eqn:E; [congruence |].
  apply map_result_ok. intros kv _. rewrite truediv_ok by lra. reflexivity.
Qed.

Lemma test_frequency_positive (test_df : list Row) :
  exists freq,
    _calculate_item_frequency_from_test test_df = Ok freq
    /\ FeatureEngineering.positive_values freq.
Proof.
  destruct (collect_items test_df) as [| n names] eqn:E.
  - exists []. unfold _calculate_item_frequency_from_test. rewrite E.
    split; [reflexivity | constructor].
  - assert (Hne : collect_items test_df <> []) by (rewrite E; discriminate).
    eexists. split; [exact (@test_frequency_unfold test_df Hne) |].
    apply FeatureFacts.positive_values_scaled; [| now apply len_pos].
    unfold Counter. apply FeatureFacts.positive_values_count. constructor.
Qed.

(** X22. [_calculate_item_frequency_from_test] never raises.  Its keys are
    the cell texts it collected, each once; the frequency of a text is the
    number of its occurrences divided by the number of collected texts and
    lies in (0, 1]; and when any text was collected the frequencies add up
    to 1. *)
Theorem test_frequencies_are_shares (test_df : list Row) :
  exists freq,
    _calculate_item_frequency_from_test test_df = Ok freq
    /\ NoDup (keys freq)
    /\ (forall x, In x (keys freq) <-> In x (collect_items test_df))
    /\ (forall x v, get freq x = Some v ->
                    v == Qnat (FeatureEngineering.count_of x (collect_items test_df))
                         / len (collect_items test_df)
                    /\ 0 < v /\ v <= 1)
    /\ (collect_items test_df <> [] -> FeatureEngineering.total freq == 1).
Proof.
  destruct (collect_items test_df) as [| n names] eqn:E.
  - exists []. unfold _calculate_item_frequency_from_test. rewrite E.
    split; [reflexivity |]. split; [constructor |].
    split; [intros x; reflexivity |].
    split; [intros x v H; discriminate H | intros H; congruence].
  - assert (Hne : collect_items test_df <> []) by (rewrite E; discriminate).
    pose proof (@test_frequency_unfold test_df Hne) as Hok. rewrite E in Hok.
    set (all_items := (n :: names)%list) in *.
    assert (Hlen : 0 < len all_items) by (apply len_pos; discriminate).
    eexists. split; [exact Hok |].
    assert (Hkeys : keys (map (fun kv : string * Q => (fst kv, snd kv / len all_items))
                              (Counter all_items))
                    = keys (Counter all_items)).
    { unfold keys. rewrite map_map. reflexivity. }
    assert (Hin : forall x, In x (keys (Counter all_items)) <-> In x all_items).
    { intros x. unfold Counter. rewrite FeatureExtras.counts_keys. simpl. tauto. }
    split; [| split; [| split]].
    + rewrite Hkeys. unfold Counter. apply FeatureExtras.counts_NoDup. constructor.
    + intros x. rewrite Hkeys. apply Hin.
    + intros x v Hget.
      rewrite (get_map_values (fun c => c / len all_items)) in Hget.
      destruct (get (Counter all_items) x) as [c |] eqn:Ec; [| discriminate].
      simpl in Hget. injection Hget as <-.
      assert (Hc : c == Qnat (FeatureEngineering.count_of x all_items)).
      { pose proof (FeatureExtras.counts_value all_items [] x) as Hv.
        fold (Counter all_items) in Hv. unfold get_or in Hv.
        rewrite Ec in Hv. simpl in Hv. rewrite Hv. ring. }
      assert (Hx : In x all_items).
      { apply Hin. apply get_In in Ec. unfold keys. apply in_map_iff.
        exists (x, c). now split. }
      assert (Hpos : (0 < FeatureEngineering.count_of x all_items)%nat) by now apply count_of_pos.
      assert (Hle : (FeatureEngineering.count_of x all_items <= List.length all_items)%nat)
        by (unfold FeatureEngineering.count_of; apply filter_length_le).
      rewrite Hc. split; [reflexivity |]. split.
      * apply Qlt_shift_div_l; [assumption |]. rewrite Qmult_0_l.
        now apply FeatureFacts.Qnat_pos.
      * apply Qle_shift_div_r; [assumption |]. rewrite Qmult_1_l.
        unfold len. now apply FeatureFacts.Qnat_le.
    + intros _. rewrite FeatureExtras.total_scaled. unfold Counter. rewrite FeatureExtras.total_counts.
      change (FeatureEngineering.total []) with 0. fold (len all_items). field. lra.
Qed.

(** X23. Steps 2 to 6 of [main]: whatever the test table, when the features
    carry the frequency table [_calculate_item_frequency_from_test] made of
    it, [train] ends normally and sets the trained flag, [predict] returns
    one output row per test row, and [calculate_recall_at_k] on these rows
    returns a score in [0, 1] for every ground-truth column. *)
Theorem pipeline_trains_predicts_and_scores (self : Engine) (f : Features)
  (test_df : list Row) (missing_item : list Cell) :
  _calculate_item_frequency_from_test test_df = Ok (item_frequency f) ->
  exists scores predictions score,
    train self f
    = ({| features := Some f; trained := true;
          item_similarity := item_similarity self;
          popularity_scores := scores |}, Ok tt)
    /\ predict (fst (train self f)) test_df = Ok predictions
    /\ List.length predictions = List.length test_df
    /\ calculate_recall_at_k predictions missing_item 3 = Ok score
    /\ 0 <= score <= 1.
Proof.
  intros Hfreq.
  destruct (test_frequency_positive test_df) as [freq [Hok Hpos]].
  assert (Hf : freq = item_frequency f) by congruence. subst freq.
  destruct (@BlenderExtras.train_predict_positive self f test_df Hpos)
    as [scores [predictions [Htrain [_ [Hpredict Hlen]]]]].
  destruct (EvaluationExtras.recall_bounds predictions missing_item 3)
    as [score [Hscore [Hbounds _]]].
  exists scores, predictions, score. auto.
Qed.

Lemma pipeline_trains_predicts_and_scores_witness :
  exists scores predictions score,
    train __init__ (features_of_test [wings_row])
    = ({| features := Some (features_of_test [wings_row]); trained := true;
          item_similarity := item_similarity __init__;
          popularity_scores := scores |}, Ok tt)
    /\ predict (fst (train __init__ (features_of_test [wings_row]))) [wings_row]
       = Ok predictions
    /\ List.length predictions = List.length [wings_row]
    /\ calculate_recall_at_k predictions [Str "Ranch Dip"] 3 = Ok score
    /\ 0 <= score <= 1.
Proof.
  apply (@pipeline_trains_predicts_and_scores __init__
           (features_of_test [wings_row]) [wings_row] [Str "Ranch Dip"]).
  reflexivity.
Defined.

End PipelineExtras.
